(** * Umbrella clean-up: candidate selection and staged deletion

    A shallow embedding of the Python scripts of the Umbrella clean-up
    workflow and the properties of its filtering, selection and deletion
    stages.

    - [Py]               the fragment of the Python runtime the scripts call
                         (str methods, [int], [range], slicing, [datetime]);
    - [Eff]              exceptions, the event log and the monad the scripts
                         run in;
    - [timestamps]       [utils/timestamps.py];
    - [main]             [filter_by_created_age] of [Umbrella clean-up/main.py];
    - [selector]         [scripts/destination_cleanup_selector.py];
    - [umbrella_delete]  [scripts/umbrella_delete.py];
    - [PyTime], [PyJson] [strftime], [fromtimestamp] and the scalars of JSON;
    - [Io]               the exceptions, the log and the monad of the
                         interactive stages;
    - [prompts]          the prompts of [Umbrella clean-up/main.py];
    - [umbrella_list_overview]
                         [scripts/umbrella_list_overview.py], the export;
    - [defender_crosscheck]
                         [scripts/defender_crosscheck.py]. *)

From Stdlib Require Import ZArith List Ascii String Lia Bool.
From stdpp Require Import base option list gmap strings pretty.

Local Open Scope string_scope.
Local Open Scope Z_scope.

(* ===================================================================== *)
(** * The Python runtime fragment *)
(* ===================================================================== *)

Module Py.

(** ** Strings

    A [str] is modelled as a [string] whose characters are the code points
    below 256. *)

(** [str.isspace] on one character: the code points below 256 that Unicode
    classifies as white space (TAB..CR, FS..US, SPACE, NEL, NBSP). *)
Definition isspace (c : ascii) : bool :=
  let n := Z.of_nat (nat_of_ascii c) in
  ((9 <=? n) && (n <=? 13)) || ((28 <=? n) && (n <=? 32))
  || (n =? 133) || (n =? 160).

Definition isdigit (c : ascii) : bool :=
  let n := Z.of_nat (nat_of_ascii c) in (48 <=? n) && (n <=? 57).

Definition digit_val (c : ascii) : Z := Z.of_nat (nat_of_ascii c) - 48.

(** [s.lstrip()] *)
Fixpoint lstrip (s : string) : string :=
  match s with
  | String c s' => if isspace c then lstrip s' else s
  | EmptyString => EmptyString
  end.

(** [s.rstrip()] *)
Fixpoint rstrip (s : string) : string :=
  match s with
  | String c s' =>
      match rstrip s' with
      | EmptyString => if isspace c then EmptyString else String c EmptyString
      | r => String c r
      end
  | EmptyString => EmptyString
  end.

(** [s.strip()] *)
Definition strip (s : string) : string := rstrip (lstrip s).

(** [s.startswith(p)] *)
Fixpoint startswith (p s : string) : bool :=
  match p, s with
  | EmptyString, _ => true
  | String a p', String b s' => if Ascii.eqb a b then startswith p' s' else false
  | String _ _, EmptyString => false
  end.

(** [sub in s] *)
Fixpoint contains (sub s : string) : bool :=
  startswith sub s ||
  match s with
  | String _ s' => contains sub s'
  | EmptyString => false
  end.

(** [s.replace(old, new)]: left to right, non-overlapping. [skip] counts the
    characters of a matched occurrence of [old] still to be dropped. *)
Fixpoint replace_from (old new : string) (skip : nat) (s : string) : string :=
  match s with
  | EmptyString => EmptyString
  | String c s' =>
      match skip with
      | S k => replace_from old new k s'
      | O =>
          if startswith old s
          then new +:+ replace_from old new (String.length old - 1) s'
          else String c (replace_from old new O s')
      end
  end.

Fixpoint intersperse_str (new s : string) : string :=
  match s with
  | EmptyString => new
  | String c s' => new +:+ String c (intersperse_str new s')
  end.

Definition replace (old new s : string) : string :=
  match old with
  | EmptyString => intersperse_str new s
  | _ => replace_from old new O s
  end.

(** [s.lower()] on the code points below 256: the letters A-Z and the
    accented capitals move up by 32. *)
Definition lower_char (c : ascii) : ascii :=
  let n := nat_of_ascii c in
  if ((65 <=? n) && (n <=? 90) || (192 <=? n) && (n <=? 222) && negb (n =? 215))%nat
  then ascii_of_nat (n + 32) else c.

Fixpoint lower (s : string) : string :=
  match s with
  | String c s' => String (lower_char c) (lower s')
  | EmptyString => EmptyString
  end.

(** ** [os.path.splitext], POSIX flavour *)

(** [s.rfind(c)] for a one-character [c], counting from [i]. *)
Fixpoint rfind_from (c : ascii) (i : Z) (s : string) : Z :=
  match s with
  | EmptyString => -1
  | String c' s' =>
      let r := rfind_from c (i + 1) s' in
      if 0 <=? r then r else if Ascii.eqb c c' then i else -1
  end.

Definition rfind (c : ascii) (s : string) : Z := rfind_from c 0 s.

Fixpoint str_take (n : nat) (s : string) : string :=
  match n, s with
  | S n', String c s' => String c (str_take n' s')
  | _, _ => EmptyString
  end.

Fixpoint str_drop (n : nat) (s : string) : string :=
  match n, s with
  | S n', String _ s' => str_drop n' s'
  | _, _ => s
  end.

(** Whether some character of [s] is not [c]. *)
Fixpoint some_other_char (c : ascii) (s : string) : bool :=
  match s with
  | String c' s' => negb (Ascii.eqb c c') || some_other_char c s'
  | EmptyString => false
  end.

(** [os.path.splitext(p)]: the extension starts at the last dot of the last
    component, unless only dots precede it there. *)
Definition splitext (p : string) : string * string :=
  let sepIndex := rfind "/" p in
  let dotIndex := rfind "." p in
  if (sepIndex <? dotIndex)
     && some_other_char "."
          (str_take (Z.to_nat (dotIndex - (sepIndex + 1)))
                    (str_drop (Z.to_nat (sepIndex + 1)) p))
  then (str_take (Z.to_nat dotIndex) p, str_drop (Z.to_nat dotIndex) p)
  else (p, EmptyString).

(** [str(value)] for a value that is [None] or a [str]. *)
Definition str (value : option string) : string :=
  match value with
  | Some s => s
  | None => "None"
  end.

(** Truthiness of a value that is [None] or a [str]: [if value]. *)
Definition truthy (value : option string) : bool :=
  match value with
  | Some (String _ _) => true
  | _ => false
  end.

(** ** [int(str)]

    White space around the number is skipped, one sign is allowed, then
    decimal digits, single underscores allowed between digits.  [None]
    stands for [ValueError].  CPython's default limit of 4300 digits is
    included. *)

(** The white space [int] skips: the white space of C (TAB..CR, SPACE), and
    NEL and NBSP, which it turns into spaces first.  The separators FS..US
    are not among it, although [str.strip] removes them. *)
Definition int_space (c : ascii) : bool :=
  let n := Z.of_nat (nat_of_ascii c) in
  ((9 <=? n) && (n <=? 13)) || (n =? 32) || (n =? 133) || (n =? 160).

Fixpoint int_skip (s : string) : string :=
  match s with
  | String c s' => if int_space c then int_skip s' else s
  | EmptyString => EmptyString
  end.

Fixpoint int_skip_end (s : string) : string :=
  match s with
  | String c s' =>
      match int_skip_end s' with
      | EmptyString => if int_space c then EmptyString else String c EmptyString
      | r => String c r
      end
  | EmptyString => EmptyString
  end.

Fixpoint int_digits (after_digit : bool) (acc : Z) (n : nat) (s : string)
  : option (Z * nat) :=
  match s with
  | EmptyString => if after_digit then Some (acc, n) else None
  | String c s' =>
      if isdigit c then int_digits true (10 * acc + digit_val c) (S n) s'
      else if Ascii.eqb c "_" then
        if after_digit then int_digits false acc n s' else None
      else None
  end.

Definition max_str_digits : nat := 4300.

Definition int_unsigned (s : string) : option Z :=
  match s with
  | EmptyString => None
  | String c _ =>
      if isdigit c then
        match int_digits false 0 O s with
        | Some (v, n) => if (n <=? max_str_digits)%nat then Some v else None
        | None => None
        end
      else None
  end.

Definition int (s : string) : option Z :=
  match int_skip_end (int_skip s) with
  | String "+" r => int_unsigned r
  | String "-" r => Z.opp <$> int_unsigned r
  | r => int_unsigned r
  end.

(** ** [range] and slicing *)

(** [len(l)] *)
Definition len {A} (l : list A) : Z := Z.of_nat (length l).

(** [range(start, stop, step)] as the list it iterates over; [None] stands
    for the [ValueError] raised for a zero step. *)
Definition range (start stop step : Z) : option (list Z) :=
  if step =? 0 then None
  else
    let n := if 0 <? step
             then (stop - start + step - 1) / step
             else (start - stop - step - 1) / (- step) in
    Some (map (fun k => start + Z.of_nat k * step) (seq 0 (Z.to_nat n))).

(** An index of a slice brought into [0 .. len]. *)
Definition clamp_index (n i : Z) : Z :=
  if i <? 0 then Z.max (i + n) 0 else Z.min i n.

(** [l[lo:hi]] *)
Definition slice {A} (l : list A) (lo hi : Z) : list A :=
  let n := len l in
  let lo' := clamp_index n lo in
  let hi' := clamp_index n hi in
  take (Z.to_nat (hi' - lo')) (drop (Z.to_nat lo') l).

(** ** [datetime]

    A [datetime] is its wall-clock reading, counted in microseconds from the
    start of the day of ordinal 0 (so that 0001-01-01 00:00:00 is one day),
    and its [tzinfo]: [None] for a naive value, [Some off] for a fixed UTC
    offset of [off] microseconds.  [timezone.utc] is [Some 0]. *)

Record datetime := mk_datetime { wall : Z; tzinfo : option Z }.

Definition utc : option Z := Some 0.

Definition US_PER_SECOND : Z := 1000000.
Definition US_PER_DAY : Z := 86400 * US_PER_SECOND.
Definition MAXORDINAL : Z := 3652059.   (* date.max.toordinal() *)

(** The readings a [datetime] can hold: 0001-01-01 .. 9999-12-31. *)
Definition in_range (w : Z) : bool :=
  (US_PER_DAY <=? w) && (w <? (MAXORDINAL + 1) * US_PER_DAY).

Definition is_leap (y : Z) : bool :=
  (y mod 4 =? 0) && (negb (y mod 100 =? 0) || (y mod 400 =? 0)).

Definition days_before_year (year : Z) : Z :=
  let y := year - 1 in y * 365 + y / 4 - y / 100 + y / 400.

Definition days_in_month (year month : Z) : Z :=
  if month =? 2 then (if is_leap year then 29 else 28)
  else if (month =? 4) || (month =? 6) || (month =? 9) || (month =? 11)
       then 30 else 31.

Definition days_before_month (year month : Z) : Z :=
  nth (Z.to_nat month) [0; 0; 31; 59; 90; 120; 151; 181; 212; 243; 273; 304; 334] 0
  + (if (2 <? month) && is_leap year then 1 else 0).

Definition ymd2ord (year month day : Z) : Z :=
  days_before_year year + days_before_month year month + day.

(** [datetime(year, month, day, hour, minute, second, microsecond, tzinfo)];
    [None] stands for the [ValueError] of a field out of range. *)
Definition new_datetime (year month day hour minute second us : Z)
    (tz : option Z) : option datetime :=
  if (1 <=? year) && (year <=? 9999) && (1 <=? month) && (month <=? 12)
     && (1 <=? day) && (day <=? days_in_month year month)
     && (0 <=? hour) && (hour <=? 23) && (0 <=? minute) && (minute <=? 59)
     && (0 <=? second) && (second <=? 59) && (0 <=? us) && (us <=? 999999)
  then Some (mk_datetime
               (ymd2ord year month day * US_PER_DAY
                + ((hour * 60 + minute) * 60 + second) * US_PER_SECOND + us)
               tz)
  else None.

(** [timezone(offset)]: the offset must be strictly within one day. *)
Definition new_timezone (off : Z) : option Z :=
  if (- US_PER_DAY <? off) && (off <? US_PER_DAY) then Some off else None.

(** [dt.replace(tzinfo=tz)] *)
Definition replace_tzinfo (dt : datetime) (tz : option Z) : datetime :=
  mk_datetime (wall dt) tz.

(** [dt.astimezone(timezone.utc)] for an aware [dt]; [None] stands for the
    [OverflowError] of a result outside the representable years.  A naive
    [dt] would be read in the zone of the machine, which is not part of this
    model: the scripts make [dt] aware before they call it. *)
Definition astimezone_utc (dt : datetime) : option datetime :=
  match tzinfo dt with
  | Some off =>
      let w := wall dt - off in
      if in_range w then Some (mk_datetime w utc) else None
  | None => None
  end.

Definition MAX_DELTA_DAYS : Z := 999999999.

(** [dt - timedelta(days=days)]; [None] stands for [OverflowError], raised
    by [timedelta] for a magnitude above 999999999 days and by the
    subtraction for a result outside the representable years. *)
Definition sub_days (dt : datetime) (days : Z) : option datetime :=
  if (- MAX_DELTA_DAYS <=? days) && (days <=? MAX_DELTA_DAYS) then
    let w := wall dt - days * US_PER_DAY in
    if in_range w then Some (mk_datetime w (tzinfo dt)) else None
  else None.

(** [a <= b]; [None] stands for the [TypeError] of comparing a naive with an
    aware value. *)
Definition le (a b : datetime) : option bool :=
  match tzinfo a, tzinfo b with
  | None, None => Some (wall a <=? wall b)
  | Some oa, Some ob => Some (wall a - oa <=? wall b - ob)
  | _, _ => None
  end.

(** ** [datetime.strptime]

    [strptime] turns a format into a regular expression, takes the first
    match at the start of the text and rejects text with anything left
    over.  The expressions it builds are sequences of literal characters,
    runs of white space and groups of alternatives, each alternative a
    sequence of character classes; [run_items] matches such a sequence the
    way the backtracking matcher does, alternatives in order, the longest
    run of white space first. *)

Definition char_class := ascii -> bool.

Inductive item :=
| Group (alts : list (list char_class))
| Lit (c : ascii)
| Spaces.

Definition is_char (c : ascii) : char_class := Ascii.eqb c.
Definition between (lo hi : ascii) : char_class := fun c =>
  (nat_of_ascii lo <=? nat_of_ascii c)%nat && (nat_of_ascii c <=? nat_of_ascii hi)%nat.

(** The number a group's text denotes: its digits, other characters skipped
    (a day may be written with a leading blank). *)
Fixpoint digits_value (acc : Z) (s : string) : Z :=
  match s with
  | EmptyString => acc
  | String c s' =>
      digits_value (if isdigit c then 10 * acc + digit_val c else acc) s'
  end.

Fixpoint match_classes (cs : list char_class) (s : string)
  : option (string * string) :=
  match cs with
  | [] => Some (EmptyString, s)
  | cl :: cs' =>
      match s with
      | String c s' =>
          if cl c then
            match match_classes cs' s' with
            | Some (txt, rest) => Some (String c txt, rest)
            | None => None
            end
          else None
      | EmptyString => None
      end
  end.

(** What is left after each possible non-empty run of white space at the
    start of [s], the longest run first. *)
Fixpoint after_spaces (s : string) : list string :=
  match s with
  | String c s' => if isspace c then (after_spaces s' ++ [s'])%list else []
  | EmptyString => []
  end.

Fixpoint first_success {A B} (f : A -> option B) (l : list A) : option B :=
  match l with
  | [] => None
  | a :: l' => match f a with Some b => Some b | None => first_success f l' end
  end.

Fixpoint run_items (items : list item) (s : string) : option (list Z * string) :=
  match items with
  | [] => Some ([], s)
  | Lit c :: items' =>
      match s with
      | String c' s' => if Ascii.eqb c c' then run_items items' s' else None
      | EmptyString => None
      end
  | Spaces :: items' => first_success (run_items items') (after_spaces s)
  | Group alts :: items' =>
      first_success
        (fun cs =>
           match match_classes cs s with
           | Some (txt, rest) =>
               match run_items items' rest with
               | Some (vals, rest') => Some (digits_value 0 txt :: vals, rest')
               | None => None
               end
           | None => None
           end)
        alts
  end.

Definition d09 : char_class := between "0" "9".

(** The expression of the format ["%Y-%m-%d %H:%M:%S"]. *)
Definition csv_format : list item :=
  [ Group [[d09; d09; d09; d09]];                                   (* %Y *)
    Lit "-";
    Group [[is_char "1"; between "0" "2"]; [is_char "0"; between "1" "9"];
           [between "1" "9"]];                                      (* %m *)
    Lit "-";
    Group [[is_char "3"; between "0" "1"]; [between "1" "2"; d09];
           [is_char "0"; between "1" "9"]; [between "1" "9"];
           [is_char " "; between "1" "9"]];                         (* %d *)
    Spaces;
    Group [[is_char "2"; between "0" "3"]; [between "0" "1"; d09]; [d09]];  (* %H *)
    Lit ":";
    Group [[between "0" "5"; d09]; [d09]];                          (* %M *)
    Lit ":";
    Group [[is_char "6"; between "0" "1"]; [between "0" "5"; d09]; [d09]]   (* %S *)
  ].

(** [datetime.strptime(s, "%Y-%m-%d %H:%M:%S")]; [None] stands for
    [ValueError].  The result is naive. *)
Definition strptime_csv (s : string) : option datetime :=
  match run_items csv_format s with
  | Some ([year; month; day; hour; minute; second], EmptyString) =>
      new_datetime year month day hour minute second 0 None
  | _ => None
  end.

(** ** [datetime.fromisoformat]

    The grammar the library documents up to Python 3.10:
    [YYYY-MM-DD[*HH[:MM[:SS[.fff[fff]]]][+HH:MM[:SS[.ffffff]]]]], where [*]
    is any one character.  [None] stands for [ValueError].  Later versions
    accept more spellings; only the evaluation of sample texts below depends
    on the grammar. *)

Fixpoint take_digits (n : nat) (acc : Z) (s : string) : option (Z * string) :=
  match n with
  | O => Some (acc, s)
  | S n' =>
      match s with
      | String c s' =>
          if isdigit c then take_digits n' (10 * acc + digit_val c) s' else None
      | EmptyString => None
      end
  end.

(** [.fff[fff]], or nothing. *)
Definition iso_fraction (s : string) : option (Z * string) :=
  match s with
  | String "." s' =>
      match take_digits 6 0 s' with
      | Some r => Some r
      | None =>
          match take_digits 3 0 s' with
          | Some (ms, rest) => Some (ms * 1000, rest)
          | None => None
          end
      end
  | _ => Some (0, s)
  end.

(** [HH[:MM[:SS[.fff[fff]]]]] and what follows it. *)
Definition iso_hh_mm_ss_ff (s : string) : option (Z * Z * Z * Z * string) :=
  match take_digits 2 0 s with
  | Some (hh, String ":" s1) =>
      match take_digits 2 0 s1 with
      | Some (mm, String ":" s2) =>
          match take_digits 2 0 s2 with
          | Some (ss, s3) =>
              match iso_fraction s3 with
              | Some (us, rest) => Some (hh, mm, ss, us, rest)
              | None => None
              end
          | None => None
          end
      | Some (mm, rest) => Some (hh, mm, 0, 0, rest)
      | None => None
      end
  | Some (hh, rest) => Some (hh, 0, 0, 0, rest)
  | None => None
  end.

(** [+HH:MM[:SS[.ffffff]]] up to the end of the text, or nothing. *)
Definition iso_offset (s : string) : option (option Z) :=
  match s with
  | EmptyString => Some None
  | String sign tz =>
      if Ascii.eqb sign "+" || Ascii.eqb sign "-" then
        let n := String.length tz in
        if (n =? 5)%nat || (n =? 8)%nat || (n =? 15)%nat then
          match iso_hh_mm_ss_ff tz with
          | Some (hh, mm, ss, us, EmptyString) =>
              let off := ((hh * 60 + mm) * 60 + ss) * US_PER_SECOND + us in
              match new_timezone (if Ascii.eqb sign "-" then - off else off) with
              | Some o => Some (Some o)
              | None => None
              end
          | _ => None
          end
        else None
      else None
  end.

Definition fromisoformat (s : string) : option datetime :=
  match take_digits 4 0 s with
  | Some (year, String "-" s1) =>
      match take_digits 2 0 s1 with
      | Some (month, String "-" s2) =>
          match take_digits 2 0 s2 with
          | Some (day, EmptyString) => new_datetime year month day 0 0 0 0 None
          | Some (day, String _ t) =>
              match iso_hh_mm_ss_ff t with
              | Some (hh, mm, ss, us, rest) =>
                  match iso_offset rest with
                  | Some tz => new_datetime year month day hh mm ss us tz
                  | None => None
                  end
              | None => None
              end
          | None => None
          end
      | _ => None
      end
  | _ => None
  end.

End Py.

(* ===================================================================== *)
(** * Effects *)
(* ===================================================================== *)

(** A record of a CSV file as [csv.DictReader] yields it: a dict from the
    column names to the cells, a cell being a [str], or [None] where the
    line was shorter than the header.  The file is taken to have a header
    line and no line longer than it (the reader would file the surplus cells
    of such a line under the key [None]). *)
Abbreviation row := (gmap string (option string)).

(** [row.get(key)] *)
Definition row_get (r : row) (key : string) : option string :=
  match r !! key with
  | Some cell => cell
  | None => None
  end.

(** [row.get(key, "")] *)
Definition row_get_or_empty (r : row) (key : string) : option string :=
  match r !! key with
  | Some cell => cell
  | None => Some EmptyString
  end.

Module Eff.

Inductive exn :=
| SystemExit (msg : string)
| ValueError
| TypeError
| KeyError
| OverflowError
| OSError.

(** The result of running a piece of code: the value it returns, or the
    exception that leaves it. *)
Inductive outcome (A : Type) :=
| Ret (a : A)
| Raise (e : exn).
Arguments Ret {A} a.
Arguments Raise {A} e.

#[export] Instance outcome_ret : MRet outcome := fun A a => Ret a.
#[export] Instance outcome_bind : MBind outcome := fun A B f m =>
  match m with
  | Ret a => f a
  | Raise e => Raise e
  end.

(** A library call that signals failure by raising [e]. *)
Definition or_raise {A} (e : exn) (o : option A) : outcome A :=
  match o with
  | Some a => Ret a
  | None => Raise e
  end.

(** [try: body  except: pass] followed by [rest]: [body] either returns
    from the function or raises, and any exception lets [rest] run. *)
Definition try_except_pass {A} (body rest : outcome A) : outcome A :=
  match body with
  | Ret a => Ret a
  | Raise _ => rest
  end.

(** What a script prints, statement by statement, with the values it
    interpolates. *)
Inductive line :=
| AgeCutoff (cutoff : Py.datetime) (created_days : Z)
| AgeTotal (total : Z)
| AgeKept (created_days : Z) (kept : Z)
| AgeTooNew (too_new : Z)
| AgeOutput (path : string)
| SelLoaded (path : string)
| SelTotal (total : Z)
| SelCreated (created_days : Z) (created_matches : Z)
| SelDefender (defender_days : Z) (defender_inactive_matches : Z)
| SelNotEvaluated
| SelCandidates (n : Z)
| SelExportedCsv (path : string)
| SelExportedIds (path : string)
| DelLoaded (n : Z)
| DelListId (list_id : Z)
| DelListName (list_name : string)
| DelMode (dry_run : bool)
| DelCancelled
| DryRunHeader
| DryRunIds (ids : list Z)
| DryRunComplete
| DelStarting (total : Z)
| DelBatch (deleted total size : Z)
| DelBatchError (chunk : list Z)
| SummaryHeader
| SummaryDeleted (deleted : Z)
| SummaryFailed (failed : Z)
| SummarySaved (path : string).

(** What a script does to the world around it. *)
Inductive event :=
| Printed (l : line)
| Input (prompt : string)
| TokenRequest
| DeleteRequest (list_id : Z) (payload : list Z)
| Sleep
| WriteCsv (path : string) (fieldnames : list string) (rows : list row)
| WriteJson (path : string) (content : list Z).

(** A script: it extends the log of events and returns or raises. *)
Definition M (A : Type) : Type := list event -> list event * outcome A.

#[export] Instance M_ret : MRet M := fun A a log => (log, Ret a).
#[export] Instance M_bind : MBind M := fun A B f m log =>
  match m log with
  | (log', Ret a) => f a log'
  | (log', Raise e) => (log', Raise e)
  end.

Definition lift {A} (o : outcome A) : M A := fun log => (log, o).
Definition raise {A} (e : exn) : M A := lift (Raise e).
Definition emit (ev : event) : M unit := fun log => ((log ++ [ev])%list, Ret tt).
Definition print (l : line) : M unit := emit (Printed l).

(** [for x in xs: acc = body(acc, x)] *)
Fixpoint for_each {A S} (body : S -> A -> M S) (acc : S) (xs : list A) : M S :=
  match xs with
  | [] => mret acc
  | x :: xs' => acc' ← body acc x; for_each body acc' xs'
  end.

(** Running a script from an empty log. *)
Definition run {A} (m : M A) : list event * outcome A := m [].

End Eff.

Import Eff.

(* ===================================================================== *)
(** * utils/timestamps.py *)
(* ===================================================================== *)

Module timestamps.

(** The [try] block of the ISO branch: it returns the converted value. *)
Definition iso_block (v : string) : outcome (option Py.datetime) :=
  let v_norm := Py.replace "Z" "+00:00" v in
  dt ← or_raise ValueError (Py.fromisoformat v_norm);
  let dt := match Py.tzinfo dt with
            | None => Py.replace_tzinfo dt Py.utc
            | Some _ => dt
            end in
  r ← or_raise OverflowError (Py.astimezone_utc dt);
  mret (Some r).

(** The [try] block of the CSV format. *)
Definition csv_block (v : string) : outcome (option Py.datetime) :=
  dt ← or_raise ValueError (Py.strptime_csv v);
  mret (Some (Py.replace_tzinfo dt Py.utc)).

(** [parse_timestamp(value)] for a [value] that is [None] or a [str]. *)
Definition parse_timestamp (value : option string) : outcome (option Py.datetime) :=
  if negb (Py.truthy value) then Ret None
  else
    let v := Py.strip (Py.str value) in
    let csv_then_none := try_except_pass (csv_block v) (Ret None) in
    if Py.contains "T" v
    then try_except_pass (iso_block v) csv_then_none
    else csv_then_none.

End timestamps.

(* ===================================================================== *)
(** * The world the scripts run in *)
(* ===================================================================== *)

(** What the scripts read from their surroundings.  Record sets arrive
    already read, as the header and the records of the CSV file; a transport
    failure of an HTTP request is outside this model, every request gets a
    response. *)
Record env := mk_env {
  clock : Z;                              (* reading of [datetime.now(timezone.utc)] *)
  abspath : string -> string;             (* [os.path.abspath] *)
  writable : string -> bool;              (* whether [open(path, "w")] succeeds *)
  id_files : string -> option (list Z);   (* the ID-list JSON files that exist *)
  stdin : string;                         (* the line typed at the prompt *)
  credentials : bool;                     (* client id and secret both set *)
  oauth_status : Z;                       (* status of the token response *)
  oauth_token : option string;            (* its ["access_token"], if any *)
  delete_status : nat -> Z                (* status of the k-th delete response *)
}.

Definition now (e : env) : Py.datetime := Py.mk_datetime (clock e) Py.utc.

(** [with open(path, "w") as f: csv.DictWriter(...).writeheader(); writerows(rows)] *)
Definition write_csv (e : env) (path : string) (fieldnames : list string)
    (rows : list row) : M unit :=
  if writable e path then emit (WriteCsv path fieldnames rows) else raise OSError.

(** [with open(path, "w") as f: json.dump(content, f, indent=2)] *)
Definition write_json (e : env) (path : string) (content : list Z) : M unit :=
  if writable e path then emit (WriteJson path content) else raise OSError.

(** [value is None or value <= cutoff] *)
Definition none_or_le (value : option Py.datetime) (cutoff : option Py.datetime)
  : outcome bool :=
  match value with
  | None => Ret true
  | Some t =>
      match cutoff with
      | Some c => or_raise TypeError (Py.le t c)
      | None => Raise TypeError
      end
  end.

(* ===================================================================== *)
(** * Umbrella clean-up/main.py *)
(* ===================================================================== *)

Module main.

(** The body of [for row in rows] in [filter_by_created_age]. *)
Definition filter_body (cutoff : Py.datetime) (acc : list row * Z) (r : row)
  : M (list row * Z) :=
  let '(kept, too_new) := acc in
  created ← lift (timestamps.parse_timestamp (row_get r "createdAt"));
  keep ← lift (none_or_le created (Some cutoff));
  if keep : bool then mret ((kept ++ [r])%list, too_new)
  else mret (kept, too_new + 1).

Definition filter_by_created_age (e : env) (csv_path : string)
    (fieldnames : list string) (rows : list row) (created_days : Z) : M string :=
  cutoff ← lift (or_raise OverflowError (Py.sub_days (now e) created_days));
  print (AgeCutoff cutoff created_days);;
  let total := Py.len rows in
  '(kept, too_new) ← for_each (filter_body cutoff) ([], 0) rows;
  let base := fst (Py.splitext csv_path) in
  let output_path := base +:+ "_created_gte_" +:+ pretty created_days +:+ "d.csv" in
  write_csv e output_path fieldnames kept;;
  print (AgeTotal total);;
  print (AgeKept created_days (Py.len kept));;
  print (AgeTooNew too_new);;
  print (AgeOutput output_path);;
  mret (abspath e output_path).

End main.

(* ===================================================================== *)
(** * Umbrella clean-up/scripts/destination_cleanup_selector.py *)
(* ===================================================================== *)

Module selector.

(** The body of [for row in rows] in [run_cleanup_selector]; the
    accumulator is [(created_matches, defender_inactive_matches, candidates)]. *)
Definition select_body (cutoff_created : Py.datetime) (defender_days : option Z)
    (cutoff_defender : option Py.datetime)
    (acc : Z * Z * list row) (r : row) : M (Z * Z * list row) :=
  let '(created_matches, defender_inactive_matches, candidates) := acc in
  created_at ← lift (timestamps.parse_timestamp (row_get r "createdAt"));
  aged ← lift (none_or_le created_at (Some cutoff_created));
  if negb aged then mret acc                                  (* continue *)
  else
    let created_matches := created_matches + 1 in
    match defender_days with
    | None =>
        mret (created_matches, defender_inactive_matches + 1,
              (candidates ++ [r])%list)                       (* continue *)
    | Some _ =>
        last_seen ← lift (timestamps.parse_timestamp (row_get r "observedInDefender"));
        inactive ← lift (none_or_le last_seen cutoff_defender);
        if inactive : bool
        then mret (created_matches, defender_inactive_matches + 1,
                   (candidates ++ [r])%list)
        else mret (created_matches, defender_inactive_matches, candidates)
    end.

(** [{k: row.get(k, "") for k in clean_fieldnames}] *)
Definition cleaned (clean_fieldnames : list string) (r : row) : row :=
  foldl (fun d k => <[k := row_get_or_empty r k]> d) ∅ clean_fieldnames.

(** [int(row["id"])] *)
Definition int_of_id (r : row) : outcome Z :=
  match r !! "id" with
  | None => Raise KeyError
  | Some None => Raise TypeError
  | Some (Some s) => or_raise ValueError (Py.int s)
  end.

(** [[int(row["id"]) for row in candidates if row.get("id")]] *)
Fixpoint id_list_of (candidates : list row) : outcome (list Z) :=
  match candidates with
  | [] => Ret []
  | r :: rest =>
      if Py.truthy (row_get r "id")
      then n ← int_of_id r; ids ← id_list_of rest; mret (n :: ids)
      else id_list_of rest
  end.

Definition run_cleanup_selector (e : env) (csv_path : string)
    (fieldnames : list string) (rows : list row)
    (created_days : Z) (defender_days : option Z) : M (string * string) :=
  print (SelLoaded csv_path);;
  let total := Py.len rows in
  cutoff_created ← lift (or_raise OverflowError (Py.sub_days (now e) created_days));
  cutoff_defender ←
    match defender_days with
    | Some d => c ← lift (or_raise OverflowError (Py.sub_days (now e) d)); mret (Some c)
    | None => mret None
    end;
  '(created_matches, defender_inactive_matches, candidates) ←
    for_each (select_body cutoff_created defender_days cutoff_defender) (0, 0, []) rows;
  print (SelTotal total);;
  print (SelCreated created_days created_matches);;
  match defender_days with
  | Some d => print (SelDefender d defender_inactive_matches)
  | None => print SelNotEvaluated
  end;;
  print (SelCandidates (Py.len candidates));;
  let base := fst (Py.splitext csv_path) in
  let cleanup_csv := base +:+ "_to_delete.csv" in
  let ids_json := base +:+ "_to_delete_ids.json" in
  let clean_fieldnames := List.filter (fun fn => negb (String.eqb fn EmptyString)) fieldnames in
  let cleaned_rows := map (cleaned clean_fieldnames) candidates in
  write_csv e cleanup_csv clean_fieldnames cleaned_rows;;
  id_list ← lift (id_list_of candidates);
  write_json e ids_json id_list;;
  print (SelExportedCsv cleanup_csv);;
  print (SelExportedIds ids_json);;
  mret (abspath e cleanup_csv, abspath e ids_json).

End selector.

(* ===================================================================== *)
(** * scripts/umbrella_delete.py *)
(* ===================================================================== *)

Module umbrella_delete.

(** [get_umbrella_token()]; the body of the response, which the second
    message quotes, is left out of it. *)
Definition get_umbrella_token (e : env) : M (option string) :=
  if negb (credentials e)
  then raise (SystemExit "Missing Umbrella credentials in .env")
  else
    emit TokenRequest;;
    if negb (oauth_status e =? 200)
    then raise (SystemExit "Failed to obtain Umbrella token")
    else mret (oauth_token e).

(** The number of delete requests already in the log. *)
Definition requests_sent (log : list event) : nat :=
  length (List.filter (fun ev => match ev with DeleteRequest _ _ => true | _ => false end) log).

(** [requests.delete(url, headers=headers, data=json.dumps(payload)).status_code] *)
Definition requests_delete (e : env) (list_id : Z) (payload : list Z) : M Z :=
  fun log => ((log ++ [DeleteRequest list_id payload])%list,
              Ret (delete_status e (requests_sent log))).

(** [resp.status_code in (200, 202, 204)] *)
Definition success (status : Z) : bool :=
  (status =? 200) || (status =? 202) || (status =? 204).

(** The body of [for i in range(0, total, batch_size)]; the accumulator is
    [(deleted, failures)]. *)
Definition delete_body (e : env) (list_id : Z) (ids : list Z) (total batch_size : Z)
    (acc : Z * list Z) (i : Z) : M (Z * list Z) :=
  let '(deleted, failures) := acc in
  let chunk := Py.slice ids i (i + batch_size) in
  let payload := chunk in
  status ← requests_delete e list_id payload;
  acc' ←
    (if success status
     then
       let deleted := deleted + Py.len chunk in
       print (DelBatch deleted total (Py.len chunk));;
       mret (deleted, failures)
     else
       print (DelBatchError chunk);;
       mret (deleted, (failures ++ chunk)%list));
  emit Sleep;;
  mret acc'.

Definition delete_destinations (e : env) (list_id : Z) (ids : list Z)
    (token : option string) (batch_size : Z) : M (Z * list Z) :=
  let total := Py.len ids in
  print (DelStarting total);;
  indices ← lift (or_raise ValueError (Py.range 0 total batch_size));
  for_each (delete_body e list_id ids total batch_size) (0, []) indices.

(** What [run_umbrella_delete] returns: [None], the string ["DRY_RUN"], or
    the number deleted. *)
Inductive result :=
| Cancelled
| DRY_RUN
| Deleted (deleted : Z).

Definition run_umbrella_delete (e : env) (list_id : Z) (id_json_path : string)
    (list_name : option string) (dry_run : bool) : M result :=
  match id_files e id_json_path with
  | None => raise (SystemExit ("File not found: " +:+ id_json_path))
  | Some ids =>
      print (DelLoaded (Py.len ids));;
      print (DelListId list_id);;
      (if Py.truthy list_name
       then print (DelListName (Py.str list_name))
       else mret tt);;
      print (DelMode dry_run);;
      confirmed ←
        (if negb dry_run
         then
           emit (Input "Are you ABSOLUTELY SURE you want to delete these destinations? (y/n): ");;
           let confirm := Py.lower (Py.strip (stdin e)) in
           mret (String.eqb confirm "y" || String.eqb confirm "yes")
         else mret true);
      if negb confirmed then print DelCancelled;; mret Cancelled
      else
        token ← get_umbrella_token e;
        if dry_run
        then
          print DryRunHeader;;
          print (DryRunIds ids);;
          print DryRunComplete;;
          mret DRY_RUN
        else
          '(deleted, failures) ← delete_destinations e list_id ids token 100;
          print SummaryHeader;;
          print (SummaryDeleted deleted);;
          print (SummaryFailed (Py.len failures));;
          match failures with
          | _ :: _ =>
              let fail_path := fst (Py.splitext id_json_path) +:+ "_failed.json" in
              write_json e fail_path failures;;
              print (SummarySaved fail_path)
          | [] => mret tt
          end;;
          mret (Deleted deleted)
  end.

End umbrella_delete.

(* ===================================================================== *)
(** * Vocabulary of the properties *)
(* ===================================================================== *)

(** The UTC instant an aware [datetime] denotes, in microseconds. *)
Definition instant (dt : Py.datetime) : Z :=
  Py.wall dt - default 0 (Py.tzinfo dt).

(** Every character of [s] is white space. *)
Fixpoint all_space (s : string) : bool :=
  match s with
  | String c s' => Py.isspace c && all_space s'
  | EmptyString => true
  end.

(** The ISO reading of a stripped text: every ["Z"] written as ["+00:00"],
    a naive value taken as UTC, an aware one converted to UTC. *)
Definition iso_utc (v : string) : option Py.datetime :=
  match Py.fromisoformat (Py.replace "Z" "+00:00" v) with
  | Some dt =>
      let w := instant dt in
      if Py.in_range w then Some (Py.mk_datetime w Py.utc) else None
  | None => None
  end.

(** The reading of a stripped text in the CSV format, taken as UTC. *)
Definition csv_utc (v : string) : option Py.datetime :=
  match Py.strptime_csv v with
  | Some dt => Some (Py.mk_datetime (Py.wall dt) Py.utc)
  | None => None
  end.

(** What [parse_timestamp] reads in a value: nothing in [None] and in the
    empty text, otherwise the ISO reading of the stripped text when it holds
    a ["T"], and its CSV reading when it does not. *)
Definition reading (value : option string) : option Py.datetime :=
  match value with
  | Some (String c s) =>
      let v := Py.strip (String c s) in
      if Py.contains "T" v then iso_utc v else csv_utc v
  | _ => None
  end.

(** The field of a record holds no readable time, or one at or before the
    cutoff. *)
Definition qualifies (cutoff : Py.datetime) (field : string) (r : row) : bool :=
  match reading (row_get r field) with
  | None => true
  | Some t => instant t <=? instant cutoff
  end.

(** A record is old enough and, where an inactivity cutoff is in force, not
    seen after it. *)
Definition selected (cutoff_created : Py.datetime)
    (cutoff_defender : option Py.datetime) (r : row) : bool :=
  qualifies cutoff_created "createdAt" r
  && match cutoff_defender with
     | Some c => qualifies c "observedInDefender" r
     | None => true
     end.

(** The two cutoffs of the selector, where both can be computed. *)
Definition selector_cutoffs (e : env) (created_days : Z) (defender_days : option Z)
  : option (Py.datetime * option Py.datetime) :=
  match Py.sub_days (now e) created_days, defender_days with
  | Some cc, None => Some (cc, None)
  | Some cc, Some d =>
      match Py.sub_days (now e) d with
      | Some cd => Some (cc, Some cd)
      | None => None
      end
  | None, _ => None
  end.

(** The integer ids of the records that have a non-empty [id]. *)
Definition ids_of (candidates : list row) : list Z :=
  flat_map (fun r => if Py.truthy (row_get r "id")
                     then match Py.int (Py.str (row_get r "id")) with
                          | Some n => [n]
                          | None => []
                          end
                     else []) candidates.

(** The [id] of a record is missing or empty, or [int] accepts it. *)
Definition id_ok (r : row) : bool :=
  negb (Py.truthy (row_get r "id"))
  || match Py.int (Py.str (row_get r "id")) with Some _ => true | None => false end.

(** The names of the files the stages write. *)
Definition age_output_path (csv_path : string) (created_days : Z) : string :=
  fst (Py.splitext csv_path) +:+ "_created_gte_" +:+ pretty created_days +:+ "d.csv".
Definition cleanup_csv_path (csv_path : string) : string :=
  fst (Py.splitext csv_path) +:+ "_to_delete.csv".
Definition ids_json_path (csv_path : string) : string :=
  fst (Py.splitext csv_path) +:+ "_to_delete_ids.json".
Definition clean_fieldnames (fieldnames : list string) : list string :=
  List.filter (fun fn => negb (String.eqb fn EmptyString)) fieldnames.

(** What a log shows: the CSV files written, the JSON files written, the
    payloads of the delete requests, each in order. *)
Definition csv_files (log : list event) : list (string * list string * list row) :=
  flat_map (fun ev => match ev with
                      | WriteCsv p f rs => [(p, f, rs)]
                      | _ => []
                      end) log.
Definition json_files (log : list event) : list (string * list Z) :=
  flat_map (fun ev => match ev with
                      | WriteJson p c => [(p, c)]
                      | _ => []
                      end) log.
Definition delete_calls (log : list event) : list (list Z) :=
  flat_map (fun ev => match ev with
                      | DeleteRequest _ payload => [payload]
                      | _ => []
                      end) log.

(** What the selector logs up to and including the candidate CSV, for the
    candidates [cands] among [rows]. *)
Definition selector_report (csv_path : string) (fieldnames : list string)
    (rows : list row) (created_days : Z) (defender_days : option Z)
    (cutoff_created : Py.datetime) (cands : list row) : list event :=
  [ Printed (SelLoaded csv_path);
    Printed (SelTotal (Py.len rows));
    Printed (SelCreated created_days
             (Py.len (List.filter (qualifies cutoff_created "createdAt") rows)));
    match defender_days with
    | Some d => Printed (SelDefender d (Py.len cands))
    | None => Printed SelNotEvaluated
    end;
    Printed (SelCandidates (Py.len cands));
    WriteCsv (cleanup_csv_path csv_path) (clean_fieldnames fieldnames)
      (map (selector.cleaned (clean_fieldnames fieldnames)) cands) ].

(** How the selector ends after the candidate CSV: with the ID list
    exported, or with the exception of a rejected [id] or of a file that
    cannot be written. *)
Definition selector_finish (e : env) (csv_path : string) (cands : list row)
  : list event * outcome (string * string) :=
  if forallb id_ok cands then
    if writable e (ids_json_path csv_path) then
      ([ WriteJson (ids_json_path csv_path) (ids_of cands);
         Printed (SelExportedCsv (cleanup_csv_path csv_path));
         Printed (SelExportedIds (ids_json_path csv_path)) ],
       Ret (abspath e (cleanup_csv_path csv_path), abspath e (ids_json_path csv_path)))
    else ([], Raise OSError)
  else ([], Raise ValueError).

(** The batches of an ID list: the slices [ids[i:i + batch_size]] the loop
    of [delete_destinations] takes, in order. *)
Definition batches (batch_size : Z) (ids : list Z) : list (list Z) :=
  map (fun i => Py.slice ids i (i + batch_size))
      (default [] (Py.range 0 (Py.len ids) batch_size)).

(** The number of batches: the least [n] with [n * batch_size >= len]. *)
Definition batch_count (batch_size L : Z) : nat :=
  Z.to_nat ((L + batch_size - 1) / batch_size).

(** Batches paired with the position of their request, from [k0] on. *)
Definition numbered (k0 : nat) (bs : list (list Z)) : list (nat * list Z) :=
  combine (seq k0 (length bs)) bs.

(** The batches whose response reports success, and the others. *)
Definition succeeded (status : nat -> Z) (k0 : nat) (bs : list (list Z))
  : list (list Z) :=
  map snd (List.filter (fun kb => umbrella_delete.success (status (fst kb)))
             (numbered k0 bs)).
Definition failed (status : nat -> Z) (k0 : nat) (bs : list (list Z))
  : list (list Z) :=
  map snd (List.filter (fun kb => negb (umbrella_delete.success (status (fst kb))))
             (numbered k0 bs)).

(** Every ID of a batch that succeeded counts as deleted; every ID of a
    batch that did not is a failed ID. *)
Definition deleted_count (status : nat -> Z) (k0 : nat) (bs : list (list Z)) : Z :=
  foldr Z.add 0 (map Py.len (succeeded status k0 bs)).
Definition failed_ids (status : nat -> Z) (k0 : nat) (bs : list (list Z)) : list Z :=
  concat (failed status k0 bs).

(** The answer at the prompt confirms the deletion. *)
Definition says_yes (answer : string) : bool :=
  let confirm := Py.lower (Py.strip answer) in
  String.eqb confirm "y" || String.eqb confirm "yes".

(** Where the failed IDs of a run over the ID list at [id_json_path] go. *)
Definition fail_path_of (id_json_path : string) : string :=
  fst (Py.splitext id_json_path) +:+ "_failed.json".

(** What [run_umbrella_delete] prints before it authenticates. *)
Definition delete_header (list_id : Z) (list_name : option string)
    (dry_run : bool) (ids : list Z) : list event :=
  [Printed (DelLoaded (Py.len ids)); Printed (DelListId list_id)]
  ++ (if Py.truthy list_name then [Printed (DelListName (Py.str list_name))] else [])
  ++ [Printed (DelMode dry_run)].

(** An event of the deletion loop. *)
Definition loop_event (list_id : Z) (ev : event) : Prop :=
  match ev with
  | DeleteRequest l _ => l = list_id
  | Printed (DelBatch _ _ _) | Printed (DelBatchError _) | Sleep => True
  | _ => False
  end.

(** How a confirmed and authenticated live run ends, after the summary. *)
Definition live_finish (e : env) (id_json_path : string) (deleted : Z)
    (failures : list Z) : list event * outcome umbrella_delete.result :=
  match failures with
  | [] => ([], Ret (umbrella_delete.Deleted deleted))
  | _ :: _ =>
      if writable e (fail_path_of id_json_path)
      then ([WriteJson (fail_path_of id_json_path) failures;
             Printed (SummarySaved (fail_path_of id_json_path))],
            Ret (umbrella_delete.Deleted deleted))
      else ([], Raise OSError)
  end.

(** Sample inputs. *)
Module sample.

(** 2024-01-01 00:00:00 UTC. *)
Definition clock0 : Z := 738886 * Py.US_PER_DAY.

Definition world (can_write : string -> bool) (answer : string)
    (statuses : nat -> Z) : env :=
  {| clock := clock0;
     abspath := fun p => "/work/" +:+ p;
     writable := can_write;
     id_files := fun p =>
       if String.eqb p "out/ids.json" then Some (map Z.of_nat (seq 1 250))
       else if String.eqb p "out/few.json" then Some [11; 12; 13]
       else None;
     stdin := answer;
     credentials := true;
     oauth_status := 200;
     oauth_token := Some "token";
     delete_status := statuses |}.

Definition quiet : env := world (fun _ => true) "y" (fun _ => 204).

Definition aged : row :=
  {[ "id" := Some "12"; "createdAt" := Some "2023-01-01 00:00:00" ]}.
Definition at_cutoff : row :=
  {[ "id" := Some ""; "createdAt" := Some "2023-12-31 00:00:00";
     "observedInDefender" := Some "2023-12-31T00:00:00Z" ]}.
Definition undated : row := {[ "createdAt" := Some "junk" ]}.
Definition recent : row :=
  {[ "id" := Some "15"; "createdAt" := Some "2023-12-31T00:00:01Z" ]}.
Definition misnumbered : row :=
  {[ "id" := Some "abc"; "createdAt" := Some "2023-01-01 00:00:00" ]}.
Definition blank_id : row :=
  {[ "id" := Some "  "; "createdAt" := Some "2023-01-01 00:00:00" ]}.

Definition records : list row := [aged; at_cutoff; undated; recent].

(** 2023-12-31 00:00:00 UTC and 2023-12-30 00:00:00 UTC. *)
Definition cutoff1 : Py.datetime := Py.mk_datetime (738885 * Py.US_PER_DAY) Py.utc.
Definition cutoff2 : Py.datetime := Py.mk_datetime (738884 * Py.US_PER_DAY) Py.utc.

End sample.

(** The requests and pauses of a log, in order. *)
Definition wire (log : list event) : list event :=
  List.filter (fun ev => match ev with
                         | DeleteRequest _ _ | Sleep => true
                         | _ => false
                         end) log.

(** The requests for a token in a log. *)
Definition token_requests (log : list event) : nat :=
  length (List.filter (fun ev => match ev with TokenRequest => true | _ => false end) log).

(** The inactivity test of the selector alone. *)
Definition inactive (cutoff_defender : option Py.datetime) (r : row) : bool :=
  match cutoff_defender with
  | Some c => qualifies c "observedInDefender" r
  | None => true
  end.

(** An item of a format's expression that cannot consume a ["T"]. *)
Definition item_rejects_T (it : Py.item) : bool :=
  match it with
  | Py.Group alts =>
      forallb (forallb (fun cl : Py.char_class => negb (cl "T"%char))) alts
  | Py.Lit c => negb (Ascii.eqb c "T")
  | Py.Spaces => true
  end.

(* ===================================================================== *)
(** * More of the Python runtime: rendering a [datetime] *)
(* ===================================================================== *)

Module PyTime.

(** [_DAYS_IN_MONTH[month] + (month == 2 and leapyear)] and
    [_DAYS_BEFORE_MONTH[month] + (month > 2 and leapyear)]. *)
Definition month_length (leapyear : bool) (month : Z) : Z :=
  nth (Z.to_nat month) [0; 31; 28; 31; 30; 31; 30; 31; 31; 30; 31; 30; 31] 0
  + (if (month =? 2) && leapyear then 1 else 0).

Definition days_before (leapyear : bool) (month : Z) : Z :=
  nth (Z.to_nat month) [0; 0; 31; 59; 90; 120; 151; 181; 212; 243; 273; 304; 334] 0
  + (if (2 <? month) && leapyear then 1 else 0).

(** The second half of [_ord2ymd]: month and day for the day [n] of a year,
    counted from zero. *)
Definition month_day (leapyear : bool) (n : Z) : Z * Z :=
  let month := Z.shiftr (n + 50) 5 in
  let preceding := days_before leapyear month in
  if n <? preceding                                  (* estimate is too large *)
  then
    let month := month - 1 in
    let preceding := preceding - month_length leapyear month in
    (month, n - preceding + 1)
  else (month, n - preceding + 1).

(** [_ord2ymd(n)]: year, month and day of the day of ordinal [n]. *)
Definition ord2ymd (n : Z) : Z * Z * Z :=
  let n := n - 1 in
  let n400 := n / 146097 in
  let n := n mod 146097 in
  let year := n400 * 400 + 1 in
  let n100 := n / 36524 in
  let n := n mod 36524 in
  let n4 := n / 1461 in
  let n := n mod 1461 in
  let n1 := n / 365 in
  let n := n mod 365 in
  let year := year + n100 * 100 + n4 * 4 + n1 in
  if (n1 =? 4) || (n100 =? 4) then (year - 1, 12, 31)
  else
    let leapyear := (n1 =? 3) && (negb (n4 =? 24) || (n100 =? 3)) in
    let '(month, day) := month_day leapyear n in
    (year, month, day).

Definition digit_char (k : Z) : ascii := ascii_of_nat (48 + Z.to_nat k).

(** A number below 100 on two digits, and one below 10000 on four. *)
Definition pad2 (n : Z) (rest : string) : string :=
  String (digit_char (n / 10)) (String (digit_char (n mod 10)) rest).
Definition pad4 (n : Z) (rest : string) : string :=
  pad2 (n / 100) (pad2 (n mod 100) rest).

(** [%Y]: the year in decimal.  From the year 1000 on that is four digits;
    below, the C library decides whether zeros are put in front
    ([zero_pad]) or not. *)
Definition year_text (zero_pad : bool) (year : Z) (rest : string) : string :=
  if zero_pad || (1000 <=? year) then pad4 year rest else pretty year +:+ rest.

(** [dt.year] *)
Definition year (dt : Py.datetime) : Z :=
  let '(year, _, _) := ord2ymd (Py.wall dt / Py.US_PER_DAY) in year.

(** [dt.strftime("%Y-%m-%d %H:%M:%S")]: the fields of the wall-clock
    reading. *)
Definition strftime_csv (zero_pad : bool) (dt : Py.datetime) : string :=
  let '(year, month, day) := ord2ymd (Py.wall dt / Py.US_PER_DAY) in
  let seconds := (Py.wall dt mod Py.US_PER_DAY) / Py.US_PER_SECOND in
  year_text zero_pad year (String "-" (pad2 month (String "-" (pad2 day (String " "
    (pad2 (seconds / 3600) (String ":" (pad2 (seconds / 60 mod 60) (String ":"
      (pad2 (seconds mod 60) EmptyString)))))))))).

(** The ordinal of 1970-01-01. *)
Definition EPOCH_ORDINAL : Z := 719163.

(** [datetime.fromtimestamp(seconds, tz=timezone.utc)] for an integer number
    of seconds, as on POSIX; [None] stands for the exception raised when the
    result lies outside the representable years. *)
Definition fromtimestamp_utc (seconds : Z) : option Py.datetime :=
  let w := EPOCH_ORDINAL * Py.US_PER_DAY + seconds * Py.US_PER_SECOND in
  if Py.in_range w then Some (Py.mk_datetime w Py.utc) else None.

End PyTime.

(** [month_day] gives a month, a day of that month, and the day of the year
    it started from. *)
Definition month_day_ok (leapyear : bool) (n : Z) : bool :=
  let '(m, d) := PyTime.month_day leapyear n in
  (1 <=? m) && (m <=? 12) && (1 <=? d) && (d <=? PyTime.month_length leapyear m)
  && (PyTime.days_before leapyear m + d =? n + 1).

(** One alternative of a group, followed by the rest of the expression. *)
Definition group_step (k : string -> option (list Z * string))
    (s : string) (cs : list Py.char_class) : option (list Z * string) :=
  match Py.match_classes cs s with
  | Some (txt, rest) =>
      match k rest with
      | Some (vals, rest') => Some (Py.digits_value 0 txt :: vals, rest')
      | None => None
      end
  | None => None
  end.

(** A [datetime] cut down to whole seconds, without its zone. *)
Definition whole_seconds (dt : Py.datetime) : Py.datetime :=
  Py.mk_datetime (Py.wall dt - Py.wall dt mod Py.US_PER_SECOND) None.

(** Case analysis on an integer between two literal bounds. *)
Ltac enumerate n lo hi :=
  let rec go k :=
    tryif (let t := eval cbv in (k <=? hi) in constr_eq t true)
    then (destruct (Z.eq_dec n k) as [->|?]; [| let k' := eval cbv in (k + 1) in go k'])
    else (exfalso; lia)
  in go lo.

Ltac group_by_cases n lo hi Hk :=
  enumerate n lo hi; cbv; rewrite Hk; reflexivity.

(* ===================================================================== *)
(** * Values decoded from JSON *)
(* ===================================================================== *)

Module PyJson.

(** The scalars of a decoded JSON document: [None], [bool], [int], [str].
    Floats, lists and nested objects are outside this model.  An [int] is
    one the decoder has accepted, so that [str] of it does not run into the
    limit on the number of digits either. *)
Inductive json :=
| JNone
| JBool (b : bool)
| JInt (n : Z)
| JStr (s : string).

(** [bool(value)] *)
Definition truthy (value : json) : bool :=
  match value with
  | JNone => false
  | JBool b => b
  | JInt n => negb (n =? 0)
  | JStr s => negb (String.eqb s EmptyString)
  end.

(** [str(value)] *)
Definition str (value : json) : string :=
  match value with
  | JNone => "None"
  | JBool true => "True"
  | JBool false => "False"
  | JInt n => pretty n
  | JStr s => s
  end.

(** [int(value)]; [None] stands for the [TypeError] or [ValueError]. *)
Definition int (value : json) : option Z :=
  match value with
  | JNone => None
  | JBool b => Some (if b then 1 else 0)
  | JInt n => Some n
  | JStr s => Py.int s
  end.

(** A value as [parse_timestamp] takes it: a falsy one is turned away like
    [None], any other is read through [str(value)]. *)
Definition as_text (value : json) : option string :=
  if truthy value then Some (str value) else None.

Definition TAB : ascii := "009".
Definition LF : ascii := "010".
Definition CR : ascii := "013".
Definition QUOTE : ascii := "034".
Definition BACKSLASH : ascii := "092".

(** [c.isalnum()] for the code points below 256: the digits and letters of
    ASCII, the letters, superscript digits and fractions of Latin-1. *)
Definition isalnum (c : ascii) : bool :=
  let n := Z.of_nat (nat_of_ascii c) in
  ((48 <=? n) && (n <=? 57)) || ((65 <=? n) && (n <=? 90))
  || ((97 <=? n) && (n <=? 122))
  || (n =? 170) || (n =? 178) || (n =? 179) || (n =? 181)
  || (n =? 185) || (n =? 186) || ((188 <=? n) && (n <=? 190))
  || ((192 <=? n) && (n <=? 214)) || ((216 <=? n) && (n <=? 246))
  || (248 <=? n).

(** [key in keys] *)
Definition in_list (key : string) (keys : list string) : bool :=
  existsb (String.eqb key) keys.

(** [sorted(keys)] on strings: by code points, a prefix first. *)
Fixpoint insort (key : string) (keys : list string) : list string :=
  match keys with
  | [] => [key]
  | k :: keys' => if String.leb key k then key :: keys else k :: insort key keys'
  end.

Definition sorted (keys : list string) : list string := foldr insort [] keys.

(** ["".join(c for c in s if keep(c))] *)
Fixpoint join_if (keep : ascii -> bool) (s : string) : string :=
  match s with
  | EmptyString => EmptyString
  | String c s' => if keep c then String c (join_if keep s') else join_if keep s'
  end.

End PyJson.

(** A destination as the Umbrella API returns it, and as [export_to_csv]
    hands it to the CSV writer: a dict from field names to scalars. *)
Abbreviation destination := (gmap string PyJson.json).

(* ===================================================================== *)
(** * Effects of the interactive stages *)
(* ===================================================================== *)

Module Io.

(** The exceptions of the export, cross-check and prompt code: those of
    [Eff], and two more. *)
Inductive error :=
| Builtin (e : exn)
| AttributeError
| EOFError.

Inductive result (A : Type) :=
| Done (a : A)
| Fail (e : error).
Arguments Done {A} a.
Arguments Fail {A} e.

Definition of_outcome {A} (o : outcome A) : result A :=
  match o with
  | Ret a => Done a
  | Raise e => Fail (Builtin e)
  end.

Definition or_fail {A} (e : error) (o : option A) : result A :=
  match o with
  | Some a => Done a
  | None => Fail e
  end.

(** What these stages print, statement by statement. *)
Inductive note :=
| PleaseYesNo
| PleaseYesNoDry
| PleaseInteger
| NoDestinations
| CsvColumns (all_keys : list string)
| WritingCsv (filename : string)
| CsvExportComplete
| NoListsFound
| ListsBanner
| ListsEntry (i : Z) (name : string) (id : Z)
| ListsRule
| InvalidSelection
| SelectedList (name : string) (list_id : Z)
| QueryFailed
| CrossLoaded (csv_path : string)
| CrossLookback (days : Z)
| CrossTotal (total : Z)
| CrossNoRows
| CrossBeginning
| CrossProgress (checked_count total : Z) (domain : string) (eta : Z)
| CrossDone (output_path : string).

(** What these stages do to the world around them. *)
Inductive action :=
| Say (n : note)
| Ask (prompt : string)
| FetchLists
| FetchDestinations (list_id : Z)
| TokenCall
| Query (kql : string)
| SaveExport (path : string) (fieldnames : list string) (rows : list destination)
| SaveCsv (path : string) (fieldnames : list string) (rows : list row).

(** The lines still to be typed at the prompts, and the log of actions. *)
Record state := mk_state { pending : list string; log : list action }.

Definition M (A : Type) : Type := state -> state * result A.

#[export] Instance M_ret : MRet M := fun A a st => (st, Done a).
#[export] Instance M_bind : MBind M := fun A B f m st =>
  match m st with
  | (st', Done a) => f a st'
  | (st', Fail e) => (st', Fail e)
  end.

Definition lift {A} (r : result A) : M A := fun st => (st, r).
Definition raise {A} (e : error) : M A := lift (Fail e).
Definition emit (a : action) : M unit := fun st =>
  (mk_state (pending st) (log st ++ [a])%list, Done tt).
Definition say (n : note) : M unit := emit (Say n).

(** [input(prompt)]: the next line typed, or [EOFError] at the end of the
    input. *)
Definition input (prompt : string) : M string := fun st =>
  match pending st with
  | [] => (mk_state [] (log st ++ [Ask prompt])%list, Fail EOFError)
  | l :: rest => (mk_state rest (log st ++ [Ask prompt])%list, Done l)
  end.

(** [for x in xs: acc = body(acc, x)] *)
Fixpoint for_each {A S} (body : S -> A -> M S) (acc : S) (xs : list A) : M S :=
  match xs with
  | [] => mret acc
  | x :: xs' => acc' ← body acc x; for_each body acc' xs'
  end.

(** [while True: line = input(prompt); <return turn(line) or print(reminder)>]
    one turn for each line typed; the loop is left by the [return] of a turn,
    or by the [EOFError] of [input]. *)
Fixpoint prompt_loop {A} (prompt : string) (turn : string -> option A)
    (reminder : note) (lines : list string) (log : list action) : state * result A :=
  match lines with
  | [] => (mk_state [] (log ++ [Ask prompt])%list, Fail EOFError)
  | l :: rest =>
      match turn l with
      | Some a => (mk_state rest (log ++ [Ask prompt])%list, Done a)
      | None => prompt_loop prompt turn reminder rest
                  (log ++ [Ask prompt; Say reminder])%list
      end
  end.

Definition while_prompt {A} (prompt : string) (turn : string -> option A)
    (reminder : note) : M A :=
  fun st => prompt_loop prompt turn reminder (pending st) (log st).

(** Running a stage on the lines typed, from an empty log. *)
Definition run {A} (m : M A) (lines : list string) : state * result A :=
  m (mk_state lines []).

End Io.

(* ===================================================================== *)
(** * Umbrella clean-up/main.py: the prompts *)
(* ===================================================================== *)

Module prompts.

Import PyJson Io.

Inductive delete_mode := yes | no | dry.

Definition ask_yes_no (question : string) : M bool :=
  while_prompt (question +:+ " (y/n): ")
    (fun line =>
       let ans := Py.lower (Py.strip line) in
       if in_list ans ["y"; "n"] then Some (String.eqb ans "y") else None)
    PleaseYesNo.

Definition ask_delete_mode (question : string) : M delete_mode :=
  let prompt := question +:+ " (y/n/dry): " in
  while_prompt prompt
    (fun line =>
       let ans := Py.lower (Py.strip line) in
       if in_list ans ["y"; "yes"] then Some yes
       else if in_list ans ["n"; "no"] then Some no
       else if in_list ans ["dry"; "d"] then Some dry
       else None)
    PleaseYesNoDry.

Definition ask_int (prompt : string) : M Z :=
  while_prompt prompt (fun line => Py.int (Py.strip line)) PleaseInteger.

Definition extract_list_id_from_user : M Z :=
  ask_int "Enter the Umbrella Destination List ID to delete from: ".

End prompts.

(* ===================================================================== *)
(** * Umbrella clean-up/scripts/umbrella_list_overview.py *)
(* ===================================================================== *)

Module umbrella_list_overview.

Import PyJson Io.

(** An entry of the answer of [list_destination_lists], with the two fields
    the script reads. *)
Record destination_list := mk_list { list_id : Z; list_name : string }.

(** The [UmbrellaAPI] object as the export sees it: the answers of the two
    methods it calls.  Their HTTP traffic and what they print is outside
    this model; a call is one action of the log. *)
Record UmbrellaAPI := mk_api {
  lists_answer : result (list destination_list);
  destinations_answer : Z -> result (list destination)
}.

Definition list_destination_lists (umbrella : UmbrellaAPI) : M (list destination_list) :=
  emit FetchLists;; lift (lists_answer umbrella).

Definition list_destinations (umbrella : UmbrellaAPI) (list_id : Z) : M (list destination) :=
  emit (FetchDestinations list_id);; lift (destinations_answer umbrella list_id).

(** [clean_comment(text)]; [None] stands for the [AttributeError] of a
    truthy value that is no [str]. *)
Definition clean_comment (text : json) : option string :=
  if negb (truthy text) then Some EmptyString
  else
    match text with
    | JStr s =>
        Some (Py.strip
                (Py.replace (String CR EmptyString) EmptyString
                   (Py.replace (String LF EmptyString) (String BACKSLASH "n")
                      (Py.replace (String TAB EmptyString) (String BACKSLASH "t") s))))
    | _ => None
    end.

Definition preferred_order : list string :=
  ["id"; "destination"; "type"; "comment"; "createdAt"].

(** The columns of the export: the preferred ones, then the other keys of
    the rows in sorted order. *)
Definition columns (destinations : list destination) : list string :=
  let all_keys := sorted (elements (⋃ (dom <$> destinations) : gset string)) in
  preferred_order ++ List.filter (fun k => negb (in_list k preferred_order)) all_keys.

(** The branch of [export_to_csv] for [createdAt] and [modifiedAt]: epoch
    seconds first, then [parse_timestamp]; the cell is the time in the CSV
    format, or empty. *)
Definition export_timestamp (zero_pad : bool) (value : json) : outcome string :=
  dt ← try_except_pass
         (n ← or_raise ValueError (int value);
          t ← or_raise OverflowError (PyTime.fromtimestamp_utc n);
          mret (Some t))
         (timestamps.parse_timestamp (as_text value));
  match dt with
  | Some t => mret (PyTime.strftime_csv zero_pad t)
  | None => mret EmptyString
  end.

(** The body of [for key in all_keys] in [export_to_csv]: the cell stored
    under [key]. *)
Definition normalize (zero_pad : bool) (row : destination) (key : string) : result json :=
  let value := default (JStr EmptyString) (row !! key) in
  if String.eqb key "comment" then
    match clean_comment value with
    | Some s => Done (JStr s)
    | None => Fail AttributeError
    end
  else if in_list key ["createdAt"; "modifiedAt"] then
    match of_outcome (export_timestamp zero_pad value) with
    | Done s => Done (JStr s)
    | Fail e => Fail e
    end
  else if String.eqb key "id" then
    Done (JStr (match value with JNone => EmptyString | _ => str value end))
  else
    match value with
    | JStr s => Done (JStr (Py.strip s))
    | _ => Done value
    end.

Definition normalize_key (zero_pad : bool) (row : destination)
    (norm : destination) (key : string) : M destination :=
  value ← lift (normalize zero_pad row key);
  mret (<[key := value]> norm).

Definition normalize_row (zero_pad : bool) (all_keys : list string)
    (normalized_rows : list destination) (row : destination) : M (list destination) :=
  norm ← for_each (normalize_key zero_pad row) ∅ all_keys;
  mret (normalized_rows ++ [norm])%list.

Definition export_to_csv (e : env) (zero_pad : bool)
    (destinations : list destination) (filename : string) : M unit :=
  match destinations with
  | [] => say NoDestinations
  | _ =>
      let all_keys := columns destinations in
      say (CsvColumns all_keys);;
      normalized_rows ← for_each (normalize_row zero_pad all_keys) [] destinations;
      say (WritingCsv filename);;
      (if writable e filename
       then emit (SaveExport filename all_keys normalized_rows)
       else raise (Builtin OSError));;
      say CsvExportComplete
  end.

(** [enumerate(lists, start=i)] *)
Fixpoint enumerate {A} (i : Z) (l : list A) : list (Z * A) :=
  match l with
  | [] => []
  | x :: l' => (i, x) :: enumerate (i + 1) l'
  end.

Definition choose_list_interactively (umbrella : UmbrellaAPI)
  : M (option destination_list) :=
  lists ← list_destination_lists umbrella;
  match lists with
  | [] => say NoListsFound;; mret None
  | _ =>
      say ListsBanner;;
      for_each (fun (_ : unit) '(i, lst) => say (ListsEntry i (list_name lst) (list_id lst)))
        tt (enumerate 1 lists);;
      say ListsRule;;
      line ← input "Enter the number of the destination list to export: ";
      let chosen := Py.strip line in
      match Py.int chosen with
      | Some index =>
          if (1 <=? index) && (index <=? Py.len lists)
          then mret (lists !! Z.to_nat (index - 1))
          else say InvalidSelection;; mret None
      | None => say InvalidSelection;; mret None
      end
  end.

(** [safe_name] of [run_umbrella_export]. *)
Definition safe_name (name : string) : string :=
  Py.replace " " "_"
    (Py.strip (join_if (fun c => isalnum c || Ascii.eqb c " " || Ascii.eqb c "_") name)).

Definition run_umbrella_export (e : env) (zero_pad : bool) (umbrella : UmbrellaAPI)
  : M (string * Z * string) :=
  if negb (credentials e)
  then raise (Builtin (SystemExit
                "ERROR: Please set UMBRELLA_CLIENT_ID and UMBRELLA_CLIENT_SECRET."))
  else
    selected_list ← choose_list_interactively umbrella;
    match selected_list with
    | None => raise (Builtin (SystemExit "No list selected, aborting."))
    | Some selected_list =>
        let list_id := list_id selected_list in
        let name := list_name selected_list in
        say (SelectedList name list_id);;
        destinations ← list_destinations umbrella list_id;
        let filename := safe_name name +:+ "_destinations.csv" in
        export_to_csv e zero_pad destinations filename;;
        let output_path := abspath e filename in
        mret (output_path, list_id, name)
    end.

End umbrella_list_overview.

(* ===================================================================== *)
(** * scripts/defender_crosscheck.py *)
(* ===================================================================== *)

Module defender_crosscheck.

Import PyJson Io.

(** What [run_defender_kql] gets for a query.  The replies of this model
    have the shape of the service's answers; a truthy JSON value that is no
    object, or whose ["Results"] is no list of objects, would make
    [get_latest_defender_observation] raise, and is outside it. *)
Inductive kql_reply :=
| RequestFailed            (* the request raised, or answered with an error status *)
| Falsy                    (* a falsy JSON value: [null], an empty object *)
| Results (rows : option (list (option json))).
                           (* an object: its ["Results"] if it has any, and for
                              each row its ["Timestamp"] if it has one *)

(** The Defender service: [get_defender_token] (of [utils/defender_auth],
    which is not part of these sources) yields a token, truthy or not, or
    raises; the k-th query gets [kql_answer k]; [eta k] is the estimate
    computed from the clock at the k-th row. *)
Record defender := mk_defender {
  token_answer : result bool;
  kql_answer : nat -> kql_reply;
  eta : Z -> Z
}.

Definition get_defender_token (d : defender) : M bool :=
  emit TokenCall;; lift (token_answer d).

Definition build_kql_for_domain (domain : string) (days : Z) : string :=
  String LF ("DeviceNetworkEvents" +:+ String LF
    ("| where Timestamp >= ago(" +:+ pretty days +:+ "d)" +:+ String LF
      ("| where RemoteUrl contains " +:+ String QUOTE (domain +:+ String QUOTE (String LF
        ("| top 1 by Timestamp desc" +:+ String LF
          ("| project Timestamp" +:+ String LF EmptyString))))))).

(** The queries sent so far. *)
Definition queries_sent (log : list action) : nat :=
  length (List.filter (fun a => match a with Query _ => true | _ => false end) log).

(** [run_defender_kql(kql, token)]: [None] after a failed request. *)
Definition run_defender_kql (d : defender) (kql : string) : M (option kql_reply) :=
  fun st =>
    let k := queries_sent (log st) in
    (emit (Query kql);;
     match kql_answer d k with
     | RequestFailed => say QueryFailed;; mret None
     | reply => mret (Some reply)
     end) st.

Definition get_latest_defender_observation (d : defender) (zero_pad : bool)
    (domain : string) (days : Z) : M string :=
  let kql := build_kql_for_domain domain days in
  result ← run_defender_kql d kql;
  match result with
  | None | Some RequestFailed | Some Falsy => mret EmptyString
  | Some (Results rows) =>
      match default [] rows with
      | [] => mret EmptyString
      | row0 :: _ =>
          let ts_raw := default (JStr EmptyString) row0 in
          dt ← lift (of_outcome (timestamps.parse_timestamp (as_text ts_raw)));
          match dt with
          | None => mret EmptyString
          | Some dt => mret (PyTime.strftime_csv zero_pad dt)
          end
      end
  end.

(** The body of [for row in rows] in [run_defender_crosscheck]. *)
Definition check_row (d : defender) (zero_pad : bool) (days total : Z)
    (acc : list row * Z) (r : row) : M (list row * Z) :=
  let '(enriched_rows, checked_count) := acc in
  cell ← lift (or_fail AttributeError (row_get_or_empty r "destination"));
  let domain := Py.strip cell in
  let checked_count := checked_count + 1 in
  say (CrossProgress checked_count total domain (eta d checked_count));;
  last_seen ← (if negb (String.eqb domain EmptyString)
               then get_latest_defender_observation d zero_pad domain days
               else mret EmptyString);
  let r := <["observedInDefender" := Some last_seen]> r in
  mret ((enriched_rows ++ [r])%list, checked_count).

(** [run_defender_crosscheck(csv_path, days)] on a record set that has been
    read: [load_csv] found the file, the file has a header ([fieldnames] is
    no [None]) and no line longer than it (no record has surplus cells for
    [DictWriter] to refuse). *)
Definition run_defender_crosscheck (e : env) (d : defender) (zero_pad : bool)
    (csv_path : string) (fieldnames : list string) (rows : list row) (days : Z)
  : M string :=
  say (CrossLoaded csv_path);;
  say (CrossLookback days);;
  let fieldnames :=
    if negb (in_list "observedInDefender" fieldnames)
    then (fieldnames ++ ["observedInDefender"])%list else fieldnames in
  let total := Py.len rows in
  say (CrossTotal total);;
  if total =? 0 then say CrossNoRows;; mret csv_path
  else
    token ← get_defender_token d;
    if negb token then raise (Builtin (SystemExit "[!] Failed to obtain Defender token"))
    else
      say CrossBeginning;;
      '(enriched_rows, _) ← for_each (check_row d zero_pad days total) ([], 0) rows;
      let base := fst (Py.splitext csv_path) in
      let output_path := base +:+ "_with_defender.csv" in
      (if writable e output_path
       then emit (SaveCsv output_path fieldnames enriched_rows)
       else raise (Builtin OSError));;
      say (CrossDone output_path);;
      mret (abspath e output_path).

End defender_crosscheck.

(* ===================================================================== *)
(** * Vocabulary of the interactive stages *)
(* ===================================================================== *)

Section Observations.

Import PyJson Io.

(** The log of a prompt that took [n] unusable lines before its last
    question. *)
Definition reminders (prompt : string) (reminder : note) (n : nat) : list action :=
  (concat (replicate n [Ask prompt; Say reminder]) ++ [Ask prompt])%list.

(** The time the export reads in a value: epoch seconds first, then the
    reading of [parse_timestamp]. *)
Definition stamp (value : json) : option Py.datetime :=
  match int value with
  | Some n =>
      match PyTime.fromtimestamp_utc n with
      | Some t => Some t
      | None => reading (as_text value)
      end
  | None => reading (as_text value)
  end.

(** The cells of a row of the export, key by key. *)
Fixpoint cells (zero_pad : bool) (row norm : destination) (keys : list string)
  : result destination :=
  match keys with
  | [] => Done norm
  | key :: keys' =>
      match umbrella_list_overview.normalize zero_pad row key with
      | Done value => cells zero_pad row (<[key := value]> norm) keys'
      | Fail e => Fail e
      end
  end.

(** The rows of the export, row by row. *)
Fixpoint normalized (zero_pad : bool) (keys : list string)
    (acc : list destination) (rows : list destination) : result (list destination) :=
  match rows with
  | [] => Done acc
  | row :: rows' =>
      match cells zero_pad row ∅ keys with
      | Done norm => normalized zero_pad keys (acc ++ [norm]) rows'
      | Fail e => Fail e
      end
  end.

(** The comment of a row is one [clean_comment] takes. *)
Definition comment_ok (row : destination) : bool :=
  match umbrella_list_overview.clean_comment (default (JStr EmptyString) (row !! "comment")) with
  | Some _ => true
  | None => false
  end.

(** The files written by the export, in order. *)
Definition exports (log : list action) : list (string * list string * list destination) :=
  omap (fun a => match a with
                 | SaveExport path fieldnames rows => Some (path, fieldnames, rows)
                 | _ => None
                 end) log.

(** A state after some more actions. *)
Definition logged (st : state) (actions : list action) : state :=
  mk_state (pending st) (log st ++ actions).

(** Every character of [s] passes [ok]. *)
Fixpoint all_chars (ok : ascii -> bool) (s : string) : bool :=
  match s with
  | String c s' => ok c && all_chars ok s'
  | EmptyString => true
  end.

(** A character of a file name made by the export. *)
Definition name_char (c : ascii) : bool := isalnum c || Ascii.eqb c "_".

(** The menu of destination lists, numbered from [i]. *)
Fixpoint menu (i : Z) (lists : list umbrella_list_overview.destination_list) : list action :=
  match lists with
  | [] => []
  | lst :: lists' =>
      Say (ListsEntry i (umbrella_list_overview.list_name lst)
             (umbrella_list_overview.list_id lst)) :: menu (i + 1) lists'
  end.

(** What the operator is shown before choosing a list. *)
Definition choice_screen (lists : list umbrella_list_overview.destination_list) : list action :=
  ([FetchLists; Say ListsBanner] ++ menu 1 lists
   ++ [Say ListsRule; Ask "Enter the number of the destination list to export: "])%list.

(** What [get_latest_defender_observation] makes of the reply to its
    query: the time of the first row in the CSV format, or the empty text. *)
Definition observation (zero_pad : bool) (reply : defender_crosscheck.kql_reply) : string :=
  match reply with
  | defender_crosscheck.Results (Some (row0 :: _)) =>
      match reading (as_text (default (JStr EmptyString) row0)) with
      | Some dt => PyTime.strftime_csv zero_pad dt
      | None => EmptyString
      end
  | _ => EmptyString
  end.

(** What a query adds to the log. *)
Definition query_trace (kql : string) (reply : defender_crosscheck.kql_reply) : list action :=
  match reply with
  | defender_crosscheck.RequestFailed => [Query kql; Say QueryFailed]
  | _ => [Query kql]
  end.

(** The queries sent and the files written by the cross-check, in order. *)
Definition queries (log : list action) : list string :=
  omap (fun a => match a with Query kql => Some kql | _ => None end) log.

Definition saves (log : list action) : list (string * list string * list row) :=
  omap (fun a => match a with
                 | SaveCsv path fieldnames rows => Some (path, fieldnames, rows)
                 | _ => None
                 end) log.

(** The domain looked up for a record: its stripped destination, if that is
    a text and not blank. *)
Definition lookup_domain (r : row) : option string :=
  match row_get_or_empty r "destination" with
  | Some cell =>
      if String.eqb (Py.strip cell) EmptyString then None else Some (Py.strip cell)
  | None => None
  end.

(** The queries for a record set, and the records with the answers filled
    in, the first lookup getting the answer number [k]. *)
Definition lookups (days : Z) (rows : list row) : list string :=
  omap (fun r => (fun domain => defender_crosscheck.build_kql_for_domain domain days)
                 <$> lookup_domain r) rows.

Fixpoint annotate (zero_pad : bool) (d : defender_crosscheck.defender) (k : nat)
    (rows : list row) : list row :=
  match rows with
  | [] => []
  | r :: rows' =>
      match lookup_domain r with
      | Some _ =>
          <["observedInDefender" := Some (observation zero_pad (defender_crosscheck.kql_answer d k))]> r
          :: annotate zero_pad d (S k) rows'
      | None =>
          <["observedInDefender" := Some EmptyString]> r :: annotate zero_pad d k rows'
      end
  end.

(** The header of the enriched file. *)
Definition with_observed (fieldnames : list string) : list string :=
  if in_list "observedInDefender" fieldnames then fieldnames
  else (fieldnames ++ ["observedInDefender"])%list.

(** The mode an answer to [ask_delete_mode] stands for. *)
Definition mode_of_answer (ans : string) : option prompts.delete_mode :=
  if in_list ans ["y"; "yes"] then Some prompts.yes
  else if in_list ans ["n"; "no"] then Some prompts.no
  else if in_list ans ["dry"; "d"] then Some prompts.dry
  else None.

End Observations.

(* ===================================================================== *)
(** * More sample data *)
(* ===================================================================== *)

Module sample_io.

Import PyJson Io.

Definition lists : list umbrella_list_overview.destination_list :=
  [umbrella_list_overview.mk_list 101 "Global Block List";
   umbrella_list_overview.mk_list 202 "Test / Staging"].

Definition shop : destination :=
  {[ "id" := JInt 7; "destination" := JStr " shop.example ";
     "createdAt" := JInt 1704067200; "comment" := JStr "seen twice" ]}.

Definition counted : destination :=
  {[ "id" := JInt 8; "destination" := JStr "mail.example"; "comment" := JInt 3 ]}.

Definition api : umbrella_list_overview.UmbrellaAPI :=
  umbrella_list_overview.mk_api (Done lists)
    (fun list_id => if list_id =? 101 then Done [shop] else Done []).

Definition seen : defender_crosscheck.kql_reply :=
  defender_crosscheck.Results (Some [Some (JStr "2024-03-05T10:20:30.5Z")]).

Definition service : defender_crosscheck.defender :=
  defender_crosscheck.mk_defender (Done true)
    (fun k => match k with
              | O => seen
              | _ => defender_crosscheck.RequestFailed
              end)
    (fun _ => 0).

Definition listed : row := {[ "id" := Some "7"; "destination" := Some " shop.example " ]}.
Definition blank : row := {[ "id" := Some "8"; "destination" := Some "  " ]}.
Definition other : row := {[ "id" := Some "9"; "destination" := Some "mail.example" ]}.
Definition short : row := {[ "id" := Some "10"; "destination" := None ]}.

End sample_io.

(* ===================================================================== *)
(** * Properties of the timestamp parser *)
(* ===================================================================== *)

Section TimestampFacts.

Import timestamps.

Lemma contains_T_cons c s :
  Py.contains "T" (String c s) = Ascii.eqb "T" c || Py.contains "T" s.
Proof. cbn [Py.contains Py.startswith]. destruct (Ascii.eqb "T" c); reflexivity. Qed.

Lemma first_success_Some {A B} (f : A -> option B) l b :
  Py.first_success f l = Some b -> exists a, In a l /\ f a = Some b.
Proof.
  induction l as [|a l IH]; simpl; [discriminate|].
  destruct (f a) eqn:E.
  - intros [= <-]. exists a. auto.
  - intros H. destruct (IH H) as (a' & Hin & Ha). exists a'. auto.
Qed.

(** What a sequence of classes that all reject ["T"] consumes holds no ["T"]. *)
Lemma match_classes_no_T cs s txt rest :
  forallb (fun cl : Py.char_class => negb (cl "T"%char)) cs = true ->
  Py.match_classes cs s = Some (txt, rest) ->
  Py.contains "T" s = Py.contains "T" rest.
Proof.
  revert s txt. induction cs as [|cl cs IH]; intros s txt Hcs; simpl.
  - intros [= _ <-]. reflexivity.
  - simpl in Hcs. apply andb_true_iff in Hcs as [Hcl Hcs].
    destruct s as [|c s]; [discriminate|].
    destruct (cl c) eqn:Ec; [|discriminate].
    destruct (Py.match_classes cs s) as [[t r]|] eqn:Em; [|discriminate].
    intros [= _ <-]. rewrite contains_T_cons, (IH _ _ Hcs Em).
    destruct (Ascii.eqb_spec "T" c) as [<-|_]; [|reflexivity].
    rewrite Ec in Hcl. discriminate.
Qed.

Lemma after_spaces_no_T s r :
  In r (Py.after_spaces s) -> Py.contains "T" s = Py.contains "T" r.
Proof.
  induction s as [|c s IH]; simpl; [tauto|].
  destruct (Py.isspace c) eqn:Ec; [|simpl; tauto].
  assert (Hc : Ascii.eqb "T" c = false).
  { destruct (Ascii.eqb_spec "T" c) as [<-|]; [discriminate Ec|reflexivity]. }
  intros Hin. apply in_app_or in Hin as [Hin|[<-|[]]].
  - change (Py.contains "T" (String c s) = Py.contains "T" r).
    rewrite contains_T_cons, Hc. simpl. auto.
  - change (Py.contains "T" (String c s) = Py.contains "T" s).
    rewrite contains_T_cons, Hc. reflexivity.
Qed.

Lemma run_items_no_T items s vals rest :
  forallb item_rejects_T items = true ->
  Py.run_items items s = Some (vals, rest) ->
  Py.contains "T" s = Py.contains "T" rest.
Proof.
  revert s vals. induction items as [|it items IH]; intros s vals Hok; simpl.
  - intros [= _ <-]. reflexivity.
  - simpl in Hok. apply andb_true_iff in Hok as [Hit Hok].
    destruct it as [alts|c|]; simpl in Hit.
    + intros H. apply first_success_Some in H as (cs & Hin & H).
      destruct (Py.match_classes cs s) as [[txt r]|] eqn:Em; [|discriminate].
      destruct (Py.run_items items r) as [[vs r']|] eqn:Er; [|discriminate].
      injection H as _ <-.
      rewrite forallb_forall in Hit.
      rewrite (match_classes_no_T _ _ _ _ (Hit _ Hin) Em). eauto.
    + destruct s as [|c' s]; [discriminate|].
      destruct (Ascii.eqb_spec c c') as [<-|]; [|discriminate].
      intros H. rewrite contains_T_cons, (IH _ _ Hok H).
      destruct (Ascii.eqb_spec "T" c) as [<-|]; [discriminate Hit|reflexivity].
    + intros H. apply first_success_Some in H as (r & Hin & H).
      rewrite (after_spaces_no_T _ _ Hin). eauto.
Qed.

(** The CSV format accepts no text with a ["T"] in it. *)
Lemma strptime_csv_no_T v :
  Py.contains "T" v = true -> Py.strptime_csv v = None.
Proof.
  intros HT. unfold Py.strptime_csv.
  destruct (Py.run_items Py.csv_format v) as [[vals rest]|] eqn:E; [|reflexivity].
  assert (Hrest : Py.contains "T" rest = true).
  { assert (Hfmt : forallb item_rejects_T Py.csv_format = true) by reflexivity.
    rewrite <- (run_items_no_T _ _ _ _ Hfmt E). exact HT. }
  destruct rest; [discriminate Hrest|].
  repeat (destruct vals as [|? vals]; try reflexivity).
Qed.

Lemma ymd2ord_bounds y m d :
  1 <= y <= 9999 -> 1 <= m <= 12 -> 1 <= d <= Py.days_in_month y m ->
  1 <= Py.ymd2ord y m d <= Py.MAXORDINAL.
Proof.
  intros Hy Hm Hd.
  unfold Py.ymd2ord, Py.days_before_year, Py.days_before_month, Py.MAXORDINAL.
  unfold Py.days_in_month, Py.is_leap in *.
  assert (Hcases : m = 1 \/ m = 2 \/ m = 3 \/ m = 4 \/ m = 5 \/ m = 6 \/ m = 7
                   \/ m = 8 \/ m = 9 \/ m = 10 \/ m = 11 \/ m = 12) by lia.
  destruct (Z.eqb_spec (y mod 4) 0), (Z.eqb_spec (y mod 100) 0),
    (Z.eqb_spec (y mod 400) 0); cbn [negb orb andb] in *;
  repeat (destruct Hcases as [->|Hcases]); try subst m;
  match goal with
  | |- context [nth (Z.to_nat ?k) ?l ?d0] =>
      let v := eval vm_compute in (nth (Z.to_nat k) l d0) in
      change (nth (Z.to_nat k) l d0) with v
  end; cbn in Hd |- *; Z.div_mod_to_equations; lia.
Qed.

(** A constructed [datetime] lies within the representable years. *)
Lemma new_datetime_in_range y m d hh mm ss us tz dt :
  Py.new_datetime y m d hh mm ss us tz = Some dt ->
  Py.in_range (Py.wall dt) = true /\ Py.tzinfo dt = tz.
Proof.
  unfold Py.new_datetime.
  destruct (_ && _) eqn:E; [|discriminate]. intros [= <-]. simpl.
  repeat (apply andb_true_iff in E as [E ?]).
  split; [|reflexivity].
  pose proof (ymd2ord_bounds y m d ltac:(lia) ltac:(lia) ltac:(lia)) as Ho.
  unfold Py.in_range, Py.MAXORDINAL, Py.US_PER_DAY, Py.US_PER_SECOND in *.
  apply andb_true_iff. split; [apply Z.leb_le | apply Z.ltb_lt]; nia.
Qed.

Lemma strptime_csv_in_range v dt :
  Py.strptime_csv v = Some dt ->
  Py.in_range (Py.wall dt) = true /\ Py.tzinfo dt = None.
Proof.
  unfold Py.strptime_csv.
  destruct (Py.run_items Py.csv_format v) as [[vals rest]|]; [|discriminate].
  do 7 (destruct vals as [|? vals]; try discriminate).
  destruct rest; [|discriminate]. apply new_datetime_in_range.
Qed.

Lemma csv_utc_aware v dt :
  csv_utc v = Some dt -> Py.tzinfo dt = Py.utc /\ Py.in_range (Py.wall dt) = true.
Proof.
  unfold csv_utc. destruct (Py.strptime_csv v) as [d|] eqn:E; [|discriminate].
  intros [= <-]. simpl. split; [reflexivity|]. apply (strptime_csv_in_range _ _ E).
Qed.

Lemma iso_utc_aware v dt :
  iso_utc v = Some dt -> Py.tzinfo dt = Py.utc /\ Py.in_range (Py.wall dt) = true.
Proof.
  unfold iso_utc. destruct (Py.fromisoformat _) as [d|]; [|discriminate].
  destruct (Py.in_range (instant d)) eqn:E; [|discriminate].
  intros [= <-]. simpl. auto.
Qed.

Lemma reading_aware value dt :
  reading value = Some dt -> Py.tzinfo dt = Py.utc /\ Py.in_range (Py.wall dt) = true.
Proof.
  unfold reading. destruct value as [[|c s]|]; try discriminate.
  cbv zeta. destruct (Py.contains "T" _); [apply iso_utc_aware | apply csv_utc_aware].
Qed.

(** The ISO block returns the ISO reading, and raises where there is none. *)
Lemma iso_block_spec v :
  match iso_utc v with
  | Some dt => iso_block v = Ret (Some dt)
  | None => exists e, iso_block v = Raise e
  end.
Proof.
  unfold iso_utc, iso_block, instant, Py.astimezone_utc.
  destruct (Py.fromisoformat _) as [d|]; simpl; [|eauto].
  destruct d as [w [off|]]; simpl.
  - destruct (Py.in_range (w - off)); simpl; eauto.
  - destruct (Py.in_range (w - 0)); simpl; eauto.
Qed.

Lemma csv_block_spec v :
  try_except_pass (csv_block v) (Ret None) = Ret (csv_utc v).
Proof.
  unfold csv_block, csv_utc. destruct (Py.strptime_csv v); reflexivity.
Qed.

(** [parse_timestamp] never raises, and returns the reading of its value. *)
Lemma parse_timestamp_reading value :
  parse_timestamp value = Ret (reading value).
Proof.
  unfold parse_timestamp, reading.
  destruct value as [[|c s]|]; try reflexivity.
  cbn [Py.truthy negb Py.str]. cbv zeta.
  set (v := Py.strip (String c s)). rewrite csv_block_spec.
  destruct (Py.contains "T" v) eqn:HT; [|reflexivity].
  pose proof (iso_block_spec v) as H.
  destruct (iso_utc v) as [dt|].
  - rewrite H. reflexivity.
  - destruct H as [e ->]. simpl. unfold csv_utc.
    rewrite (strptime_csv_no_T v HT). reflexivity.
Qed.

Lemma contains_Z_cons c s :
  Py.contains "Z" (String c s) = Ascii.eqb "Z" c || Py.contains "Z" s.
Proof. cbn [Py.contains Py.startswith]. destruct (Ascii.eqb "Z" c); reflexivity. Qed.

(** A single trailing ["Z"] becomes the offset ["+00:00"]. *)
Lemma replace_trailing_Z body :
  Py.contains "Z" body = false ->
  Py.replace "Z" "+00:00" (body +:+ "Z") = body +:+ "+00:00".
Proof.
  unfold Py.replace. induction body as [|c body IH]; [reflexivity|].
  rewrite contains_Z_cons. intros H. apply orb_false_iff in H as [Hc Hb].
  change (String c body +:+ "Z") with (String c (body +:+ "Z")).
  change (String c body +:+ "+00:00") with (String c (body +:+ "+00:00")).
  cbn [Py.replace_from Py.startswith]. rewrite Hc.
  f_equal. apply IH, Hb.
Qed.

Lemma lstrip_all_space s : all_space s = true -> Py.lstrip s = EmptyString.
Proof.
  induction s as [|c s IH]; simpl; [reflexivity|].
  intros H. apply andb_true_iff in H as [-> H]. auto.
Qed.

Lemma reading_all_space s : all_space s = true -> reading (Some s) = None.
Proof.
  intros H. unfold reading. destruct s as [|c s]; [reflexivity|].
  cbv zeta. unfold Py.strip. rewrite (lstrip_all_space _ H). reflexivity.
Qed.

End TimestampFacts.

(** C8.  [parse_timestamp] never raises: for every value it returns either
    nothing or a timezone-aware UTC instant within the representable years.
    A text that holds a ["T"] after stripping is read as ISO-8601, its ["Z"]
    written as the UTC offset (a trailing ["Z"] becomes ["+00:00"]), a naive
    result taken as UTC and an aware one converted to UTC; a text without
    ["T"] is read in the format ["%Y-%m-%d %H:%M:%S"] and taken as UTC.
    [None], the empty text, white space and text that neither reading
    accepts give nothing.  ["2024-01-01T00:00:00Z"] and
    ["2024-01-01 00:00:00"] give the same instant. *)
Theorem parse_timestamp_contract :
  (forall value, exists r,
      timestamps.parse_timestamp value = Ret r /\
      forall dt, r = Some dt ->
        Py.tzinfo dt = Py.utc /\ Py.in_range (Py.wall dt) = true)
  /\ (forall s, s <> EmptyString -> Py.contains "T" (Py.strip s) = true ->
        timestamps.parse_timestamp (Some s) = Ret (iso_utc (Py.strip s)))
  /\ (forall body, Py.contains "Z" body = false ->
        Py.replace "Z" "+00:00" (body +:+ "Z") = body +:+ "+00:00")
  /\ (forall s, s <> EmptyString -> Py.contains "T" (Py.strip s) = false ->
        timestamps.parse_timestamp (Some s) = Ret (csv_utc (Py.strip s)))
  /\ timestamps.parse_timestamp None = Ret None
  /\ timestamps.parse_timestamp (Some EmptyString) = Ret None
  /\ (forall s, all_space s = true -> timestamps.parse_timestamp (Some s) = Ret None)
  /\ (forall s, iso_utc (Py.strip s) = None -> csv_utc (Py.strip s) = None ->
        timestamps.parse_timestamp (Some s) = Ret None)
  /\ timestamps.parse_timestamp (Some "2024-01-01T00:00:00Z")
     = Ret (Some (Py.mk_datetime (738886 * Py.US_PER_DAY) Py.utc))
  /\ timestamps.parse_timestamp (Some "2024-01-01 00:00:00")
     = timestamps.parse_timestamp (Some "2024-01-01T00:00:00Z").
Proof.
  repeat apply conj.
  - intros value. exists (reading value). split; [apply parse_timestamp_reading|].
    intros dt H. apply reading_aware with (value := value). congruence.
  - intros s Hs HT. rewrite parse_timestamp_reading. unfold reading.
    destruct s; [congruence|]. cbv zeta. rewrite HT. reflexivity.
  - apply replace_trailing_Z.
  - intros s Hs HT. rewrite parse_timestamp_reading. unfold reading.
    destruct s; [congruence|]. cbv zeta. rewrite HT. reflexivity.
  - reflexivity.
  - reflexivity.
  - intros s H. rewrite parse_timestamp_reading, reading_all_space; auto.
  - intros s Hi Hc. rewrite parse_timestamp_reading. unfold reading.
    destruct s; [reflexivity|]. cbv zeta. rewrite Hi, Hc.
    destruct (Py.contains _ _); reflexivity.
  - vm_compute. reflexivity.
  - vm_compute. reflexivity.
Qed.

Lemma parse_timestamp_contract_witness :
  timestamps.parse_timestamp (Some " 2024-01-01T02:00:00+02:00 ")
  = Ret (iso_utc (Py.strip " 2024-01-01T02:00:00+02:00 ")).
Proof.
  apply (proj1 (proj2 parse_timestamp_contract)); [discriminate | reflexivity].
Defined.

(* ===================================================================== *)
(** * Properties of the age filter and of the selector *)
(* ===================================================================== *)

Section CutoffFacts.

Lemma sub_days_spec dt days cutoff :
  Py.sub_days dt days = Some cutoff ->
  Py.tzinfo cutoff = Py.tzinfo dt /\
  Py.wall cutoff = Py.wall dt - days * Py.US_PER_DAY.
Proof.
  unfold Py.sub_days. destruct (_ && _); [|discriminate].
  destruct (Py.in_range _); [|discriminate]. intros [= <-]. auto.
Qed.

Lemma cutoff_instant e days cutoff :
  Py.sub_days (now e) days = Some cutoff ->
  Py.tzinfo cutoff = Py.utc /\ instant cutoff = clock e - days * Py.US_PER_DAY.
Proof.
  intros H. apply sub_days_spec in H as [Htz Hw]. unfold instant.
  rewrite Htz, Hw. simpl. split; [reflexivity | lia].
Qed.

(** Against an aware cutoff the comparison of a parsed value never raises. *)
Lemma none_or_le_reading value cutoff :
  Py.tzinfo cutoff = Py.utc ->
  none_or_le (reading value) (Some cutoff)
  = Ret (match reading value with
         | None => true
         | Some t => instant t <=? instant cutoff
         end).
Proof.
  intros Hc. destruct (reading value) as [t|] eqn:E; [|reflexivity].
  apply reading_aware in E as [Ht _].
  unfold none_or_le, Py.le, instant. rewrite Ht, Hc. reflexivity.
Qed.

Lemma qualifies_iff cutoff field r :
  qualifies cutoff field r = true <->
  timestamps.parse_timestamp (row_get r field) = Ret None \/
  exists t, timestamps.parse_timestamp (row_get r field) = Ret (Some t)
            /\ instant t <= instant cutoff.
Proof.
  unfold qualifies. rewrite parse_timestamp_reading.
  destruct (reading (row_get r field)) as [t|].
  - rewrite Z.leb_le. split.
    + intros H. right. exists t. auto.
    + intros [[=]|(t' & [= <-] & H)]. exact H.
  - split; auto.
Qed.

End CutoffFacts.

Section FilterFacts.

Import main.

Lemma filter_body_spec cutoff kept too_new r log :
  Py.tzinfo cutoff = Py.utc ->
  filter_body cutoff (kept, too_new) r log
  = (log, Ret (if qualifies cutoff "createdAt" r
               then ((kept ++ [r])%list, too_new)
               else (kept, too_new + 1))).
Proof.
  intros Hc. unfold filter_body, mbind, M_bind, lift.
  rewrite parse_timestamp_reading, (none_or_le_reading _ _ Hc).
  unfold qualifies.
  destruct (reading (row_get r "createdAt")) as [t|];
    [destruct (instant t <=? instant cutoff)|]; reflexivity.
Qed.

Lemma filter_loop_spec cutoff rows : forall kept too_new log,
  Py.tzinfo cutoff = Py.utc ->
  for_each (filter_body cutoff) (kept, too_new) rows log
  = (log, Ret ((kept ++ List.filter (qualifies cutoff "createdAt") rows)%list,
               too_new + Py.len (List.filter
                                   (fun r => negb (qualifies cutoff "createdAt" r))
                                   rows))).
Proof.
  induction rows as [|r rows IH]; intros kept too_new log Hc.
  - simpl. unfold mret, M_ret, Py.len. simpl.
    rewrite app_nil_r, Z.add_0_r. reflexivity.
  - cbn [for_each]. unfold mbind at 1, M_bind at 1.
    rewrite (filter_body_spec _ _ _ _ _ Hc). cbn [List.filter].
    destruct (qualifies cutoff "createdAt" r); cbn [negb].
    + rewrite IH by exact Hc. rewrite <- app_assoc. reflexivity.
    + rewrite IH by exact Hc. unfold Py.len. cbn [length].
      do 2 f_equal. f_equal. lia.
Qed.

Lemma filter_partition_length {A} (f : A -> bool) (l : list A) :
  Py.len (List.filter f l) + Py.len (List.filter (fun x => negb (f x)) l)
  = Py.len l.
Proof.
  unfold Py.len. induction l as [|a l IH]; [reflexivity|].
  cbn [List.filter]. destruct (f a); cbn [negb length]; lia.
Qed.

End FilterFacts.

(** C2.  Where the cutoff [now - D days] exists and the output file can be
    written, [filter_by_created_age] writes exactly the records whose
    [createdAt] is unreadable or at or before the cutoff, in their order; a
    record created exactly at the cutoff is kept; and the count it prints as
    kept plus the count it prints as too new is the count of the input. *)
Theorem filter_by_created_age_keeps e csv_path fieldnames rows D cutoff :
  Py.sub_days (now e) D = Some cutoff ->
  writable e (age_output_path csv_path D) = true ->
  exists kept too_new,
    run (main.filter_by_created_age e csv_path fieldnames rows D)
    = ([Printed (AgeCutoff cutoff D);
        WriteCsv (age_output_path csv_path D) fieldnames kept;
        Printed (AgeTotal (Py.len rows));
        Printed (AgeKept D (Py.len kept));
        Printed (AgeTooNew too_new);
        Printed (AgeOutput (age_output_path csv_path D))],
       Ret (abspath e (age_output_path csv_path D)))
    /\ instant cutoff = clock e - D * Py.US_PER_DAY
    /\ kept = List.filter (qualifies cutoff "createdAt") rows
    /\ (forall r, qualifies cutoff "createdAt" r = true <->
          timestamps.parse_timestamp (row_get r "createdAt") = Ret None \/
          exists t, timestamps.parse_timestamp (row_get r "createdAt") = Ret (Some t)
                    /\ instant t <= instant cutoff)
    /\ (forall r t, In r rows ->
          timestamps.parse_timestamp (row_get r "createdAt") = Ret (Some t) ->
          instant t = instant cutoff -> In r kept)
    /\ Py.len kept + too_new = Py.len rows.
Proof.
  intros Hcut Hw.
  destruct (cutoff_instant _ _ _ Hcut) as [Htz Hinst].
  exists (List.filter (qualifies cutoff "createdAt") rows),
         (Py.len (List.filter (fun r => negb (qualifies cutoff "createdAt" r)) rows)).
  repeat apply conj.
  - unfold run, main.filter_by_created_age, mbind, M_bind, lift, print, emit.
    rewrite Hcut. cbn [or_raise].
    rewrite (filter_loop_spec cutoff rows [] 0 _ Htz). cbn [app].
    unfold write_csv. fold (age_output_path csv_path D). rewrite Hw.
    unfold emit. rewrite Z.add_0_l. reflexivity.
  - exact Hinst.
  - reflexivity.
  - intros r. apply qualifies_iff.
  - intros r t Hin Hp Ht. apply filter_In. split; [exact Hin|].
    apply qualifies_iff. right. exists t. split; [exact Hp | lia].
  - apply filter_partition_length.
Qed.

Lemma filter_by_created_age_keeps_witness :
  exists kept too_new,
    run (main.filter_by_created_age sample.quiet "out/list.csv" ["id"; "createdAt"]
           sample.records 1)
    = ([Printed (AgeCutoff sample.cutoff1 1);
        WriteCsv (age_output_path "out/list.csv" 1) ["id"; "createdAt"] kept;
        Printed (AgeTotal (Py.len sample.records));
        Printed (AgeKept 1 (Py.len kept));
        Printed (AgeTooNew too_new);
        Printed (AgeOutput (age_output_path "out/list.csv" 1))],
       Ret (abspath sample.quiet (age_output_path "out/list.csv" 1)))
    /\ kept = [sample.aged; sample.at_cutoff; sample.undated]
    /\ too_new = 1.
Proof.
  destruct (filter_by_created_age_keeps sample.quiet "out/list.csv"
              ["id"; "createdAt"] sample.records 1 sample.cutoff1)
    as (kept & too_new & Hrun & _ & Hkept & _ & _ & Hlen).
  - vm_compute. reflexivity.
  - vm_compute. reflexivity.
  - exists kept, too_new. split; [exact Hrun|].
    assert (Hk : kept = [sample.aged; sample.at_cutoff; sample.undated]).
    { rewrite Hkept. vm_compute. reflexivity. }
    split; [exact Hk|]. rewrite Hk in Hlen.
    unfold Py.len, sample.records in Hlen. cbn [length] in Hlen. lia.
Defined.

Section SelectorFacts.

Import selector.

Lemma select_body_spec cc dd cd a b cands r log :
  Py.tzinfo cc = Py.utc ->
  match dd, cd with
  | None, None => True
  | Some _, Some c => Py.tzinfo c = Py.utc
  | _, _ => False
  end ->
  select_body cc dd cd (a, b, cands) r log
  = (log, Ret (if qualifies cc "createdAt" r
               then if selected cc cd r
                    then (a + 1, b + 1, (cands ++ [r])%list)
                    else (a + 1, b, cands)
               else (a, b, cands))).
Proof.
  intros Hcc Hd. unfold select_body, selected, mbind, M_bind, lift.
  rewrite parse_timestamp_reading, (none_or_le_reading _ _ Hcc).
  fold (qualifies cc "createdAt" r).
  destruct (qualifies cc "createdAt" r); cbn [negb andb]; [|reflexivity].
  destruct dd as [d|], cd as [c|]; try contradiction; [|reflexivity].
  rewrite parse_timestamp_reading, (none_or_le_reading _ _ Hd).
  fold (qualifies c "observedInDefender" r).
  destruct (qualifies c "observedInDefender" r); reflexivity.
Qed.

Lemma selected_aged cc cd r :
  selected cc cd r = true -> qualifies cc "createdAt" r = true.
Proof. unfold selected. intros H. apply andb_true_iff in H as [H _]. exact H. Qed.

Lemma select_loop_spec cc dd cd rows : forall a b cands log,
  Py.tzinfo cc = Py.utc ->
  match dd, cd with
  | None, None => True
  | Some _, Some c => Py.tzinfo c = Py.utc
  | _, _ => False
  end ->
  for_each (select_body cc dd cd) (a, b, cands) rows log
  = (log, Ret (a + Py.len (List.filter (qualifies cc "createdAt") rows),
               b + Py.len (List.filter (selected cc cd) rows),
               (cands ++ List.filter (selected cc cd) rows)%list)).
Proof.
  induction rows as [|r rows IH]; intros a b cands log Hcc Hd.
  - simpl. unfold mret, M_ret, Py.len. simpl.
    rewrite app_nil_r, !Z.add_0_r. reflexivity.
  - cbn [for_each]. unfold mbind at 1, M_bind at 1.
    rewrite (select_body_spec _ _ _ _ _ _ _ _ Hcc Hd). cbn [List.filter].
    destruct (qualifies cc "createdAt" r) eqn:Eq.
    + destruct (selected cc cd r) eqn:Es; rewrite IH by assumption;
        unfold Py.len; cbn [length]; rewrite <- ?app_assoc; cbn [app];
        do 2 f_equal; f_equal; try f_equal; lia.
    + assert (Es : selected cc cd r = false).
      { destruct (selected cc cd r) eqn:Es; [|reflexivity].
        apply selected_aged in Es. congruence. }
      rewrite Es, IH by assumption. reflexivity.
Qed.

Lemma selector_cutoffs_spec e created_days defender_days cc cd :
  selector_cutoffs e created_days defender_days = Some (cc, cd) ->
  Py.sub_days (now e) created_days = Some cc /\
  Py.tzinfo cc = Py.utc /\
  match defender_days, cd with
  | None, None => True
  | Some d, Some c => Py.sub_days (now e) d = Some c /\ Py.tzinfo c = Py.utc
  | _, _ => False
  end.
Proof.
  unfold selector_cutoffs.
  destruct (Py.sub_days (now e) created_days) as [c1|] eqn:E1; [|discriminate].
  destruct defender_days as [d|].
  - destruct (Py.sub_days (now e) d) as [c2|] eqn:E2; [|discriminate].
    intros [= <- <-]. split; [reflexivity|].
    split; [apply (cutoff_instant _ _ _ E1)|].
    split; [reflexivity | apply (cutoff_instant _ _ _ E2)].
  - intros [= <- <-]. split; [reflexivity|].
    split; [apply (cutoff_instant _ _ _ E1) | exact I].
Qed.

Lemma int_of_id_truthy r :
  Py.truthy (row_get r "id") = true ->
  int_of_id r = or_raise ValueError (Py.int (Py.str (row_get r "id"))).
Proof.
  unfold int_of_id, row_get. destruct (r !! "id") as [[s|]|]; try discriminate.
  reflexivity.
Qed.

(** The list comprehension returns the ids when [int] accepts each
    non-empty one, and otherwise raises [ValueError]. *)
Lemma id_list_of_spec cands :
  id_list_of cands
  = if forallb id_ok cands then Ret (ids_of cands) else Raise ValueError.
Proof.
  induction cands as [|r cands IH]; [reflexivity|].
  cbn [id_list_of forallb ids_of flat_map]. unfold id_ok at 1.
  destruct (Py.truthy (row_get r "id")) eqn:Et; cbn [negb orb].
  - rewrite (int_of_id_truthy _ Et).
    destruct (Py.int (Py.str (row_get r "id"))) as [n|]; [|reflexivity].
    cbn [or_raise andb]. unfold mbind at 1, outcome_bind at 1. rewrite IH.
    destruct (forallb id_ok cands); reflexivity.
  - cbn [andb app]. exact IH.
Qed.

Lemma cleaned_lookup fns r k :
  cleaned fns r !! k
  = if decide (k ∈ fns) then Some (row_get_or_empty r k) else None.
Proof.
  unfold cleaned.
  assert (H : forall d0 : row,
             foldl (fun d k0 => <[k0 := row_get_or_empty r k0]> d) d0 fns !! k
             = if decide (k ∈ fns) then Some (row_get_or_empty r k) else d0 !! k).
  { induction fns as [|f fns IH]; intros d0; cbn [foldl].
    - rewrite decide_False by apply not_elem_of_nil. reflexivity.
    - rewrite IH. destruct (decide (k ∈ fns)) as [Hin|Hnin].
      + rewrite decide_True by (right; exact Hin). reflexivity.
      + rewrite lookup_insert. destruct (decide (f = k)) as [->|Hne].
        * rewrite decide_True by left. reflexivity.
        * rewrite decide_False; [reflexivity|].
          intros Hin. apply elem_of_cons in Hin as [->|Hin]; congruence. }
  rewrite H. rewrite lookup_empty. reflexivity.
Qed.

Lemma clean_fieldnames_spec fns k :
  In k (clean_fieldnames fns) <-> In k fns /\ k <> EmptyString.
Proof.
  unfold clean_fieldnames. rewrite filter_In, negb_true_iff.
  destruct (String.eqb_spec k EmptyString); intuition congruence.
Qed.

(** The whole run of the selector. *)
Lemma run_cleanup_selector_spec e csv_path fieldnames rows created_days
    defender_days cc cd :
  selector_cutoffs e created_days defender_days = Some (cc, cd) ->
  writable e (cleanup_csv_path csv_path) = true ->
  run (run_cleanup_selector e csv_path fieldnames rows created_days defender_days)
  = let cands := List.filter (selected cc cd) rows in
    ((selector_report csv_path fieldnames rows created_days defender_days cc cands
      ++ fst (selector_finish e csv_path cands))%list,
     snd (selector_finish e csv_path cands)).
Proof.
  intros Hcut Hw. apply selector_cutoffs_spec in Hcut as (Hcc & Htz & Hd).
  cbv zeta. set (cands := List.filter (selected cc cd) rows).
  assert (Hloop : forall dd log,
             match dd, cd with
             | None, None => True
             | Some _, Some c => Py.tzinfo c = Py.utc
             | _, _ => False
             end ->
             for_each (select_body cc dd cd) (0, 0, []) rows log
             = (log, Ret (Py.len (List.filter (qualifies cc "createdAt") rows),
                          Py.len cands, cands))).
  { intros dd log Hdd. rewrite (select_loop_spec cc dd cd rows 0 0 [] log Htz Hdd).
    rewrite !Z.add_0_l. reflexivity. }
  unfold run, run_cleanup_selector, mbind, M_bind, lift, print, emit.
  rewrite Hcc. cbn [or_raise app].
  destruct defender_days as [d|], cd as [c|]; try contradiction.
  - destruct Hd as [Hd Hctz]. rewrite Hd. cbn [or_raise]. unfold mret at 1, M_ret at 1.
    rewrite (Hloop (Some d) _ Hctz). cbn [app].
    unfold write_csv.
    fold (cleanup_csv_path csv_path). fold (ids_json_path csv_path).
    fold (clean_fieldnames fieldnames).
    rewrite Hw. unfold emit. cbn [app].
    rewrite id_list_of_spec. unfold selector_finish, selector_report.
    destruct (forallb id_ok cands); [|reflexivity].
    unfold write_json.
    destruct (writable e (ids_json_path csv_path)); reflexivity.
  - unfold mret at 1, M_ret at 1.
    rewrite (Hloop None _ I). cbn [app].
    unfold write_csv.
    fold (cleanup_csv_path csv_path). fold (ids_json_path csv_path).
    fold (clean_fieldnames fieldnames).
    rewrite Hw. unfold emit. cbn [app].
    rewrite id_list_of_spec. unfold selector_finish, selector_report.
    destruct (forallb id_ok cands); [|reflexivity].
    unfold write_json.
    destruct (writable e (ids_json_path csv_path)); reflexivity.
Qed.

Lemma csv_files_app l1 l2 : csv_files (l1 ++ l2) = (csv_files l1 ++ csv_files l2)%list.
Proof. apply flat_map_app. Qed.

Lemma json_files_app l1 l2 : json_files (l1 ++ l2) = (json_files l1 ++ json_files l2)%list.
Proof. apply flat_map_app. Qed.

Lemma csv_files_report csv_path fieldnames rows created_days defender_days cc cands :
  csv_files (selector_report csv_path fieldnames rows created_days defender_days cc cands)
  = [(cleanup_csv_path csv_path, clean_fieldnames fieldnames,
      map (cleaned (clean_fieldnames fieldnames)) cands)].
Proof. destruct defender_days; reflexivity. Qed.

Lemma json_files_report csv_path fieldnames rows created_days defender_days cc cands :
  json_files (selector_report csv_path fieldnames rows created_days defender_days cc cands)
  = [].
Proof. destruct defender_days; reflexivity. Qed.

Lemma csv_files_finish e csv_path cands :
  csv_files (fst (selector_finish e csv_path cands)) = [].
Proof.
  unfold selector_finish.
  destruct (forallb id_ok cands), (writable e (ids_json_path csv_path)); reflexivity.
Qed.

(** The candidate CSV is the one CSV file a run of the selector writes. *)
Lemma selector_csv_files e csv_path fieldnames rows created_days defender_days cc cd :
  selector_cutoffs e created_days defender_days = Some (cc, cd) ->
  writable e (cleanup_csv_path csv_path) = true ->
  csv_files (fst (run (run_cleanup_selector e csv_path fieldnames rows
                         created_days defender_days)))
  = [(cleanup_csv_path csv_path, clean_fieldnames fieldnames,
      map (cleaned (clean_fieldnames fieldnames))
        (List.filter (selected cc cd) rows))].
Proof.
  intros Hcut Hw. rewrite (run_cleanup_selector_spec _ _ _ _ _ _ _ _ Hcut Hw).
  cbv zeta. cbn [fst]. rewrite csv_files_app, csv_files_report, csv_files_finish.
  reflexivity.
Qed.

Lemma selector_prints_candidates e csv_path fieldnames rows created_days
    defender_days cc cd :
  selector_cutoffs e created_days defender_days = Some (cc, cd) ->
  writable e (cleanup_csv_path csv_path) = true ->
  In (Printed (SelCandidates (Py.len (List.filter (selected cc cd) rows))))
     (fst (run (run_cleanup_selector e csv_path fieldnames rows
                  created_days defender_days))).
Proof.
  intros Hcut Hw. rewrite (run_cleanup_selector_spec _ _ _ _ _ _ _ _ Hcut Hw).
  cbv zeta. cbn [fst]. apply in_or_app. left.
  unfold selector_report. simpl. tauto.
Qed.

Lemma filter_sublist {A} (f g : A -> bool) (l : list A) :
  (forall x, f x = true -> g x = true) ->
  sublist (List.filter f l) (List.filter g l).
Proof.
  intros Hfg. induction l as [|a l IH]; cbn [List.filter]; [constructor|].
  destruct (f a) eqn:Ef.
  - rewrite (Hfg _ Ef). constructor. exact IH.
  - destruct (g a); [constructor|]; exact IH.
Qed.

End SelectorFacts.

(** C1.  With both day counts given, and where both cutoffs exist and the
    candidate CSV can be written, the selector's candidates are exactly the
    records whose [createdAt] is unreadable or at or before [now -
    ageDays] and whose [observedInDefender] is unreadable, absent or at or
    before [now - inactivityDays], in their order.  They are a subsequence
    of the age-qualifying records, and a record seen strictly after the
    inactivity cutoff is no candidate. *)
Theorem selector_with_inactivity e csv_path fieldnames rows created_days
    defender_days cc cd :
  Py.sub_days (now e) created_days = Some cc ->
  Py.sub_days (now e) defender_days = Some cd ->
  writable e (cleanup_csv_path csv_path) = true ->
  let log := fst (run (selector.run_cleanup_selector e csv_path fieldnames rows
                         created_days (Some defender_days))) in
  let cands := List.filter (selected cc (Some cd)) rows in
  instant cc = clock e - created_days * Py.US_PER_DAY
  /\ instant cd = clock e - defender_days * Py.US_PER_DAY
  /\ csv_files log
     = [(cleanup_csv_path csv_path, clean_fieldnames fieldnames,
         map (selector.cleaned (clean_fieldnames fieldnames)) cands)]
  /\ In (Printed (SelCandidates (Py.len cands))) log
  /\ (forall r, In r cands <->
        In r rows
        /\ (timestamps.parse_timestamp (row_get r "createdAt") = Ret None \/
            exists t, timestamps.parse_timestamp (row_get r "createdAt") = Ret (Some t)
                      /\ instant t <= instant cc)
        /\ (timestamps.parse_timestamp (row_get r "observedInDefender") = Ret None \/
            exists t, timestamps.parse_timestamp (row_get r "observedInDefender")
                      = Ret (Some t)
                      /\ instant t <= instant cd))
  /\ sublist cands (List.filter (qualifies cc "createdAt") rows)
  /\ (forall r t,
        timestamps.parse_timestamp (row_get r "observedInDefender") = Ret (Some t) ->
        instant cd < instant t -> ~ In r cands).
Proof.
  intros Hcc Hcd Hw log cands.
  assert (Hcut : selector_cutoffs e created_days (Some defender_days)
                 = Some (cc, Some cd)).
  { unfold selector_cutoffs. rewrite Hcc, Hcd. reflexivity. }
  assert (Hsel : forall r, selected cc (Some cd) r = true <->
                   qualifies cc "createdAt" r = true
                   /\ qualifies cd "observedInDefender" r = true).
  { intros r. unfold selected. apply andb_true_iff. }
  repeat apply conj.
  - apply (cutoff_instant _ _ _ Hcc).
  - apply (cutoff_instant _ _ _ Hcd).
  - apply (selector_csv_files _ _ _ _ _ _ _ _ Hcut Hw).
  - apply (selector_prints_candidates _ _ _ _ _ _ _ _ Hcut Hw).
  - intros r. unfold cands. rewrite filter_In, Hsel, !qualifies_iff. reflexivity.
  - apply filter_sublist. intros r. apply selected_aged.
  - intros r t Hp Hlt Hin. unfold cands in Hin. apply filter_In in Hin as [_ Hin].
    apply Hsel in Hin as [_ Hin]. apply qualifies_iff in Hin as [Hn|(t' & Ht' & Hle)].
    + congruence.
    + assert (t' = t) by congruence. subst. lia.
Qed.

Lemma selector_with_inactivity_witness :
  csv_files (fst (run (selector.run_cleanup_selector sample.quiet "out/list.csv"
                         ["id"; ""; "createdAt"] sample.records 1 (Some 2))))
  = [(cleanup_csv_path "out/list.csv", ["id"; "createdAt"],
      map (selector.cleaned ["id"; "createdAt"]) [sample.aged; sample.undated])].
Proof.
  pose proof (selector_with_inactivity sample.quiet "out/list.csv"
                ["id"; ""; "createdAt"] sample.records 1 2
                sample.cutoff1 sample.cutoff2 eq_refl eq_refl eq_refl) as H.
  cbv zeta in H. destruct H as (_ & _ & H & _).
  rewrite H. vm_compute. reflexivity.
Defined.

(** C6.  With no inactivity day count, and where the cutoff exists and the
    candidate CSV can be written, the selector's candidates are exactly the
    age-qualifying records, in their order; the file holds each of them
    restricted to the non-empty column names, a column the record lacks
    filled with the empty text. *)
Theorem selector_without_inactivity e csv_path fieldnames rows created_days cc :
  Py.sub_days (now e) created_days = Some cc ->
  writable e (cleanup_csv_path csv_path) = true ->
  let log := fst (run (selector.run_cleanup_selector e csv_path fieldnames rows
                         created_days None)) in
  let aged := List.filter (qualifies cc "createdAt") rows in
  csv_files log
  = [(cleanup_csv_path csv_path, clean_fieldnames fieldnames,
      map (selector.cleaned (clean_fieldnames fieldnames)) aged)]
  /\ In (Printed (SelCandidates (Py.len aged))) log
  /\ (forall r, In r aged <->
        In r rows
        /\ (timestamps.parse_timestamp (row_get r "createdAt") = Ret None \/
            exists t, timestamps.parse_timestamp (row_get r "createdAt") = Ret (Some t)
                      /\ instant t <= instant cc))
  /\ (forall k, In k (clean_fieldnames fieldnames) <->
        In k fieldnames /\ k <> EmptyString)
  /\ (forall r k, In k (clean_fieldnames fieldnames) ->
        selector.cleaned (clean_fieldnames fieldnames) r !! k
        = Some (row_get_or_empty r k))
  /\ (forall r k, ~ In k (clean_fieldnames fieldnames) ->
        selector.cleaned (clean_fieldnames fieldnames) r !! k = None).
Proof.
  intros Hcc Hw log aged.
  assert (Hcut : selector_cutoffs e created_days None = Some (cc, None)).
  { unfold selector_cutoffs. rewrite Hcc. reflexivity. }
  assert (Heq : List.filter (selected cc None) rows = aged).
  { apply filter_ext. intros r. unfold selected. apply andb_true_r. }
  repeat apply conj.
  - unfold log. rewrite (selector_csv_files _ _ _ _ _ _ _ _ Hcut Hw), Heq. reflexivity.
  - rewrite <- Heq. apply (selector_prints_candidates _ _ _ _ _ _ _ _ Hcut Hw).
  - intros r. unfold aged. rewrite filter_In, qualifies_iff. reflexivity.
  - apply clean_fieldnames_spec.
  - intros r k Hk. rewrite cleaned_lookup, decide_True; [reflexivity|].
    apply list_elem_of_In, Hk.
  - intros r k Hk. rewrite cleaned_lookup, decide_False; [reflexivity|].
    intros Hin. apply Hk, list_elem_of_In, Hin.
Qed.

Lemma selector_without_inactivity_witness :
  csv_files (fst (run (selector.run_cleanup_selector sample.quiet "out/list.csv"
                         ["id"; ""; "createdAt"] sample.records 1 None)))
  = [(cleanup_csv_path "out/list.csv", ["id"; "createdAt"],
      map (selector.cleaned ["id"; "createdAt"])
        [sample.aged; sample.at_cutoff; sample.undated])].
Proof.
  pose proof (selector_without_inactivity sample.quiet "out/list.csv"
                ["id"; ""; "createdAt"] sample.records 1
                sample.cutoff1 eq_refl eq_refl) as H.
  cbv zeta in H. destruct H as (H & _).
  rewrite H. vm_compute. reflexivity.
Defined.

Section IdListFacts.

(** [int] skips a narrower white space than [str.strip] removes: a
    separator FS..US beside the digits is an error, a space or NBSP is
    not. *)
Lemma int_margins :
  Py.strip (String "028" "12") = "12"
  /\ Py.int (String "028" "12") = None
  /\ Py.int ("12" +:+ String "031" EmptyString) = None
  /\ Py.int (String "160" " 12 ") = Some 12.
Proof. vm_compute. repeat split. Qed.

Lemma ids_of_In cands n :
  In n (ids_of cands) <->
  exists r s, In r cands /\ row_get r "id" = Some s /\ s <> EmptyString
              /\ Py.int s = Some n.
Proof.
  unfold ids_of. rewrite in_flat_map. split.
  - intros (r & Hr & Hn). exists r.
    destruct (row_get r "id") as [[|c s]|] eqn:E; cbn [Py.truthy] in Hn;
      try contradiction.
    cbn [Py.str] in Hn. destruct (Py.int (String c s)) eqn:Ei; [|contradiction].
    destruct Hn as [<-|[]]. exists (String c s). repeat split; auto; discriminate.
  - intros (r & s0 & Hr & Hs & Hne & Hi). exists r. split; [exact Hr|].
    rewrite Hs. destruct s0 as [|c s0]; [congruence|].
    cbn [Py.truthy Py.str]. rewrite Hi. left. reflexivity.
Qed.

Lemma id_skipped r :
  row_get r "id" = None \/ row_get r "id" = Some EmptyString ->
  id_ok r = true /\ ids_of [r] = [].
Proof.
  unfold id_ok, ids_of. cbn [flat_map]. intros [H|H]; rewrite H; split; reflexivity.
Qed.

End IdListFacts.

(** C7, as the code has it.  Where the cutoffs exist and the candidate CSV
    can be written, that file holds every candidate, whatever its [id].
    Where [int] accepts every non-empty [id] among the candidates and the ID
    file can be written, the run returns and the ID file holds the integer
    [id] of every candidate that has a non-empty one, in order; a record
    whose [id] is missing or empty is left out of it without an exception.
    Where [int] rejects an [id], the run raises [ValueError] after the
    candidate CSV and writes no ID file. *)
Theorem id_list_extraction e csv_path fieldnames rows created_days
    defender_days cc cd :
  selector_cutoffs e created_days defender_days = Some (cc, cd) ->
  writable e (cleanup_csv_path csv_path) = true ->
  let res := run (selector.run_cleanup_selector e csv_path fieldnames rows
                    created_days defender_days) in
  let cands := List.filter (selected cc cd) rows in
  csv_files (fst res)
  = [(cleanup_csv_path csv_path, clean_fieldnames fieldnames,
      map (selector.cleaned (clean_fieldnames fieldnames)) cands)]
  /\ (forallb id_ok cands = true ->
      writable e (ids_json_path csv_path) = true ->
      snd res = Ret (abspath e (cleanup_csv_path csv_path),
                     abspath e (ids_json_path csv_path))
      /\ json_files (fst res) = [(ids_json_path csv_path, ids_of cands)])
  /\ (forall n, In n (ids_of cands) <->
        exists r s, In r cands /\ row_get r "id" = Some s /\ s <> EmptyString
                    /\ Py.int s = Some n)
  /\ (forall r, row_get r "id" = None \/ row_get r "id" = Some EmptyString ->
        id_ok r = true /\ ids_of [r] = [])
  /\ (forallb id_ok cands = false ->
      snd res = Raise ValueError /\ json_files (fst res) = []).
Proof.
  intros Hcut Hw res cands.
  pose proof (run_cleanup_selector_spec e csv_path fieldnames rows created_days
                defender_days cc cd Hcut Hw) as Hrun.
  cbv zeta in Hrun. fold cands in Hrun. fold res in Hrun.
  repeat apply conj.
  - apply (selector_csv_files _ _ _ _ _ _ _ _ Hcut Hw).
  - intros Hok Hwj. rewrite Hrun. cbn [fst snd]. rewrite json_files_app, json_files_report.
    unfold selector_finish. rewrite Hok, Hwj. split; reflexivity.
  - apply ids_of_In.
  - apply id_skipped.
  - intros Hbad. rewrite Hrun. cbn [fst snd]. rewrite json_files_app, json_files_report.
    unfold selector_finish. rewrite Hbad. split; reflexivity.
Qed.

Lemma id_list_extraction_witness :
  json_files (fst (run (selector.run_cleanup_selector sample.quiet "out/list.csv"
                          ["id"; "createdAt"] sample.records 1 (Some 2))))
  = [(ids_json_path "out/list.csv", [12])].
Proof.
  pose proof (id_list_extraction sample.quiet "out/list.csv" ["id"; "createdAt"]
                sample.records 1 (Some 2) sample.cutoff1 (Some sample.cutoff2)
                eq_refl eq_refl) as H.
  cbv zeta in H. destruct H as (_ & H & _).
  destruct H as [_ H]; [vm_compute; reflexivity | vm_compute; reflexivity |].
  rewrite H. vm_compute. reflexivity.
Defined.

(** C7 as stated fails: a candidate whose [id] is not a number, or is white
    space only, makes the run raise [ValueError]; no ID list is exported. *)
Lemma id_list_extraction_raises :
  snd (run (selector.run_cleanup_selector sample.quiet "out/list.csv"
              ["id"; "createdAt"] [sample.aged; sample.misnumbered] 1 None))
  = Raise ValueError
  /\ json_files (fst (run (selector.run_cleanup_selector sample.quiet "out/list.csv"
                             ["id"; "createdAt"] [sample.aged; sample.misnumbered]
                             1 None)))
     = []
  /\ snd (run (selector.run_cleanup_selector sample.quiet "out/list.csv"
                 ["id"; "createdAt"] [sample.blank_id] 1 None))
     = Raise ValueError.
Proof. vm_compute. repeat split. Qed.

(* ===================================================================== *)
(** * Properties of the deletion engine *)
(* ===================================================================== *)

Section BatchFacts.

Import umbrella_delete.

Lemma slice_take_drop {A} (l : list A) (lo n : Z) :
  0 <= lo -> 0 <= n ->
  Py.slice l lo (lo + n) = take (Z.to_nat n) (drop (Z.to_nat lo) l).
Proof.
  intros Hlo Hn. unfold Py.slice, Py.clamp_index, Py.len.
  destruct (Z.ltb_spec lo 0); [lia|]. destruct (Z.ltb_spec (lo + n) 0); [lia|].
  destruct (Z_le_gt_dec lo (Z.of_nat (length l))) as [Hle|Hgt].
  - rewrite (Z.min_l lo) by lia.
    destruct (Z_le_gt_dec (lo + n) (Z.of_nat (length l))).
    + rewrite Z.min_l by lia. f_equal. lia.
    + rewrite Z.min_r by lia.
      rewrite !take_ge; [reflexivity | |]; rewrite length_drop; lia.
  - rewrite !Z.min_r by lia. rewrite Z.sub_diag.
    rewrite (drop_ge l (Z.to_nat lo)) by lia. destruct (Z.to_nat n); reflexivity.
Qed.

Lemma batch_count_spec batch_size L :
  0 < batch_size -> 0 <= L ->
  let n := Z.of_nat (batch_count batch_size L) in
  batch_size * (n - 1) < L <= batch_size * n.
Proof.
  intros Hb HL. unfold batch_count. cbv zeta.
  assert (0 <= (L + batch_size - 1) / batch_size) by (apply Z.div_pos; lia).
  rewrite Z2Nat.id by lia.
  pose proof (Z.div_mod (L + batch_size - 1) batch_size ltac:(lia)).
  pose proof (Z.mod_pos_bound (L + batch_size - 1) batch_size Hb).
  nia.
Qed.

Lemma range_batches batch_size L :
  0 < batch_size ->
  Py.range 0 L batch_size
  = Some (map (fun k => Z.of_nat k * batch_size) (seq 0 (batch_count batch_size L))).
Proof.
  intros Hb. unfold Py.range, batch_count.
  destruct (Z.eqb_spec batch_size 0); [lia|].
  destruct (Z.ltb_spec 0 batch_size); [|lia].
  rewrite Z.sub_0_r. reflexivity.
Qed.

Lemma batches_take_drop batch_size ids :
  0 < batch_size ->
  batches batch_size ids
  = map (fun k => take (Z.to_nat batch_size) (drop (k * Z.to_nat batch_size) ids))
        (seq 0 (batch_count batch_size (Py.len ids))).
Proof.
  intros Hb. unfold batches. rewrite (range_batches _ _ Hb).
  change (default [] (Some ?x)) with x.
  rewrite map_map. apply map_ext. intros k.
  rewrite slice_take_drop by lia. do 2 f_equal. lia.
Qed.

Lemma concat_chunks {A} (l : list A) (b n : nat) :
  concat (map (fun k => take b (drop (k * b) l)) (seq 0 n)) = take (n * b) l.
Proof.
  induction n as [|n IH]; [reflexivity|].
  rewrite seq_S, map_app, concat_app, IH. cbn [map concat plus].
  rewrite app_nil_r, take_take_drop. f_equal. lia.
Qed.

Lemma batches_concat batch_size ids :
  0 < batch_size -> concat (batches batch_size ids) = ids.
Proof.
  intros Hb. rewrite (batches_take_drop _ _ Hb), concat_chunks.
  apply take_ge.
  pose proof (batch_count_spec batch_size (Py.len ids) Hb) as H.
  unfold Py.len in *. cbv zeta in H. specialize (H ltac:(lia)). nia.
Qed.

Lemma batches_length batch_size ids :
  0 < batch_size ->
  length (batches batch_size ids) = batch_count batch_size (Py.len ids).
Proof.
  intros Hb. rewrite (batches_take_drop _ _ Hb), length_map, length_seq. reflexivity.
Qed.

Lemma batches_bounded batch_size ids :
  0 < batch_size ->
  Forall (fun b => Py.len b <= batch_size) (batches batch_size ids).
Proof.
  intros Hb. rewrite (batches_take_drop _ _ Hb). apply Forall_forall.
  intros b Hin. apply list_elem_of_In, in_map_iff in Hin as (k & <- & _).
  unfold Py.len. rewrite length_take. lia.
Qed.

Lemma numbered_cons k0 b bs : numbered k0 (b :: bs) = (k0, b) :: numbered (S k0) bs.
Proof. reflexivity. Qed.

Lemma deleted_count_cons status k0 b bs :
  deleted_count status k0 (b :: bs)
  = (if success (status k0) then Py.len b else 0) + deleted_count status (S k0) bs.
Proof.
  unfold deleted_count, succeeded. rewrite numbered_cons. cbn [List.filter fst].
  destruct (success (status k0)); reflexivity.
Qed.

Lemma failed_ids_cons status k0 b bs :
  failed_ids status k0 (b :: bs)
  = ((if success (status k0) then [] else b) ++ failed_ids status (S k0) bs)%list.
Proof.
  unfold failed_ids, failed. rewrite numbered_cons. cbn [List.filter fst].
  destruct (success (status k0)); reflexivity.
Qed.

(** Each ID of the batches is counted once, as deleted or as failed. *)
Lemma attribution_total status bs : forall k0,
  deleted_count status k0 bs + Py.len (failed_ids status k0 bs)
  = Py.len (concat bs).
Proof.
  induction bs as [|b bs IH]; intros k0; [reflexivity|].
  rewrite deleted_count_cons, failed_ids_cons. cbn [concat].
  specialize (IH (S k0)). unfold Py.len in *. rewrite !length_app.
  destruct (success (status k0)); cbn [length]; lia.
Qed.

Lemma failed_ids_sublist status bs : forall k0,
  sublist (failed_ids status k0 bs) (concat bs).
Proof.
  induction bs as [|b bs IH]; intros k0; [constructor|].
  rewrite failed_ids_cons. cbn [concat].
  destruct (success (status k0)).
  - apply sublist_inserts_l, IH.
  - apply sublist_app; [reflexivity | apply IH].
Qed.

Lemma delete_calls_app l1 l2 :
  delete_calls (l1 ++ l2) = (delete_calls l1 ++ delete_calls l2)%list.
Proof. apply flat_map_app. Qed.

Lemma requests_sent_calls log : requests_sent log = length (delete_calls log).
Proof.
  unfold requests_sent, delete_calls. induction log as [|ev log IH]; [reflexivity|].
  cbn [List.filter flat_map]. destruct ev; cbn [length app]; auto.
Qed.

Lemma delete_body_spec e list_id ids total batch_size d f i log :
  delete_body e list_id ids total batch_size (d, f) i log
  = let chunk := Py.slice ids i (i + batch_size) in
    let ok := success (delete_status e (requests_sent log)) in
    ((log ++ [DeleteRequest list_id chunk;
              if ok then Printed (DelBatch (d + Py.len chunk) total (Py.len chunk))
              else Printed (DelBatchError chunk);
              Sleep])%list,
     Ret (if ok then (d + Py.len chunk, f) else (d, (f ++ chunk)%list))).
Proof.
  unfold delete_body, mbind, M_bind, requests_delete, print, emit. cbv zeta.
  destruct (success (delete_status e (requests_sent log)));
    unfold mret, M_ret; rewrite <- !app_assoc; reflexivity.
Qed.

Lemma loop_event_silent list_id ext :
  Forall (loop_event list_id) ext -> json_files ext = [] /\ csv_files ext = [].
Proof.
  induction 1 as [|ev ext Hev _ [IHj IHc]]; [split; reflexivity|].
  destruct ev as [[]| | | | | |]; try contradiction; cbn; auto.
Qed.

(** The loop of [delete_destinations] over any list of indices. *)
Lemma delete_loop_spec e list_id ids total batch_size idxs : forall d f log,
  exists ext,
    for_each (delete_body e list_id ids total batch_size) (d, f) idxs log
    = ((log ++ ext)%list,
       Ret (d + deleted_count (delete_status e) (requests_sent log)
                  (map (fun i => Py.slice ids i (i + batch_size)) idxs),
            (f ++ failed_ids (delete_status e) (requests_sent log)
                    (map (fun i => Py.slice ids i (i + batch_size)) idxs))%list))
    /\ delete_calls ext = map (fun i => Py.slice ids i (i + batch_size)) idxs
    /\ Forall (loop_event list_id) ext.
Proof.
  induction idxs as [|i idxs IH]; intros d f log.
  - exists []. cbn [for_each map]. unfold mret, M_ret.
    rewrite !app_nil_r, Z.add_0_r. repeat split. constructor.
  - cbn [for_each map]. unfold mbind at 1, M_bind at 1.
    rewrite delete_body_spec. cbv zeta.
    set (chunk := Py.slice ids i (i + batch_size)).
    set (k0 := requests_sent log).
    set (step := [DeleteRequest list_id chunk;
                  if success (delete_status e k0)
                  then Printed (DelBatch (d + Py.len chunk) total (Py.len chunk))
                  else Printed (DelBatchError chunk);
                  Sleep]).
    assert (Hsent : requests_sent (log ++ step) = S k0).
    { unfold k0. rewrite !requests_sent_calls, delete_calls_app, length_app.
      unfold step. destruct (success (delete_status e k0)); cbn; lia. }
    rewrite deleted_count_cons, failed_ids_cons.
    destruct (success (delete_status e k0)) eqn:Eok.
    + destruct (IH (d + Py.len chunk) f (log ++ step)%list) as (ext & -> & Hc & Hev).
      exists (step ++ ext)%list. rewrite Hsent, <- app_assoc, Z.add_assoc.
      repeat split.
      * rewrite delete_calls_app, Hc. reflexivity.
      * apply Forall_app. split; [|exact Hev].
        unfold step. repeat constructor.
    + destruct (IH d (f ++ chunk)%list (log ++ step)%list) as (ext & -> & Hc & Hev).
      exists (step ++ ext)%list. rewrite Hsent, <- !app_assoc, Z.add_0_l.
      repeat split.
      * rewrite delete_calls_app, Hc. reflexivity.
      * apply Forall_app. split; [|exact Hev].
        unfold step. repeat constructor.
Qed.

(** A run of [delete_destinations] with a positive batch size, from any log. *)
Lemma delete_destinations_spec e list_id ids token batch_size log :
  0 < batch_size ->
  exists ext,
    delete_destinations e list_id ids token batch_size log
    = ((log ++ Printed (DelStarting (Py.len ids)) :: ext)%list,
       Ret (deleted_count (delete_status e) (requests_sent log) (batches batch_size ids),
            failed_ids (delete_status e) (requests_sent log) (batches batch_size ids)))
    /\ delete_calls ext = batches batch_size ids
    /\ Forall (loop_event list_id) ext.
Proof.
  intros Hb. unfold delete_destinations, mbind, M_bind, print, emit, lift.
  pose proof (range_batches batch_size (Py.len ids) Hb) as Hr.
  unfold batches. rewrite Hr. cbn [or_raise]. change (default [] (Some ?x)) with x.
  set (idxs := map _ (seq 0 _)).
  destruct (delete_loop_spec e list_id ids (Py.len ids) batch_size idxs 0 []
              (log ++ [Printed (DelStarting (Py.len ids))])%list)
    as (ext & Hrun & Hc & Hev).
  exists ext. rewrite Hrun. split; [|split; assumption].
  assert (Hsent : requests_sent (log ++ [Printed (DelStarting (Py.len ids))])
                  = requests_sent log).
  { rewrite !requests_sent_calls, delete_calls_app, length_app. cbn. lia. }
  rewrite Hsent, <- app_assoc, Z.add_0_l. reflexivity.
Qed.

End BatchFacts.

(** C3.  With the batch size 100 [delete_destinations] issues one delete
    request per batch: their number is [ceil(L / 100)], none for an empty
    list; the payloads are the consecutive slices of the ID list, they
    concatenate back to it, and none is longer than 100.  For 250 IDs there
    are three requests, of 100, 100 and 50 IDs. *)
Theorem delete_batches e list_id ids token :
  let calls := delete_calls (fst (run (umbrella_delete.delete_destinations
                                         e list_id ids token 100))) in
  let n := Py.len calls in
  n = (Py.len ids + 99) / 100
  /\ 100 * (n - 1) < Py.len ids <= 100 * n
  /\ (ids = [] -> calls = [])
  /\ calls = batches 100 ids
  /\ concat calls = ids
  /\ Forall (fun b => Py.len b <= 100) calls
  /\ (Py.len ids = 250 -> map Py.len calls = [100; 100; 50]).
Proof.
  cbv zeta.
  destruct (delete_destinations_spec e list_id ids token 100 [] ltac:(lia))
    as (ext & Hrun & Hc & _).
  unfold run. rewrite Hrun. cbn [fst app delete_calls flat_map]. fold (delete_calls ext).
  rewrite Hc.
  assert (Hn : Py.len (batches 100 ids) = (Py.len ids + 99) / 100).
  { unfold Py.len at 1. rewrite batches_length by lia. unfold batch_count.
    rewrite Z2Nat.id by (apply Z.div_pos; unfold Py.len; lia). f_equal. lia. }
  repeat apply conj.
  - exact Hn.
  - unfold Py.len at 1. rewrite batches_length by lia.
    pose proof (batch_count_spec 100 (Py.len ids) ltac:(lia)) as H.
    cbv zeta in H. unfold Py.len in *. lia.
  - unfold Py.len at 2. rewrite batches_length by lia.
    pose proof (batch_count_spec 100 (Py.len ids) ltac:(lia)) as H.
    cbv zeta in H. unfold Py.len in *. lia.
  - intros ->. reflexivity.
  - reflexivity.
  - apply batches_concat. lia.
  - apply batches_bounded. lia.
  - intros HL. rewrite batches_take_drop by lia. rewrite HL.
    change (batch_count 100 250) with 3%nat. cbn [seq map].
    unfold Py.len in *. rewrite !length_take, !length_drop.
    change (Z.to_nat 100) with 100%nat.
    repeat f_equal; lia.
Qed.

Lemma delete_batches_witness :
  map Py.len (delete_calls (fst (run (umbrella_delete.delete_destinations
                                        sample.quiet 7 (map Z.of_nat (seq 1 250))
                                        None 100))))
  = [100; 100; 50].
Proof.
  pose proof (delete_batches sample.quiet 7 (map Z.of_nat (seq 1 250)) None) as H.
  cbv zeta in H. destruct H as (_ & _ & _ & _ & _ & _ & H).
  apply H. vm_compute. reflexivity.
Defined.

(** C4.  With a positive batch size, whatever the responses: the payloads of
    the requests are the batches, a batch whose response has status 200,
    202 or 204 adds the number of its IDs to the deleted count and none of
    them to the failures, and a batch with any other status adds all its IDs,
    in order, to the failures and nothing to the count.  When there are
    three batches, the second fails and the others succeed, the failures are
    the IDs of the second batch and the count is the size of the first plus
    the size of the third. *)
Theorem batch_outcome_attribution e list_id ids token batch_size :
  0 < batch_size ->
  let res := run (umbrella_delete.delete_destinations e list_id ids token batch_size) in
  let bs := batches batch_size ids in
  let status := delete_status e in
  delete_calls (fst res) = bs
  /\ snd res = Ret (deleted_count status 0 bs, failed_ids status 0 bs)
  /\ (forall s, umbrella_delete.success s = true <-> s = 200 \/ s = 202 \/ s = 204)
  /\ (forall k b rest,
        deleted_count status k (b :: rest)
        = (if umbrella_delete.success (status k) then Py.len b else 0)
          + deleted_count status (S k) rest
        /\ failed_ids status k (b :: rest)
           = ((if umbrella_delete.success (status k) then [] else b)
              ++ failed_ids status (S k) rest)%list)
  /\ deleted_count status (length bs) [] = 0
  /\ failed_ids status (length bs) [] = []
  /\ (forall b1 b2 b3,
        bs = [b1; b2; b3] ->
        umbrella_delete.success (status 0%nat) = true ->
        umbrella_delete.success (status 1%nat) = false ->
        umbrella_delete.success (status 2%nat) = true ->
        snd res = Ret (Py.len b1 + Py.len b3, b2)).
Proof.
  intros Hb. cbv zeta.
  destruct (delete_destinations_spec e list_id ids token batch_size [] Hb)
    as (ext & Hrun & Hc & _).
  unfold run. rewrite Hrun. cbn [fst snd app delete_calls flat_map].
  fold (delete_calls ext). change (umbrella_delete.requests_sent []) with 0%nat.
  repeat apply conj.
  - exact Hc.
  - reflexivity.
  - intros s. unfold umbrella_delete.success. rewrite !orb_true_iff, !Z.eqb_eq. tauto.
  - intros k b rest. split; [apply deleted_count_cons | apply failed_ids_cons].
  - reflexivity.
  - reflexivity.
  - intros b1 b2 b3 -> H0 H1 H2.
    rewrite !deleted_count_cons, !failed_ids_cons, H0, H1, H2.
    cbn. rewrite app_nil_r. do 2 f_equal. lia.
Qed.

Lemma batch_outcome_attribution_witness :
  snd (run (umbrella_delete.delete_destinations
              (sample.world (fun _ => true) "y"
                 (fun k => if (k =? 1)%nat then 500 else 204))
              7 (map Z.of_nat (seq 1 250)) None 100))
  = Ret (150, map Z.of_nat (seq 101 100)).
Proof.
  pose proof (batch_outcome_attribution
                (sample.world (fun _ => true) "y"
                   (fun k => if (k =? 1)%nat then 500 else 204))
                7 (map Z.of_nat (seq 1 250)) None 100 eq_refl) as H.
  cbv zeta in H. destruct H as (_ & _ & _ & _ & _ & _ & H).
  rewrite (H (map Z.of_nat (seq 1 100)) (map Z.of_nat (seq 101 100))
             (map Z.of_nat (seq 201 50)));
    vm_compute; reflexivity.
Defined.

(** C10.  With a positive batch size, whatever the responses,
    [delete_destinations] returns a count and a list of failures such that
    the count plus the number of failures is the number of IDs given, and
    the failures are a subsequence of the IDs given, in their order. *)
Theorem attribution_invariant e list_id ids token batch_size :
  0 < batch_size ->
  exists deleted failures,
    snd (run (umbrella_delete.delete_destinations e list_id ids token batch_size))
    = Ret (deleted, failures)
    /\ 0 <= deleted
    /\ deleted + Py.len failures = Py.len ids
    /\ sublist failures ids.
Proof.
  intros Hb.
  destruct (delete_destinations_spec e list_id ids token batch_size [] Hb)
    as (ext & Hrun & _ & _).
  unfold run. rewrite Hrun. cbn [snd].
  change (umbrella_delete.requests_sent []) with 0%nat.
  set (bs := batches batch_size ids).
  exists (deleted_count (delete_status e) 0 bs), (failed_ids (delete_status e) 0 bs).
  pose proof (attribution_total (delete_status e) bs 0) as Htot.
  pose proof (failed_ids_sublist (delete_status e) bs 0) as Hsub.
  unfold bs in Htot, Hsub. rewrite (batches_concat _ _ Hb) in Htot, Hsub.
  split; [reflexivity|]. split; [|split; assumption].
  apply sublist_length in Hsub. subst bs. unfold Py.len in *. lia.
Qed.

Lemma attribution_invariant_witness :
  exists deleted failures,
    snd (run (umbrella_delete.delete_destinations
                (sample.world (fun _ => true) "y"
                   (fun k => if (k =? 1)%nat then 500 else 204))
                7 [1; 2; 3; 4; 5] None 2))
    = Ret (deleted, failures)
    /\ 0 <= deleted
    /\ deleted + Py.len failures = Py.len [1; 2; 3; 4; 5]
    /\ sublist failures [1; 2; 3; 4; 5].
Proof.
  apply (attribution_invariant
           (sample.world (fun _ => true) "y"
              (fun k => if (k =? 1)%nat then 500 else 204))
           7 [1; 2; 3; 4; 5] None 2).
  reflexivity.
Defined.

(** C5.  A dry run issues no delete request, asks for no confirmation,
    writes no file and never returns a count; with the credentials set it
    asks for a token; and where the ID list can be read and the token is
    granted it prints the whole ID list as it was read and returns the
    dry-run marker. *)
Theorem dry_run_semantics e list_id id_json_path list_name :
  let res := run (umbrella_delete.run_umbrella_delete e list_id id_json_path
                    list_name true) in
  delete_calls (fst res) = []
  /\ json_files (fst res) = []
  /\ (forall prompt, ~ In (Input prompt) (fst res))
  /\ (forall n, snd res <> Ret (umbrella_delete.Deleted n))
  /\ (forall ids, id_files e id_json_path = Some ids -> credentials e = true ->
        In TokenRequest (fst res))
  /\ (forall ids, id_files e id_json_path = Some ids -> credentials e = true ->
        oauth_status e = 200 ->
        res = ((delete_header list_id list_name true ids
                ++ [TokenRequest; Printed DryRunHeader; Printed (DryRunIds ids);
                    Printed DryRunComplete])%list,
               Ret umbrella_delete.DRY_RUN)).
Proof.
  cbv zeta.
  unfold run, umbrella_delete.run_umbrella_delete, umbrella_delete.get_umbrella_token,
    delete_header, mbind, M_bind, mret, M_ret, print, emit, raise, lift.
  destruct (id_files e id_json_path) as [ids|];
    destruct (Py.truthy list_name);
    destruct (credentials e);
    destruct (Z.eqb_spec (oauth_status e) 200);
    cbn; (repeat apply conj);
    try reflexivity;
    try (intros; discriminate);
    try (intros; congruence);
    try (intros prompt Hin; intuition discriminate);
    try (intros ids' [= <-] _; tauto).
Qed.

Lemma dry_run_semantics_witness :
  run (umbrella_delete.run_umbrella_delete sample.quiet 7 "out/few.json"
         (Some "Blocked") true)
  = ([Printed (DelLoaded 3); Printed (DelListId 7); Printed (DelListName "Blocked");
      Printed (DelMode true); TokenRequest; Printed DryRunHeader;
      Printed (DryRunIds [11; 12; 13]); Printed DryRunComplete],
     Ret umbrella_delete.DRY_RUN).
Proof.
  pose proof (dry_run_semantics sample.quiet 7 "out/few.json" (Some "Blocked")) as H.
  cbv zeta in H. destruct H as (_ & _ & _ & _ & _ & H).
  rewrite (H [11; 12; 13] eq_refl eq_refl eq_refl). reflexivity.
Defined.

Section LiveRunFacts.

Import umbrella_delete.

Lemma run_live_spec e list_id id_json_path list_name ids :
  id_files e id_json_path = Some ids ->
  says_yes (stdin e) = true ->
  credentials e = true ->
  oauth_status e = 200 ->
  let deleted := deleted_count (delete_status e) 0 (batches 100 ids) in
  let failures := failed_ids (delete_status e) 0 (batches 100 ids) in
  exists ext,
    run (run_umbrella_delete e list_id id_json_path list_name false)
    = ((delete_header list_id list_name false ids
        ++ [Input "Are you ABSOLUTELY SURE you want to delete these destinations? (y/n): ";
            TokenRequest; Printed (DelStarting (Py.len ids))]
        ++ ext
        ++ [Printed SummaryHeader; Printed (SummaryDeleted deleted);
            Printed (SummaryFailed (Py.len failures))]
        ++ fst (live_finish e id_json_path deleted failures))%list,
       snd (live_finish e id_json_path deleted failures))
    /\ delete_calls ext = batches 100 ids
    /\ Forall (loop_event list_id) ext.
Proof.
  intros Hids Hyes Hcred Hauth. cbv zeta.
  unfold says_yes in Hyes. cbv zeta in Hyes.
  unfold run, run_umbrella_delete, get_umbrella_token.
  rewrite Hids.
  unfold mbind, M_bind, mret, M_ret, print, emit, raise, lift.
  cbn [negb app]. rewrite Hyes, Hcred, Hauth. cbn [negb Z.eqb Pos.eqb].
  set (log0 := (delete_header list_id list_name false ids
                ++ [Input "Are you ABSOLUTELY SURE you want to delete these destinations? (y/n): ";
                    TokenRequest])%list).
  destruct (delete_destinations_spec e list_id ids (oauth_token e) 100 log0
              ltac:(lia)) as (ext & Hrun & Hc & Hev).
  assert (Hsent : requests_sent log0 = 0%nat).
  { unfold log0, delete_header. destruct (Py.truthy list_name); reflexivity. }
  rewrite Hsent in Hrun.
  exists ext. split; [|split; assumption].
  unfold delete_header in log0 |- *.
  destruct (Py.truthy list_name); cbn [app] in *; unfold log0 in Hrun;
    cbn [app] in Hrun; rewrite Hrun;
    unfold live_finish, write_json, emit;
    destruct (failed_ids (delete_status e) 0 (batches 100 ids)) eqn:Ef;
    cbn [fst snd];
    try destruct (writable e (fail_path_of id_json_path)) eqn:Ew;
    unfold fail_path_of in *; try rewrite Ew;
    rewrite <- ?app_assoc; cbn [app]; rewrite ?app_nil_r; reflexivity.
Qed.

Lemma delete_header_silent list_id list_name dry_run ids :
  json_files (delete_header list_id list_name dry_run ids) = []
  /\ delete_calls (delete_header list_id list_name dry_run ids) = [].
Proof. unfold delete_header. destruct (Py.truthy list_name); split; reflexivity. Qed.

Lemma live_finish_calls e id_json_path deleted failures :
  delete_calls (fst (live_finish e id_json_path deleted failures)) = [].
Proof.
  unfold live_finish. destruct failures; [reflexivity|].
  destruct (writable e (fail_path_of id_json_path)); reflexivity.
Qed.

End LiveRunFacts.




(* ===================================================================== *)
(** * Further properties of the deletion engine *)
(* ===================================================================== *)

Section EngineFacts.

Import umbrella_delete.

Lemma wire_app l1 l2 : wire (l1 ++ l2) = (wire l1 ++ wire l2)%list.
Proof. apply List.filter_app. Qed.

(** The loop sends a request and then pauses, batch after batch. *)
Lemma delete_loop_wire e list_id ids total batch_size idxs : forall acc log,
  exists ext r,
    for_each (delete_body e list_id ids total batch_size) acc idxs log
    = ((log ++ ext)%list, Ret r)
    /\ wire ext
       = flat_map (fun i => [DeleteRequest list_id (Py.slice ids i (i + batch_size));
                             Sleep]) idxs.
Proof.
  induction idxs as [|i idxs IH]; intros [d f] log.
  - exists [], (d, f). cbn [for_each flat_map]. unfold mret, M_ret.
    rewrite app_nil_r. split; reflexivity.
  - cbn [for_each flat_map]. unfold mbind at 1, M_bind at 1.
    rewrite delete_body_spec. cbv zeta.
    destruct (success (delete_status e (requests_sent log)));
      match goal with
      | |- context [for_each _ ?acc' idxs (log ++ ?step)%list] =>
          destruct (IH acc' (log ++ step)%list) as (ext & r & -> & Hw);
          exists (step ++ ext)%list, r
      end;
      (rewrite <- app_assoc; split; [reflexivity|]);
      rewrite wire_app, Hw; reflexivity.
Qed.

End EngineFacts.

(** X1.  With a positive batch size every delete request is followed by a
    pause before the next request is sent: the requests and pauses of a run
    alternate, one pair for each batch, in the order of the batches. *)
Theorem delete_pauses e list_id ids token batch_size :
  0 < batch_size ->
  wire (fst (run (umbrella_delete.delete_destinations e list_id ids token batch_size)))
  = flat_map (fun b => [DeleteRequest list_id b; Sleep]) (batches batch_size ids).
Proof.
  intros Hb. unfold run, umbrella_delete.delete_destinations, mbind, M_bind, print,
    emit, lift, batches.
  rewrite (range_batches _ _ Hb). cbn [or_raise app]. change (default [] (Some ?x)) with x.
  set (idxs := map _ (seq 0 _)).
  destruct (delete_loop_wire e list_id ids (Py.len ids) batch_size idxs (0, [])
              [Printed (DelStarting (Py.len ids))]) as (ext & r & -> & Hw).
  cbn [fst]. rewrite wire_app, Hw. cbn [wire List.filter app].
  clear. induction idxs as [|i idxs IH]; [reflexivity|].
  cbn [flat_map map app]. rewrite IH. reflexivity.
Qed.

Lemma delete_pauses_witness :
  wire (fst (run (umbrella_delete.delete_destinations sample.quiet 7 [1; 2; 3; 4; 5]
                    None 2)))
  = [DeleteRequest 7 [1; 2]; Sleep; DeleteRequest 7 [3; 4]; Sleep;
     DeleteRequest 7 [5]; Sleep].
Proof.
  rewrite (delete_pauses sample.quiet 7 [1; 2; 3; 4; 5] None 2 eq_refl).
  reflexivity.
Defined.

(** X2.  With a positive batch size no request carries an empty payload. *)
Theorem delete_payloads_nonempty e list_id ids token batch_size :
  0 < batch_size ->
  Forall (fun payload => payload <> [])
    (delete_calls (fst (run (umbrella_delete.delete_destinations
                               e list_id ids token batch_size)))).
Proof.
  intros Hb.
  destruct (delete_destinations_spec e list_id ids token batch_size [] Hb)
    as (ext & Hrun & Hc & _).
  unfold run. rewrite Hrun. cbn [fst app delete_calls flat_map]. fold (delete_calls ext).
  rewrite Hc, (batches_take_drop _ _ Hb). apply Forall_forall. intros b Hin.
  apply list_elem_of_In, in_map_iff in Hin as (k & <- & Hk).
  apply in_seq in Hk.
  pose proof (batch_count_spec batch_size (Py.len ids) Hb) as Hn.
  unfold Py.len in *. cbv zeta in Hn. specialize (Hn ltac:(lia)).
  intros Hnil. apply (f_equal (@length Z)) in Hnil.
  rewrite length_take, length_drop in Hnil. cbn [length] in Hnil. nia.
Qed.

Lemma delete_payloads_nonempty_witness :
  Forall (fun payload => payload <> [])
    (delete_calls (fst (run (umbrella_delete.delete_destinations
                               sample.quiet 7 [1; 2; 3; 4; 5] None 2)))).
Proof. apply (delete_payloads_nonempty sample.quiet 7 [1; 2; 3; 4; 5] None 2). reflexivity. Defined.

(** X3.  A batch size of zero makes [delete_destinations] raise
    [ValueError] before any request; a negative batch size makes it return
    a count of zero and no failures without sending anything, whatever the
    IDs. *)
Theorem delete_degenerate_batch_size e list_id ids token batch_size :
  batch_size <= 0 ->
  let res := run (umbrella_delete.delete_destinations e list_id ids token batch_size) in
  delete_calls (fst res) = []
  /\ (batch_size = 0 -> snd res = Raise ValueError)
  /\ (batch_size < 0 -> snd res = Ret (0, [])).
Proof.
  intros Hb. cbv zeta.
  unfold run, umbrella_delete.delete_destinations, mbind, M_bind, print, emit, lift,
    Py.range.
  destruct (Z.eqb_spec batch_size 0) as [->|Hne].
  - cbn. repeat split; intros; try reflexivity; lia.
  - destruct (Z.ltb_spec 0 batch_size); [lia|].
    assert (Hn : Z.to_nat ((0 - Py.len ids - batch_size - 1) / - batch_size) = 0%nat).
    { unfold Py.len. Z.div_mod_to_equations. nia. }
    rewrite Hn. cbn. repeat split; intros; try reflexivity; lia.
Qed.

Lemma delete_degenerate_batch_size_witness :
  snd (run (umbrella_delete.delete_destinations sample.quiet 7 [1; 2; 3] None (-5)))
  = Ret (0, []).
Proof.
  pose proof (delete_degenerate_batch_size sample.quiet 7 [1; 2; 3] None (-5)
                ltac:(lia)) as H.
  cbv zeta in H. destruct H as (_ & _ & H). apply H. lia.
Defined.


Section LiveRunMore.

Import umbrella_delete.

Lemma all_succeed status bs : forall k0,
  (forall k, success (status k) = true) ->
  failed_ids status k0 bs = [] /\ deleted_count status k0 bs = Py.len (concat bs).
Proof.
  intros k0 Hall.
  assert (Hf : forall k, failed_ids status k bs = []).
  { induction bs as [|b bs IH]; intros k; [reflexivity|].
    rewrite failed_ids_cons, Hall, IH. reflexivity. }
  split; [apply Hf|].
  pose proof (attribution_total status bs k0) as H. rewrite Hf in H.
  unfold Py.len in *. cbn [length] in H. lia.
Qed.

Lemma all_fail status bs : forall k0,
  (forall k, success (status k) = false) ->
  failed_ids status k0 bs = concat bs /\ deleted_count status k0 bs = 0.
Proof.
  intros k0 Hall.
  assert (Hf : forall k, failed_ids status k bs = concat bs).
  { induction bs as [|b bs IH]; intros k; [reflexivity|].
    rewrite failed_ids_cons, Hall, IH. reflexivity. }
  split; [apply Hf|].
  pose proof (attribution_total status bs k0) as H. rewrite Hf in H. lia.
Qed.

End LiveRunMore.

(** X4.  A run of [run_umbrella_delete] sends a delete request only in live
    mode, with a non-empty ID list read from the file, the prompt answered
    "y" or "yes" (any case, white space around it ignored), the credentials
    set and the token granted. *)
Theorem deletes_only_when_confirmed e list_id id_json_path list_name dry_run :
  delete_calls (fst (run (umbrella_delete.run_umbrella_delete e list_id id_json_path
                            list_name dry_run))) <> [] ->
  dry_run = false
  /\ (exists ids, id_files e id_json_path = Some ids /\ ids <> [])
  /\ says_yes (stdin e) = true
  /\ credentials e = true
  /\ oauth_status e = 200.
Proof.
  destruct dry_run.
  - intros H. exfalso. apply H. clear H.
    unfold run, umbrella_delete.run_umbrella_delete, umbrella_delete.get_umbrella_token,
      mbind, M_bind, mret, M_ret, print, emit, raise, lift.
    destruct (id_files e id_json_path) as [ids|];
      destruct (Py.truthy list_name);
      destruct (credentials e);
      destruct (Z.eqb_spec (oauth_status e) 200); reflexivity.
  - destruct (id_files e id_json_path) as [ids|] eqn:Hids.
    2:{ intros H. exfalso. apply H.
        unfold run, umbrella_delete.run_umbrella_delete. rewrite Hids. reflexivity. }
    destruct (says_yes (stdin e)) eqn:Hyes.
    2:{ intros H. exfalso. apply H. clear H. unfold says_yes in Hyes. cbv zeta in Hyes.
        unfold run, umbrella_delete.run_umbrella_delete,
          mbind, M_bind, mret, M_ret, print, emit, raise, lift.
        rewrite Hids. cbn [negb]. destruct (Py.truthy list_name); cbn [app];
          rewrite Hyes; reflexivity. }
    destruct (credentials e) eqn:Hcred.
    2:{ intros H. exfalso. apply H. clear H. unfold says_yes in Hyes. cbv zeta in Hyes.
        unfold run, umbrella_delete.run_umbrella_delete, umbrella_delete.get_umbrella_token,
          mbind, M_bind, mret, M_ret, print, emit, raise, lift.
        rewrite Hids. cbn [negb]. destruct (Py.truthy list_name); cbn [app];
          rewrite Hyes, Hcred; reflexivity. }
    destruct (Z.eqb_spec (oauth_status e) 200) as [Hauth|Hauth].
    2:{ intros H. exfalso. apply H. clear H. unfold says_yes in Hyes. cbv zeta in Hyes.
        unfold run, umbrella_delete.run_umbrella_delete, umbrella_delete.get_umbrella_token,
          mbind, M_bind, mret, M_ret, print, emit, raise, lift.
        apply Z.eqb_neq in Hauth.
        rewrite Hids. cbn [negb]. destruct (Py.truthy list_name); cbn [app];
          rewrite Hyes, Hcred; cbn [negb]; rewrite Hauth; reflexivity. }
    intros H. repeat split; try assumption.
    exists ids. split; [reflexivity|]. intros ->. apply H. clear H.
    destruct (run_live_spec e list_id id_json_path list_name [] Hids Hyes Hcred Hauth)
      as (ext & Hrun & Hc & _).
    cbv zeta in Hrun. rewrite Hrun. cbn [fst].
    destruct (delete_header_silent list_id list_name false []) as [_ Hh].
    rewrite !delete_calls_app, Hh, Hc, live_finish_calls. reflexivity.
Qed.

Lemma deletes_only_when_confirmed_witness :
  says_yes (stdin sample.quiet) = true /\ credentials sample.quiet = true.
Proof.
  destruct (deletes_only_when_confirmed sample.quiet 7 "out/few.json" None false)
    as (_ & _ & H1 & H2 & _).
  - vm_compute. discriminate.
  - split; assumption.
Defined.

(** X5.  Where the ID list is read and the run gets as far as
    authentication, missing credentials or a token response other than 200
    end the run with [SystemExit]: no delete request is sent, no file is
    written, the dry run does not print the ID list; the token is asked for
    once if the credentials are set and not at all if they are missing. *)
Theorem auth_failure_is_fatal e list_id id_json_path list_name dry_run ids :
  id_files e id_json_path = Some ids ->
  dry_run = true \/ says_yes (stdin e) = true ->
  credentials e = false \/ oauth_status e <> 200 ->
  let res := run (umbrella_delete.run_umbrella_delete e list_id id_json_path
                    list_name dry_run) in
  (exists msg, snd res = Raise (SystemExit msg))
  /\ delete_calls (fst res) = []
  /\ json_files (fst res) = []
  /\ ~ In (Printed (DryRunIds ids)) (fst res)
  /\ token_requests (fst res) = (if credentials e then 1%nat else 0%nat).
Proof.
  intros Hids Hgo Hbad. cbv zeta.
  assert (Hyes : dry_run = false ->
                 (Py.lower (Py.strip (stdin e)) =? "y")%string
                 || (Py.lower (Py.strip (stdin e)) =? "yes")%string = true).
  { intros ->. destruct Hgo as [|H]; [discriminate | exact H]. }
  unfold run, umbrella_delete.run_umbrella_delete, umbrella_delete.get_umbrella_token,
    mbind, M_bind, mret, M_ret, print, emit, raise, lift.
  rewrite Hids.
  destruct dry_run; [|rewrite (Hyes eq_refl)];
    destruct (Py.truthy list_name);
    destruct (credentials e);
    destruct (Z.eqb_spec (oauth_status e) 200);
    try (exfalso; destruct Hbad; congruence);
    cbn; (repeat apply conj); eauto;
    intros Hin; intuition discriminate.
Qed.

Lemma auth_failure_is_fatal_witness :
  exists msg,
    snd (run (umbrella_delete.run_umbrella_delete
                (mk_env sample.clock0 (fun p => p) (fun _ => true)
                   (fun _ => Some [1; 2]) "yes" true 401 None (fun _ => 204))
                7 "ids.json" None false))
    = Raise (SystemExit msg).
Proof.
  apply (auth_failure_is_fatal
           (mk_env sample.clock0 (fun p => p) (fun _ => true)
              (fun _ => Some [1; 2]) "yes" true 401 None (fun _ => 204))
           7 "ids.json" None false [1; 2] eq_refl).
  - right. reflexivity.
  - right. cbn. lia.
Defined.

(** X6.  A live run whose prompt is not answered "y" or "yes" prints that the
    deletion is cancelled and returns [None]; it asks once and requests no
    token. *)
Theorem live_run_declined e list_id id_json_path list_name ids :
  id_files e id_json_path = Some ids ->
  says_yes (stdin e) = false ->
  run (umbrella_delete.run_umbrella_delete e list_id id_json_path list_name false)
  = ((delete_header list_id list_name false ids
      ++ [Input "Are you ABSOLUTELY SURE you want to delete these destinations? (y/n): ";
          Printed DelCancelled])%list,
     Ret umbrella_delete.Cancelled).
Proof.
  intros Hids Hno. unfold says_yes in Hno. cbv zeta in Hno.
  unfold run, umbrella_delete.run_umbrella_delete, delete_header,
    mbind, M_bind, mret, M_ret, print, emit, raise, lift.
  rewrite Hids. cbn [negb]. destruct (Py.truthy list_name); cbn [app];
    rewrite Hno; reflexivity.
Qed.

Lemma live_run_declined_witness :
  snd (run (umbrella_delete.run_umbrella_delete
              (sample.world (fun _ => true) "yep" (fun _ => 204))
              7 "out/few.json" None false))
  = Ret umbrella_delete.Cancelled.
Proof.
  rewrite (live_run_declined (sample.world (fun _ => true) "yep" (fun _ => 204))
             7 "out/few.json" None [11; 12; 13] eq_refl eq_refl).
  reflexivity.
Defined.

(** X7.  In a confirmed and authenticated live run: if every response
    reports success the run returns the number of IDs in the file and
    writes no file; if every response reports failure and the list is not
    empty, it returns zero and the failed-IDs file holds the whole ID list,
    in order. *)
Theorem live_run_uniform e list_id id_json_path list_name ids :
  id_files e id_json_path = Some ids ->
  says_yes (stdin e) = true ->
  credentials e = true ->
  oauth_status e = 200 ->
  let res := run (umbrella_delete.run_umbrella_delete e list_id id_json_path
                    list_name false) in
  ((forall k, umbrella_delete.success (delete_status e k) = true) ->
     snd res = Ret (umbrella_delete.Deleted (Py.len ids))
     /\ json_files (fst res) = [])
  /\ ((forall k, umbrella_delete.success (delete_status e k) = false) ->
      ids <> [] -> writable e (fail_path_of id_json_path) = true ->
      snd res = Ret (umbrella_delete.Deleted 0)
      /\ json_files (fst res) = [(fail_path_of id_json_path, ids)]).
Proof.
  intros Hids Hyes Hcred Hauth. cbv zeta.
  destruct (run_live_spec e list_id id_json_path list_name ids Hids Hyes Hcred Hauth)
    as (ext & Hrun & Hc & Hev).
  cbv zeta in Hrun. rewrite Hrun. cbn [fst snd].
  destruct (loop_event_silent _ _ Hev) as [Hj _].
  destruct (delete_header_silent list_id list_name false ids) as [Hhj _].
  pose proof (batches_concat 100 ids ltac:(lia)) as Hcat.
  split.
  - intros Hall. destruct (all_succeed (delete_status e) (batches 100 ids) 0 Hall)
      as [Hf Hd].
    rewrite Hf, Hd, Hcat. rewrite !json_files_app, Hhj, Hj. split; reflexivity.
  - intros Hall Hne Hw. destruct (all_fail (delete_status e) (batches 100 ids) 0 Hall)
      as [Hf Hd].
    rewrite Hf, Hd, Hcat. rewrite !json_files_app, Hhj, Hj.
    unfold live_finish. destruct ids; [congruence|]. rewrite Hw. split; reflexivity.
Qed.

Lemma live_run_uniform_witness :
  snd (run (umbrella_delete.run_umbrella_delete sample.quiet 7 "out/few.json" None false))
  = Ret (umbrella_delete.Deleted 3).
Proof.
  pose proof (live_run_uniform sample.quiet 7 "out/few.json" None [11; 12; 13]
                eq_refl eq_refl eq_refl eq_refl) as H.
  cbv zeta in H. destruct H as [H _]. apply H. intros k. reflexivity.
Defined.

Section PathFacts.

Lemma str_take_drop n s : Py.str_take n s +:+ Py.str_drop n s = s.
Proof.
  revert s. induction n as [|n IH]; intros [|c s]; try reflexivity.
  cbn [Py.str_take Py.str_drop]. change (String c (Py.str_take n s) +:+ Py.str_drop n s)
    with (String c (Py.str_take n s +:+ Py.str_drop n s)).
  rewrite IH. reflexivity.
Qed.

(** Where [rfind] finds the character, the text from there on starts with it. *)
Lemma rfind_from_spec c s : forall i,
  let r := Py.rfind_from c i s in
  r = -1 \/ (i <= r /\ exists t, Py.str_drop (Z.to_nat (r - i)) s = String c t).
Proof.
  induction s as [|c' s IH]; intros i; cbv zeta; cbn [Py.rfind_from]; [auto|].
  specialize (IH (i + 1)). cbv zeta in IH.
  destruct (Z.leb_spec 0 (Py.rfind_from c (i + 1) s)) as [Hr|Hr].
  - destruct IH as [IH|(Hle & t & Ht)]; [lia|]. right. split; [lia|].
    exists t. replace (Z.to_nat (Py.rfind_from c (i + 1) s - i))
      with (S (Z.to_nat (Py.rfind_from c (i + 1) s - (i + 1)))) by lia.
    exact Ht.
  - destruct (Ascii.eqb_spec c c') as [<-|]; [|auto].
    right. split; [lia|]. exists s. rewrite Z.sub_diag. reflexivity.
Qed.

(** [splitext] cuts its path in two, and the second part is empty or starts
    with a dot. *)
Lemma splitext_spec p :
  fst (Py.splitext p) +:+ snd (Py.splitext p) = p
  /\ (snd (Py.splitext p) = EmptyString
      \/ exists t, snd (Py.splitext p) = String "." t).
Proof.
  unfold Py.splitext.
  destruct (_ && _) eqn:E; cbn [fst snd].
  - split; [apply str_take_drop|]. right.
    apply andb_true_iff in E as [E _]. apply Z.ltb_lt in E.
    pose proof (rfind_from_spec "." p 0) as H. cbv zeta in H. fold (Py.rfind "." p) in H.
    pose proof (rfind_from_spec "/" p 0) as H'. cbv zeta in H'. fold (Py.rfind "/" p) in H'.
    destruct H as [H|(_ & t & Ht)].
    + destruct H' as [H'|[H' _]]; lia.
    + exists t. rewrite Z.sub_0_r in Ht. exact Ht.
  - split; [|auto]. clear. induction p as [|c p IH]; [reflexivity|].
    change (String c p +:+ "") with (String c (p +:+ "")). rewrite IH. reflexivity.
Qed.

Lemma append_inj_l a b c : a +:+ b = a +:+ c -> b = c.
Proof.
  induction a as [|x a IH]; [auto|].
  change (String x a +:+ b) with (String x (a +:+ b)).
  change (String x a +:+ c) with (String x (a +:+ c)).
  intros [= H]. auto.
Qed.

(** A name made of the stem and a suffix that starts with an underscore is
    not the path itself. *)
Lemma stem_suffix_fresh p suffix :
  fst (Py.splitext p) +:+ String "_" suffix <> p.
Proof.
  destruct (splitext_spec p) as [Hp Hext]. intros H.
  rewrite <- Hp in H at 2. apply append_inj_l in H.
  destruct Hext as [He|[t He]]; rewrite He in H; discriminate.
Qed.

End PathFacts.

(** X8.  No stage writes over the file it reads: the output of the age
    filter, the candidate CSV and the ID list of the selector, and the
    failed-IDs file, differ from the path they are derived from, and the
    two files of the selector differ from each other. *)
Theorem outputs_spare_inputs p created_days :
  age_output_path p created_days <> p
  /\ cleanup_csv_path p <> p
  /\ ids_json_path p <> p
  /\ cleanup_csv_path p <> ids_json_path p
  /\ fail_path_of p <> p.
Proof.
  repeat apply conj; try apply stem_suffix_fresh.
  unfold cleanup_csv_path, ids_json_path. intros H. apply append_inj_l in H.
  discriminate.
Qed.

Section StageFacts.

Lemma qualifies_mono c c' field r :
  instant c <= instant c' ->
  qualifies c field r = true -> qualifies c' field r = true.
Proof.
  unfold qualifies. destruct (reading (row_get r field)); [|auto].
  rewrite !Z.leb_le. lia.
Qed.

(** The one CSV file a run of the age filter writes. *)
Lemma filter_csv_files e csv_path fieldnames rows D cutoff :
  Py.sub_days (now e) D = Some cutoff ->
  writable e (age_output_path csv_path D) = true ->
  csv_files (fst (run (main.filter_by_created_age e csv_path fieldnames rows D)))
  = [(age_output_path csv_path D, fieldnames,
      List.filter (qualifies cutoff "createdAt") rows)].
Proof.
  intros Hcut Hw. destruct (cutoff_instant _ _ _ Hcut) as [Htz _].
  unfold run, main.filter_by_created_age, mbind, M_bind, lift, print, emit.
  rewrite Hcut. cbn [or_raise].
  rewrite (filter_loop_spec cutoff rows [] 0 _ Htz). cbn [app].
  unfold write_csv. fold (age_output_path csv_path D). rewrite Hw.
  reflexivity.
Qed.

Lemma filter_filter_absorb {A} (f g : A -> bool) (l : list A) :
  (forall x, f x = true -> g x = true) ->
  List.filter g (List.filter f l) = List.filter f l.
Proof.
  intros H. induction l as [|a l IH]; [reflexivity|].
  cbn [List.filter]. destruct (f a) eqn:E; [|exact IH].
  cbn [List.filter]. rewrite (H _ E), IH. reflexivity.
Qed.

Lemma lstrip_shape s :
  Py.lstrip s = EmptyString
  \/ exists c t, Py.lstrip s = String c t /\ Py.isspace c = false.
Proof.
  induction s as [|c s IH]; [auto|]. cbn [Py.lstrip].
  destruct (Py.isspace c) eqn:E; [exact IH|]. right. eauto.
Qed.

Lemma lstrip_id c t : Py.isspace c = false -> Py.lstrip (String c t) = String c t.
Proof. intros H. cbn [Py.lstrip]. rewrite H. reflexivity. Qed.

Lemma rstrip_head c t :
  Py.isspace c = false -> exists t', Py.rstrip (String c t) = String c t'.
Proof.
  intros H. cbn [Py.rstrip]. destruct (Py.rstrip t); [rewrite H|]; eauto.
Qed.

Lemma rstrip_cons c s :
  Py.rstrip (String c s)
  = match Py.rstrip s with
    | EmptyString => if Py.isspace c then EmptyString else String c EmptyString
    | r => String c r
    end.
Proof. reflexivity. Qed.

Lemma rstrip_idem s : Py.rstrip (Py.rstrip s) = Py.rstrip s.
Proof.
  induction s as [|c s IH]; [reflexivity|]. rewrite rstrip_cons.
  destruct (Py.rstrip s) as [|c' r] eqn:E.
  - destruct (Py.isspace c) eqn:Ec; [reflexivity|].
    rewrite rstrip_cons. cbn [Py.rstrip]. rewrite Ec. reflexivity.
  - rewrite rstrip_cons, IH. reflexivity.
Qed.

Lemma strip_idem s : Py.strip (Py.strip s) = Py.strip s.
Proof.
  unfold Py.strip. destruct (lstrip_shape s) as [->|(c & t & -> & Hc)]; [reflexivity|].
  destruct (rstrip_head c t Hc) as [t' Ht]. rewrite Ht.
  rewrite (lstrip_id _ _ Hc), <- Ht. apply rstrip_idem.
Qed.

Lemma huge_day_counts_overflow e D :
  999999999 < D \/ D < -999999999 \/
  (Py.in_range (clock e) = true /\ 3652059 <= D) ->
  Py.sub_days (now e) D = None.
Proof.
  unfold Py.sub_days, Py.MAX_DELTA_DAYS, now. cbn [Py.wall Py.tzinfo].
  intros [H|[H|[Hr H]]].
  - destruct (Z.leb_spec D 999999999); [lia|]. rewrite andb_false_r. reflexivity.
  - destruct (Z.leb_spec (- (999999999)) D); [lia|]. reflexivity.
  - destruct (_ && _); [|reflexivity].
    unfold Py.in_range, Py.MAXORDINAL, Py.US_PER_DAY, Py.US_PER_SECOND in *.
    apply andb_true_iff in Hr as [Hr1 Hr2]. apply Z.leb_le in Hr1. apply Z.ltb_lt in Hr2.
    destruct (Z.leb_spec (86400 * 1000000) (clock e - D * (86400 * 1000000))); [lia|].
    reflexivity.
Qed.

End StageFacts.

(** X9.  Raising the age threshold never adds a record: at one clock
    reading, the records the age filter keeps for [D'] days are a
    subsequence of those it keeps for [D <= D'] days. *)
Theorem age_threshold_monotone e csv_path fieldnames rows D D' cutoff cutoff' :
  D <= D' ->
  Py.sub_days (now e) D = Some cutoff ->
  Py.sub_days (now e) D' = Some cutoff' ->
  writable e (age_output_path csv_path D) = true ->
  writable e (age_output_path csv_path D') = true ->
  exists kept kept',
    csv_files (fst (run (main.filter_by_created_age e csv_path fieldnames rows D)))
    = [(age_output_path csv_path D, fieldnames, kept)]
    /\ csv_files (fst (run (main.filter_by_created_age e csv_path fieldnames rows D')))
       = [(age_output_path csv_path D', fieldnames, kept')]
    /\ sublist kept' kept.
Proof.
  intros HD Hc Hc' Hw Hw'.
  exists (List.filter (qualifies cutoff "createdAt") rows),
         (List.filter (qualifies cutoff' "createdAt") rows).
  rewrite (filter_csv_files _ _ _ _ _ _ Hc Hw), (filter_csv_files _ _ _ _ _ _ Hc' Hw').
  split; [reflexivity|]. split; [reflexivity|].
  apply filter_sublist. intros r. apply qualifies_mono.
  destruct (cutoff_instant _ _ _ Hc) as [_ ->].
  destruct (cutoff_instant _ _ _ Hc') as [_ ->].
  unfold Py.US_PER_DAY, Py.US_PER_SECOND. lia.
Qed.

Lemma age_threshold_monotone_witness :
  exists kept kept',
    csv_files (fst (run (main.filter_by_created_age sample.quiet "out/list.csv"
                           ["id"; "createdAt"] sample.records 1)))
    = [(age_output_path "out/list.csv" 1, ["id"; "createdAt"], kept)]
    /\ csv_files (fst (run (main.filter_by_created_age sample.quiet "out/list.csv"
                              ["id"; "createdAt"] sample.records 2)))
       = [(age_output_path "out/list.csv" 2, ["id"; "createdAt"], kept')]
    /\ sublist kept' kept.
Proof.
  apply (age_threshold_monotone sample.quiet "out/list.csv" ["id"; "createdAt"]
           sample.records 1 2 sample.cutoff1 sample.cutoff2);
    [lia | reflexivity | reflexivity | reflexivity | reflexivity].
Defined.

(** X10.  The selector drops no record of the age filter on account of
    age: run on the records the filter kept, with the same day count and a
    clock that has not gone back, its candidates are the kept records that
    pass the inactivity test, and all the kept records when no inactivity
    day count is given. *)
Theorem selector_keeps_filtered e e' csv_path csv_path' fieldnames rows D
    defender_days cutoff cc cd :
  clock e <= clock e' ->
  Py.sub_days (now e) D = Some cutoff ->
  writable e (age_output_path csv_path D) = true ->
  selector_cutoffs e' D defender_days = Some (cc, cd) ->
  writable e' (cleanup_csv_path csv_path') = true ->
  exists kept,
    csv_files (fst (run (main.filter_by_created_age e csv_path fieldnames rows D)))
    = [(age_output_path csv_path D, fieldnames, kept)]
    /\ csv_files (fst (run (selector.run_cleanup_selector e' csv_path' fieldnames kept
                              D defender_days)))
       = [(cleanup_csv_path csv_path', clean_fieldnames fieldnames,
           map (selector.cleaned (clean_fieldnames fieldnames))
             (List.filter (inactive cd) kept))]
    /\ (defender_days = None -> List.filter (inactive cd) kept = kept).
Proof.
  intros Hclk Hcut Hw Hsel Hw'.
  exists (List.filter (qualifies cutoff "createdAt") rows).
  split; [apply (filter_csv_files _ _ _ _ _ _ Hcut Hw)|].
  rewrite (selector_csv_files _ _ _ _ _ _ _ _ Hsel Hw').
  pose proof (selector_cutoffs_spec _ _ _ _ _ Hsel) as (Hcc & _ & Hd).
  assert (Hle : instant cutoff <= instant cc).
  { destruct (cutoff_instant _ _ _ Hcut) as [_ ->].
    destruct (cutoff_instant _ _ _ Hcc) as [_ ->]. lia. }
  set (kept := List.filter (qualifies cutoff "createdAt") rows).
  assert (Heq : List.filter (selected cc cd) kept = List.filter (inactive cd) kept).
  { unfold kept. clear -Hle. induction rows as [|r rows IH]; [reflexivity|].
    cbn [List.filter]. destruct (qualifies cutoff "createdAt" r) eqn:E; [|exact IH].
    cbn [List.filter]. unfold selected at 1.
    rewrite (qualifies_mono _ _ _ _ Hle E). cbn [andb]. fold (inactive cd r).
    destruct (inactive cd r); rewrite IH; reflexivity. }
  rewrite Heq. split; [reflexivity|].
  intros ->. destruct cd; [contradiction|].
  clear. induction kept as [|r k IH]; [reflexivity|]. cbn. rewrite IH. reflexivity.
Qed.

Lemma selector_keeps_filtered_witness :
  exists kept,
    csv_files (fst (run (main.filter_by_created_age sample.quiet "out/list.csv"
                           ["id"; "createdAt"] sample.records 1)))
    = [(age_output_path "out/list.csv" 1, ["id"; "createdAt"], kept)]
    /\ csv_files (fst (run (selector.run_cleanup_selector sample.quiet "out/aged.csv"
                              ["id"; "createdAt"] kept 1 None)))
       = [(cleanup_csv_path "out/aged.csv", clean_fieldnames ["id"; "createdAt"],
           map (selector.cleaned (clean_fieldnames ["id"; "createdAt"]))
             (List.filter (inactive None) kept))]
    /\ (@None Z = None -> List.filter (inactive None) kept = kept).
Proof.
  apply (selector_keeps_filtered sample.quiet sample.quiet "out/list.csv" "out/aged.csv"
           ["id"; "createdAt"] sample.records 1 None sample.cutoff1 sample.cutoff1 None);
    [lia | reflexivity | reflexivity | reflexivity | reflexivity].
Defined.

(** X11.  White space around a text never changes its reading:
    [parse_timestamp] gives the same result for a text and for the text
    stripped. *)
Theorem parse_timestamp_ignores_margins s :
  timestamps.parse_timestamp (Some (Py.strip s)) = timestamps.parse_timestamp (Some s).
Proof.
  rewrite !parse_timestamp_reading.
  destruct s as [|c s]; [reflexivity|].
  remember (Py.strip (String c s)) as v eqn:Hv.
  assert (Hid : Py.strip v = v) by (subst; apply strip_idem).
  unfold reading. rewrite <- Hv.
  destruct v as [|c' v']; [reflexivity|]. cbv zeta. rewrite Hid. reflexivity.
Qed.

(** X12.  The counts the selector prints are consistent: the count of
    candidates is at most the count of age-qualifying records, which is at
    most the total; the inactivity count, when printed, is the count of
    candidates; without an inactivity criterion the two counts agree; and
    the candidate CSV holds as many records as the candidate count. *)
Theorem selector_counts e csv_path fieldnames rows created_days defender_days cc cd :
  selector_cutoffs e created_days defender_days = Some (cc, cd) ->
  writable e (cleanup_csv_path csv_path) = true ->
  let log := fst (run (selector.run_cleanup_selector e csv_path fieldnames rows
                         created_days defender_days)) in
  exists aged cands,
    In (Printed (SelTotal (Py.len rows))) log
    /\ In (Printed (SelCreated created_days aged)) log
    /\ In (Printed (SelCandidates cands)) log
    /\ (forall d, defender_days = Some d -> In (Printed (SelDefender d cands)) log)
    /\ (defender_days = None -> aged = cands)
    /\ 0 <= cands <= aged /\ aged <= Py.len rows
    /\ (forall p f written, In (p, f, written) (csv_files log) ->
          Py.len written = cands).
Proof.
  intros Hcut Hw. cbv zeta.
  pose proof (selector_csv_files _ csv_path fieldnames rows _ _ _ _ Hcut Hw) as Hcsv.
  rewrite (run_cleanup_selector_spec _ _ _ _ _ _ _ _ Hcut Hw) in *.
  cbv zeta in *. cbn [fst] in *.
  exists (Py.len (List.filter (qualifies cc "createdAt") rows)),
         (Py.len (List.filter (selected cc cd) rows)).
  assert (Hsub : sublist (List.filter (selected cc cd) rows)
                   (List.filter (qualifies cc "createdAt") rows)).
  { apply filter_sublist. intros r. apply selected_aged. }
  apply sublist_length in Hsub.
  pose proof (filter_partition_length (qualifies cc "createdAt") rows) as Hp.
  repeat apply conj.
  - apply in_or_app. left. unfold selector_report. simpl. tauto.
  - apply in_or_app. left. unfold selector_report. simpl. tauto.
  - apply in_or_app. left. unfold selector_report. simpl. tauto.
  - intros d ->. apply in_or_app. left. unfold selector_report. simpl. tauto.
  - intros ->. apply selector_cutoffs_spec in Hcut as (_ & _ & Hd).
    destruct cd; [contradiction|]. f_equal. apply filter_ext. intros r.
    unfold selected. symmetry. apply andb_true_r.
  - unfold Py.len. lia.
  - unfold Py.len. lia.
  - unfold Py.len in *. lia.
  - intros p f written Hin. rewrite Hcsv in Hin. destruct Hin as [[= _ _ <-]|[]].
    unfold Py.len. rewrite length_map. reflexivity.
Qed.

Lemma selector_counts_witness :
  exists aged cands,
    In (Printed (SelCreated 1 aged))
       (fst (run (selector.run_cleanup_selector sample.quiet "out/list.csv"
                    ["id"; "createdAt"] sample.records 1 (Some 2))))
    /\ 0 <= cands <= aged /\ aged <= Py.len sample.records.
Proof.
  pose proof (selector_counts sample.quiet "out/list.csv" ["id"; "createdAt"]
                sample.records 1 (Some 2) sample.cutoff1 (Some sample.cutoff2)
                eq_refl eq_refl) as H.
  cbv zeta in H. destruct H as (aged & cands & _ & H1 & _ & _ & _ & H2 & H3 & _).
  exists aged, cands. auto.
Defined.

(** X13.  A day count beyond 999999999 in magnitude, or one that reaches
    back before the year 1, makes the age filter and the selector raise
    [OverflowError] before any file is written. *)
Theorem stages_reject_huge_day_counts e csv_path fieldnames rows D defender_days :
  999999999 < D \/ D < -999999999 \/
  (Py.in_range (clock e) = true /\ 3652059 <= D) ->
  run (main.filter_by_created_age e csv_path fieldnames rows D)
  = ([], Raise OverflowError)
  /\ run (selector.run_cleanup_selector e csv_path fieldnames rows D defender_days)
     = ([Printed (SelLoaded csv_path)], Raise OverflowError).
Proof.
  intros HD. apply huge_day_counts_overflow in HD.
  unfold run, main.filter_by_created_age, selector.run_cleanup_selector,
    mbind, M_bind, lift, print, emit.
  rewrite HD. split; reflexivity.
Qed.

Lemma stages_reject_huge_day_counts_witness :
  run (main.filter_by_created_age sample.quiet "out/list.csv" ["id"] sample.records
         4000000)
  = ([], Raise OverflowError).
Proof.
  apply (stages_reject_huge_day_counts sample.quiet "out/list.csv" ["id"]
           sample.records 4000000 None).
  right. right. split; [reflexivity | lia].
Defined.

(* ===================================================================== *)
(** * Calendar and format facts *)
(* ===================================================================== *)

Section CalendarFacts.

Import PyTime.

Lemma month_day_spec (leapyear : bool) (n : Z) :
  0 <= n < 365 + (if leapyear then 1 else 0) ->
  month_day_ok leapyear n = true.
Proof.
  intros Hn.
  assert (Hleap : forallb (fun k => month_day_ok true (Z.of_nat k)) (seq 0%nat 366%nat)
                  = true) by (vm_compute; reflexivity).
  assert (Hplain : forallb (fun k => month_day_ok false (Z.of_nat k)) (seq 0%nat 365%nat)
                   = true) by (vm_compute; reflexivity).
  rewrite forallb_forall in Hleap, Hplain.
  specialize (Hleap (Z.to_nat n)). specialize (Hplain (Z.to_nat n)).
  rewrite Z2Nat.id in Hleap, Hplain by lia.
  destruct leapyear; [apply Hleap | apply Hplain]; apply in_seq; lia.
Qed.

Lemma days_in_month_flag y m :
  1 <= m <= 12 -> Py.days_in_month y m = month_length (Py.is_leap y) m.
Proof.
  intros Hm. unfold Py.days_in_month, month_length.
  assert (Hcases : m = 1 \/ m = 2 \/ m = 3 \/ m = 4 \/ m = 5 \/ m = 6 \/ m = 7
                   \/ m = 8 \/ m = 9 \/ m = 10 \/ m = 11 \/ m = 12) by lia.
  repeat (destruct Hcases as [->|Hcases]); try subst m;
    destruct (Py.is_leap y); reflexivity.
Qed.

Lemma days_before_month_flag y m :
  Py.days_before_month y m = days_before (Py.is_leap y) m.
Proof. reflexivity. Qed.

(** [_ord2ymd] inverts [_ymd2ord] on the ordinals of the representable years. *)
Lemma ord2ymd_spec n :
  1 <= n <= Py.MAXORDINAL ->
  let '(y, m, d) := ord2ymd n in
  1 <= y <= 9999 /\ 1 <= m <= 12 /\ 1 <= d <= Py.days_in_month y m
  /\ Py.ymd2ord y m d = n.
Proof.
  intros Hn. unfold ord2ymd, Py.MAXORDINAL in *. cbv zeta.
  set (a := n - 1).
  set (n400 := a / 146097). set (r1 := a mod 146097).
  set (n100 := r1 / 36524). set (r2 := r1 mod 36524).
  set (n4 := r2 / 1461). set (r3 := r2 mod 1461).
  set (n1 := r3 / 365). set (r4 := r3 mod 365).
  assert (Ha : a = 146097 * n400 + r1 /\ 0 <= r1 < 146097)
    by (unfold n400, r1; split; [apply Z.div_mod; lia | apply Z.mod_pos_bound; lia]).
  assert (H1 : r1 = 36524 * n100 + r2 /\ 0 <= r2 < 36524)
    by (unfold n100, r2; split; [apply Z.div_mod; lia | apply Z.mod_pos_bound; lia]).
  assert (H2 : r2 = 1461 * n4 + r3 /\ 0 <= r3 < 1461)
    by (unfold n4, r3; split; [apply Z.div_mod; lia | apply Z.mod_pos_bound; lia]).
  assert (H3 : r3 = 365 * n1 + r4 /\ 0 <= r4 < 365)
    by (unfold n1, r4; split; [apply Z.div_mod; lia | apply Z.mod_pos_bound; lia]).
  assert (Hb : 0 <= n400 <= 24 /\ 0 <= n100 <= 4 /\ 0 <= n4 <= 24 /\ 0 <= n1 <= 4)
    by (unfold a in *; lia).
  assert (Hna : a = n - 1) by reflexivity.
  clearbody n400 r1 n100 r2 n4 r3 n1 r4 a.
  set (Y := n400 * 400 + 100 * n100 + 4 * n4 + n1).
  assert (HY : n400 * 400 + 1 + n100 * 100 + n4 * 4 + n1 = Y + 1) by (unfold Y; lia).
  rewrite HY.
  destruct ((n1 =? 4) || (n100 =? 4)) eqn:Esp.
  - (* the last day of a leap year *)
    replace (Y + 1 - 1) with Y by lia.
    assert (Hleap : Py.is_leap Y = true).
    { unfold Py.is_leap, Y. apply orb_true_iff in Esp.
      rewrite !andb_true_iff, orb_true_iff, negb_true_iff, !Z.eqb_eq, Z.eqb_neq.
      destruct Esp as [E|E]; apply Z.eqb_eq in E; Z.div_mod_to_equations; lia. }
    rewrite (days_in_month_flag Y 12) by lia.
    unfold Py.ymd2ord. rewrite days_before_month_flag, Hleap.
    change (month_length true 12) with 31. change (days_before true 12) with 335.
    unfold Py.days_before_year, Y in *. apply orb_true_iff in Esp.
    destruct Esp as [E|E]; apply Z.eqb_eq in E; Z.div_mod_to_equations; lia.
  - apply orb_false_iff in Esp as [E1 E100].
    apply Z.eqb_neq in E1, E100.
    set (leapyear := (n1 =? 3) && (negb (n4 =? 24) || (n100 =? 3))).
    assert (Hleap : Py.is_leap (Y + 1) = leapyear).
    { unfold Py.is_leap, leapyear, Y.
      destruct (Z.eqb_spec n1 3), (Z.eqb_spec n4 24), (Z.eqb_spec n100 3);
        cbn [negb orb andb];
        repeat match goal with
               | |- context [?x =? 0] => destruct (Z.eqb_spec x 0)
               end; cbn [negb orb andb]; try reflexivity;
        exfalso; Z.div_mod_to_equations; lia. }
    pose proof (month_day_spec leapyear r4 ltac:(destruct leapyear; lia)) as Hmd.
    unfold month_day_ok in Hmd.
    destruct (month_day leapyear r4) as [m d].
    repeat (apply andb_true_iff in Hmd as [Hmd ?]).
    rewrite (days_in_month_flag (Y + 1) m) by lia.
    unfold Py.ymd2ord. rewrite days_before_month_flag, Hleap.
    assert (Hdby : Py.days_before_year (Y + 1)
                   = 146097 * n400 + 36524 * n100 + 1461 * n4 + 365 * n1).
    { unfold Py.days_before_year, Y. Z.div_mod_to_equations. lia. }
    rewrite Hdby. unfold Y. lia.
Qed.

End CalendarFacts.

Section FormatFacts.

Import PyTime.

Lemma run_items_group alts items s :
  Py.run_items (Py.Group alts :: items) s
  = Py.first_success (group_step (Py.run_items items) s) alts.
Proof. reflexivity. Qed.

Lemma month_group k n rest vals r :
  1 <= n <= 12 -> k rest = Some (vals, r) ->
  Py.first_success (group_step k (pad2 n rest))
    [[Py.is_char "1"; Py.between "0" "2"]; [Py.is_char "0"; Py.between "1" "9"];
     [Py.between "1" "9"]]
  = Some (n :: vals, r).
Proof. intros Hn Hk. group_by_cases n 1 12 Hk. Qed.

Lemma day_group k n rest vals r :
  1 <= n <= 31 -> k rest = Some (vals, r) ->
  Py.first_success (group_step k (pad2 n rest))
    [[Py.is_char "3"; Py.between "0" "1"]; [Py.between "1" "2"; Py.d09];
     [Py.is_char "0"; Py.between "1" "9"]; [Py.between "1" "9"];
     [Py.is_char " "; Py.between "1" "9"]]
  = Some (n :: vals, r).
Proof. intros Hn Hk. group_by_cases n 1 31 Hk. Qed.

Lemma hour_group k n rest vals r :
  0 <= n <= 23 -> k rest = Some (vals, r) ->
  Py.first_success (group_step k (pad2 n rest))
    [[Py.is_char "2"; Py.between "0" "3"]; [Py.between "0" "1"; Py.d09]; [Py.d09]]
  = Some (n :: vals, r).
Proof. intros Hn Hk. group_by_cases n 0 23 Hk. Qed.

Lemma minute_group k n rest vals r :
  0 <= n <= 59 -> k rest = Some (vals, r) ->
  Py.first_success (group_step k (pad2 n rest)) [[Py.between "0" "5"; Py.d09]; [Py.d09]]
  = Some (n :: vals, r).
Proof. intros Hn Hk. group_by_cases n 0 59 Hk. Qed.

Lemma second_group k n rest vals r :
  0 <= n <= 59 -> k rest = Some (vals, r) ->
  Py.first_success (group_step k (pad2 n rest))
    [[Py.is_char "6"; Py.between "0" "1"]; [Py.between "0" "5"; Py.d09]; [Py.d09]]
  = Some (n :: vals, r).
Proof. intros Hn Hk. group_by_cases n 0 59 Hk. Qed.

Lemma digit_facts k :
  0 <= k <= 9 ->
  Py.d09 (digit_char k) = true /\ Py.isdigit (digit_char k) = true
  /\ Py.digit_val (digit_char k) = k /\ Py.isspace (digit_char k) = false.
Proof. intros Hk. enumerate k 0 9; cbv; auto. Qed.

Lemma year_group k y rest vals r :
  0 <= y <= 9999 -> k rest = Some (vals, r) ->
  Py.first_success (group_step k (pad4 y rest)) [[Py.d09; Py.d09; Py.d09; Py.d09]]
  = Some (y :: vals, r).
Proof.
  intros Hy Hk. unfold pad4, pad2.
  set (a := y / 100 / 10). set (b := (y / 100) mod 10).
  set (c := y mod 100 / 10). set (d := (y mod 100) mod 10).
  assert (Hd : 0 <= a <= 9 /\ 0 <= b <= 9 /\ 0 <= c <= 9 /\ 0 <= d <= 9
               /\ y = ((a * 10 + b) * 10 + c) * 10 + d).
  { unfold a, b, c, d. Z.div_mod_to_equations. lia. }
  clearbody a b c d. destruct Hd as (Ha & Hb & Hc & Hd & ->).
  destruct (digit_facts a Ha) as (Ca & Da & Va & _).
  destruct (digit_facts b Hb) as (Cb & Db & Vb & _).
  destruct (digit_facts c Hc) as (Cc & Dc & Vc & _).
  destruct (digit_facts d Hd) as (Cd & Dd & Vd & _).
  cbn [Py.first_success]. unfold group_step. cbn [Py.match_classes].
  rewrite Ca, Cb, Cc, Cd, Hk. cbn [Py.digits_value].
  rewrite Da, Db, Dc, Dd, Va, Vb, Vc, Vd. do 3 f_equal. lia.
Qed.

Lemma run_items_lit c items s :
  Py.run_items (Py.Lit c :: items) (String c s) = Py.run_items items s.
Proof. cbn [Py.run_items]. rewrite Ascii.eqb_refl. reflexivity. Qed.

Lemma run_items_space items c s :
  Py.isspace c = false ->
  Py.run_items (Py.Spaces :: items) (String " " (String c s))
  = Py.run_items items (String c s).
Proof.
  intros Hc. cbn [Py.run_items Py.after_spaces].
  change (Py.isspace " ") with true. cbv iota. rewrite Hc. cbn [app Py.first_success].
  destruct (Py.run_items items (String c s)); reflexivity.
Qed.

Lemma rstrip_last c : Py.isspace c = false -> Py.rstrip (String c EmptyString) = String c EmptyString.
Proof. intros H. cbn [Py.rstrip]. rewrite H. reflexivity. Qed.

Lemma rstrip_more c c' s :
  Py.rstrip (String c' s) = String c' s ->
  Py.rstrip (String c (String c' s)) = String c (String c' s).
Proof.
  intros H. change (Py.rstrip (String c (String c' s)))
    with (match Py.rstrip (String c' s) with
          | EmptyString => if Py.isspace c then EmptyString else String c EmptyString
          | r => String c r
          end).
  rewrite H. reflexivity.
Qed.

Lemma lstrip_keep c t : Py.isspace c = false -> Py.lstrip (String c t) = String c t.
Proof. intros H. cbn [Py.lstrip]. rewrite H. reflexivity. Qed.

(** The CSV format reads back what [strftime] wrote in it. *)
Lemma strptime_strftime zero_pad dt :
  Py.in_range (Py.wall dt) = true ->
  zero_pad = true \/ 1000 <= year dt ->
  Py.run_items Py.csv_format (strftime_csv zero_pad dt) <> None
  /\ Py.strptime_csv (strftime_csv zero_pad dt) = Some (whole_seconds dt)
  /\ Py.strip (strftime_csv zero_pad dt) = strftime_csv zero_pad dt
  /\ strftime_csv zero_pad dt <> EmptyString.
Proof.
  intros Hr Hpad. unfold strftime_csv, year, whole_seconds, Py.strptime_csv in *.
  set (w := Py.wall dt) in *.
  unfold Py.in_range, Py.MAXORDINAL in Hr.
  apply andb_true_iff in Hr as [Hr1 Hr2]. apply Z.leb_le in Hr1. apply Z.ltb_lt in Hr2.
  assert (Hday : 0 < Py.US_PER_DAY) by (unfold Py.US_PER_DAY, Py.US_PER_SECOND; lia).
  assert (Hord : 1 <= w / Py.US_PER_DAY <= Py.MAXORDINAL).
  { unfold Py.MAXORDINAL. split.
    - apply Z.div_le_lower_bound; lia.
    - apply Z.lt_succ_r, Z.div_lt_upper_bound; lia. }
  pose proof (ord2ymd_spec _ Hord) as Hymd.
  destruct (ord2ymd (w / Py.US_PER_DAY)) as [[y m] d].
  destruct Hymd as (Hy & Hm & Hd & Hback).
  assert (Hyt : forall rest, year_text zero_pad y rest = pad4 y rest).
  { intros rest. unfold year_text. destruct Hpad as [->|Hpad]; [reflexivity|].
    apply Z.leb_le in Hpad. rewrite Hpad, orb_true_r. reflexivity. }
  rewrite Hyt. clear Hyt Hpad.
  set (secs := w mod Py.US_PER_DAY / Py.US_PER_SECOND).
  assert (Hs : 0 <= secs < 86400
               /\ w - w mod Py.US_PER_SECOND
                  = (w / Py.US_PER_DAY) * Py.US_PER_DAY + secs * Py.US_PER_SECOND).
  { unfold secs, Py.US_PER_DAY, Py.US_PER_SECOND. Z.div_mod_to_equations. lia. }
  clearbody secs. destruct Hs as [Hs Hw].
  set (H := secs / 3600). set (M := secs / 60 mod 60). set (S := secs mod 60).
  assert (Hhms : 0 <= H <= 23 /\ 0 <= M <= 59 /\ 0 <= S <= 59
                 /\ secs = (H * 60 + M) * 60 + S).
  { unfold H, M, S. Z.div_mod_to_equations. lia. }
  clearbody H M S. destruct Hhms as (HH & HM & HS & ->).
  assert (Hd31 : 1 <= d <= 31).
  { split; [lia|]. pose proof Hd as Hd'. unfold Py.days_in_month in Hd'.
    assert (Hcases : m = 1 \/ m = 2 \/ m = 3 \/ m = 4 \/ m = 5 \/ m = 6 \/ m = 7
                     \/ m = 8 \/ m = 9 \/ m = 10 \/ m = 11 \/ m = 12) by lia.
    repeat (destruct Hcases as [->|Hcases]); try subst m;
      cbn in Hd'; destruct (Py.is_leap y); lia. }
  assert (Hrun : Py.run_items Py.csv_format
                   (pad4 y (String "-" (pad2 m (String "-" (pad2 d (String " "
                      (pad2 H (String ":" (pad2 M (String ":"
                         (pad2 S EmptyString))))))))))) 
                 = Some ([y; m; d; H; M; S], EmptyString)).
  { unfold Py.csv_format.
    rewrite run_items_group. apply year_group; [lia|].
    rewrite run_items_lit, run_items_group. apply month_group; [lia|].
    rewrite run_items_lit, run_items_group. apply day_group; [lia|].
    unfold pad2 at 1. rewrite run_items_space
      by (apply digit_facts; Z.div_mod_to_equations; lia).
    fold (pad2 H (String ":" (pad2 M (String ":" (pad2 S EmptyString))))).
    rewrite run_items_group. apply hour_group; [lia|].
    rewrite run_items_lit, run_items_group. apply minute_group; [lia|].
    rewrite run_items_lit, run_items_group. apply second_group; [lia|].
    reflexivity. }
  rewrite Hrun. split; [discriminate|].
  split.
  2:{ split; [|discriminate].
      unfold Py.strip, pad4. unfold pad2 at 1.
      rewrite lstrip_keep by (apply digit_facts; Z.div_mod_to_equations; lia).
      unfold pad2. repeat apply rstrip_more. apply rstrip_last.
      apply digit_facts. Z.div_mod_to_equations. lia. }
  unfold Py.new_datetime.
  assert (Hok : (1 <=? y) && (y <=? 9999) && (1 <=? m) && (m <=? 12) && (1 <=? d)
                && (d <=? Py.days_in_month y m) && (0 <=? H) && (H <=? 23)
                && (0 <=? M) && (M <=? 59) && (0 <=? S) && (S <=? 59)
                && (0 <=? 0) && (0 <=? 999999) = true).
  { repeat (apply andb_true_iff; split); apply Z.leb_le; lia. }
  rewrite Hok. f_equal. f_equal. rewrite Hback, Hw. lia.
Qed.

End FormatFacts.

(* ===================================================================== *)
(** * Facts about the interactive stages *)
(* ===================================================================== *)

Section PromptFacts.

Import PyJson Io.

Context {A : Type} (prompt : string) (turn : string -> option A) (reminder : note).

Lemma prompt_loop_accept bad good rest log a :
  Forall (fun l => turn l = None) bad -> turn good = Some a ->
  prompt_loop prompt turn reminder (bad ++ good :: rest) log
  = (mk_state rest (log ++ reminders prompt reminder (length bad)), Done a).
Proof.
  intros Hbad Hgood. revert log. induction Hbad as [|l bad Hl Hbad IH]; intros log.
  - cbn [app prompt_loop]. rewrite Hgood. reflexivity.
  - cbn [app prompt_loop]. rewrite Hl, IH. unfold reminders.
    cbn [length replicate concat]. rewrite <- !app_assoc. reflexivity.
Qed.

Lemma prompt_loop_eof lines log :
  Forall (fun l => turn l = None) lines ->
  prompt_loop prompt turn reminder lines log
  = (mk_state [] (log ++ reminders prompt reminder (length lines)), Fail EOFError).
Proof.
  intros Hbad. revert log. induction Hbad as [|l bad Hl Hbad IH]; intros log.
  - reflexivity.
  - cbn [prompt_loop]. rewrite Hl, IH. unfold reminders.
    cbn [length replicate concat]. rewrite <- !app_assoc. reflexivity.
Qed.

(** The lines typed split at the first usable one, if there is any. *)
Lemma first_usable lines :
  Forall (fun l => turn l = None) lines
  \/ exists bad good a rest,
       lines = (bad ++ good :: rest)%list
       /\ Forall (fun l => turn l = None) bad /\ turn good = Some a.
Proof.
  induction lines as [|l lines IH].
  - left. constructor.
  - destruct (turn l) as [a|] eqn:Hl.
    + right. exists [], l, a, lines. repeat split; [constructor | exact Hl].
    + destruct IH as [IH | (bad & good & a & rest & -> & Hbad & Hgood)].
      * left. constructor; assumption.
      * right. exists (l :: bad), good, a, rest. repeat split; [constructor|]; assumption.
Qed.

Lemma prompt_loop_done lines log st a :
  prompt_loop prompt turn reminder lines log = (st, Done a) ->
  exists bad good,
    lines = (bad ++ good :: pending st)%list
    /\ Forall (fun l => turn l = None) bad /\ turn good = Some a
    /\ Io.log st = (log ++ reminders prompt reminder (length bad))%list.
Proof.
  intros Hrun. destruct (first_usable lines) as [Hbad | (bad & good & a' & rest & -> & Hbad & Hgood)].
  - rewrite prompt_loop_eof in Hrun by assumption. discriminate.
  - rewrite (prompt_loop_accept _ _ _ _ _ Hbad Hgood) in Hrun.
    injection Hrun as <- <-. exists bad, good. repeat split; assumption.
Qed.

Lemma prompt_loop_fail lines log st e :
  prompt_loop prompt turn reminder lines log = (st, Fail e) ->
  e = EOFError /\ pending st = [] /\ Forall (fun l => turn l = None) lines
  /\ Io.log st = (log ++ reminders prompt reminder (length lines))%list.
Proof.
  intros Hrun. destruct (first_usable lines) as [Hbad | (bad & good & a' & rest & -> & Hbad & Hgood)].
  - rewrite prompt_loop_eof in Hrun by assumption. injection Hrun as <- <-.
    repeat split; assumption.
  - rewrite (prompt_loop_accept _ _ _ _ _ Hbad Hgood) in Hrun. discriminate.
Qed.

End PromptFacts.

Section CommentFacts.

Import PyJson Io.

Import umbrella_list_overview.

Lemma contains_one_cons c a s :
  Py.contains (String c EmptyString) (String a s) = Ascii.eqb c a || Py.contains (String c EmptyString) s.
Proof. cbn [Py.contains Py.startswith]. destruct (Ascii.eqb c a); reflexivity. Qed.

Lemma contains_one_app c s t :
  Py.contains (String c EmptyString) (s +:+ t) = Py.contains (String c EmptyString) s || Py.contains (String c EmptyString) t.
Proof.
  induction s as [|a s IH].
  - cbn [String.append]. reflexivity.
  - change (String a s +:+ t) with (String a (s +:+ t)).
    rewrite !contains_one_cons, IH, orb_assoc. reflexivity.
Qed.

Lemma replace_one_cons c new a s :
  Py.replace (String c EmptyString) new (String a s)
  = if Ascii.eqb c a then new +:+ Py.replace (String c EmptyString) new s
    else String a (Py.replace (String c EmptyString) new s).
Proof.
  unfold Py.replace. cbn [Py.replace_from Py.startswith String.length Nat.sub].
  destruct (Ascii.eqb c a); reflexivity.
Qed.

(** Replacing a character by a text without it leaves none of it. *)
Lemma replace_one_gone c new s :
  Py.contains (String c EmptyString) new = false ->
  Py.contains (String c EmptyString) (Py.replace (String c EmptyString) new s) = false.
Proof.
  intros Hnew. induction s as [|a s IH]; [reflexivity|].
  rewrite replace_one_cons. destruct (Ascii.eqb c a) eqn:E.
  - rewrite contains_one_app, Hnew, IH. reflexivity.
  - rewrite contains_one_cons, E, IH. reflexivity.
Qed.

(** Replacing a character brings in no character that neither the text nor
    the replacement had. *)
Lemma replace_one_keeps d c new s :
  Py.contains (String d EmptyString) s = false -> Py.contains (String d EmptyString) new = false ->
  Py.contains (String d EmptyString) (Py.replace (String c EmptyString) new s) = false.
Proof.
  intros Hs Hnew. induction s as [|a s IH]; [reflexivity|].
  rewrite contains_one_cons in Hs. apply orb_false_iff in Hs as [Ha Hs].
  rewrite replace_one_cons. destruct (Ascii.eqb c a).
  - rewrite contains_one_app, Hnew, IH by assumption. reflexivity.
  - rewrite contains_one_cons, Ha, IH by assumption. reflexivity.
Qed.

Lemma replace_one_absent c new s :
  Py.contains (String c EmptyString) s = false -> Py.replace (String c EmptyString) new s = s.
Proof.
  induction s as [|a s IH]; [reflexivity|]. rewrite contains_one_cons.
  intros H. apply orb_false_iff in H as [Ha Hs].
  rewrite replace_one_cons, Ha, IH by assumption. reflexivity.
Qed.

Lemma lstrip_keeps d s :
  Py.contains (String d EmptyString) s = false -> Py.contains (String d EmptyString) (Py.lstrip s) = false.
Proof.
  induction s as [|a s IH]; [reflexivity|]. intros H. cbn [Py.lstrip].
  destruct (Py.isspace a); [|exact H].
  rewrite contains_one_cons in H. apply orb_false_iff in H as [_ H]. auto.
Qed.

Lemma rstrip_keeps d s :
  Py.contains (String d EmptyString) s = false -> Py.contains (String d EmptyString) (Py.rstrip s) = false.
Proof.
  induction s as [|a s IH]; [reflexivity|]. rewrite contains_one_cons. intros H.
  apply orb_false_iff in H as [Ha Hs]. rewrite rstrip_cons.
  specialize (IH Hs). destruct (Py.rstrip s) as [|b r].
  - destruct (Py.isspace a); [reflexivity|]. rewrite contains_one_cons, Ha. reflexivity.
  - rewrite contains_one_cons, Ha, IH. reflexivity.
Qed.

Lemma strip_keeps d s :
  Py.contains (String d EmptyString) s = false -> Py.contains (String d EmptyString) (Py.strip s) = false.
Proof. intros H. unfold Py.strip. apply rstrip_keeps, lstrip_keeps, H. Qed.

Lemma clean_comment_spec text s :
  clean_comment text = Some s ->
  Py.contains (String TAB EmptyString) s = false /\ Py.contains (String LF EmptyString) s = false
  /\ Py.contains (String CR EmptyString) s = false /\ Py.strip s = s
  /\ clean_comment (JStr s) = Some s.
Proof.
  unfold clean_comment at 1. destruct (negb (truthy text)) eqn:Ht.
  { intros [= <-]. repeat split; reflexivity. }
  destruct text as [| |n|t]; try discriminate. intros H.
  set (r1 := Py.replace (String TAB EmptyString) (String BACKSLASH "t") t).
  set (r2 := Py.replace (String LF EmptyString) (String BACKSLASH "n") r1).
  set (r3 := Py.replace (String CR EmptyString) EmptyString r2).
  change (Some (Py.strip r3) = Some s) in H.
  assert (H1 : Py.contains (String TAB EmptyString) r1 = false) by (apply replace_one_gone; reflexivity).
  assert (H2 : Py.contains (String TAB EmptyString) r2 = false /\ Py.contains (String LF EmptyString) r2 = false).
  { split; [apply replace_one_keeps; [exact H1 | reflexivity]
           | apply replace_one_gone; reflexivity]. }
  destruct H2 as [H2t H2n].
  assert (H3 : Py.contains (String TAB EmptyString) r3 = false /\ Py.contains (String LF EmptyString) r3 = false
               /\ Py.contains (String CR EmptyString) r3 = false).
  { repeat split; [apply replace_one_keeps; [assumption | reflexivity]
                  | apply replace_one_keeps; [assumption | reflexivity]
                  | apply replace_one_gone; reflexivity]. }
  destruct H3 as (H3t & H3n & H3r). clearbody r3. clear r1 r2 H1 H2t H2n.
  injection H as <-.
  pose proof (strip_keeps _ _ H3t) as Ht'. pose proof (strip_keeps _ _ H3n) as Hn'.
  pose proof (strip_keeps _ _ H3r) as Hr'.
  repeat split; try assumption; [apply strip_idem|].
  unfold clean_comment. destruct (negb (truthy (JStr (Py.strip r3)))) eqn:E.
  - cbn [truthy] in E. apply negb_true_iff, negb_false_iff, String.eqb_eq in E.
    rewrite E. reflexivity.
  - rewrite (replace_one_absent TAB) by assumption.
    rewrite (replace_one_absent LF) by assumption.
    rewrite (replace_one_absent CR) by assumption.
    rewrite strip_idem. reflexivity.
Qed.

End CommentFacts.

Section ReadBackFacts.

Import PyJson Io.

Import PyTime.

(** No day of the year [y] lies beyond the last day before the year [y + 1]. *)
Lemma ymd2ord_within_year y m d :
  1 <= m <= 12 -> 1 <= d <= Py.days_in_month y m ->
  Py.ymd2ord y m d <= Py.days_before_year (y + 1).
Proof.
  intros Hm Hd.
  unfold Py.ymd2ord, Py.days_before_year, Py.days_before_month.
  unfold Py.days_in_month, Py.is_leap in *.
  assert (Hcases : m = 1 \/ m = 2 \/ m = 3 \/ m = 4 \/ m = 5 \/ m = 6 \/ m = 7
                   \/ m = 8 \/ m = 9 \/ m = 10 \/ m = 11 \/ m = 12) by lia.
  destruct (Z.eqb_spec (y mod 4) 0), (Z.eqb_spec (y mod 100) 0),
    (Z.eqb_spec (y mod 400) 0); cbn [negb orb andb] in *;
  repeat (destruct Hcases as [->|Hcases]); try subst m;
  match goal with
  | |- context [nth (Z.to_nat ?k) ?l ?d0] =>
      let v := eval vm_compute in (nth (Z.to_nat k) l d0) in
      change (nth (Z.to_nat k) l d0) with v
  end; cbn in Hd |- *; Z.div_mod_to_equations; lia.
Qed.

(** A reading from the year 1000 on has a year of four digits. *)
Lemma year_four_digits dt :
  Py.in_range (Py.wall dt) = true ->
  364878 * Py.US_PER_DAY <= Py.wall dt ->
  1000 <= year dt.
Proof.
  intros Hr Hw. unfold year.
  unfold Py.in_range, Py.MAXORDINAL in Hr.
  apply andb_true_iff in Hr as [Hr1 Hr2]. apply Z.leb_le in Hr1. apply Z.ltb_lt in Hr2.
  assert (Hday : 0 < Py.US_PER_DAY) by (unfold Py.US_PER_DAY, Py.US_PER_SECOND; lia).
  assert (Hord : 364878 <= Py.wall dt / Py.US_PER_DAY <= Py.MAXORDINAL).
  { unfold Py.MAXORDINAL. split.
    - apply Z.div_le_lower_bound; lia.
    - apply Z.lt_succ_r, Z.div_lt_upper_bound; lia. }
  pose proof (ord2ymd_spec (Py.wall dt / Py.US_PER_DAY) ltac:(lia)) as Hymd.
  destruct (ord2ymd (Py.wall dt / Py.US_PER_DAY)) as [[y m] d].
  destruct Hymd as (Hy & Hm & Hd & Hback).
  pose proof (ymd2ord_within_year y m d Hm Hd) as Hle.
  destruct (Z.le_gt_cases 1000 y) as [|Hlt]; [assumption|].
  exfalso. unfold Py.days_before_year in Hle.
  revert Hle. Z.div_mod_to_equations. lia.
Qed.

(** [parse_timestamp] reads back what [strftime] wrote: the same reading,
    cut down to whole seconds and taken as UTC. *)
Lemma reading_strftime zero_pad dt :
  Py.in_range (Py.wall dt) = true ->
  zero_pad = true \/ 1000 <= year dt ->
  reading (Some (strftime_csv zero_pad dt))
  = Some (Py.mk_datetime (Py.wall dt - Py.wall dt mod Py.US_PER_SECOND) Py.utc).
Proof.
  intros Hr Hpad.
  destruct (strptime_strftime zero_pad dt Hr Hpad) as (_ & Hparse & Hstrip & Hne).
  assert (HT : Py.contains "T" (strftime_csv zero_pad dt) = false).
  { destruct (Py.contains "T" (strftime_csv zero_pad dt)) eqn:E; [|reflexivity].
    rewrite (strptime_csv_no_T _ E) in Hparse. discriminate. }
  unfold reading. destruct (strftime_csv zero_pad dt) as [|c s] eqn:Es; [congruence|].
  cbv zeta. rewrite Hstrip, HT. unfold csv_utc. rewrite Hparse. reflexivity.
Qed.

End ReadBackFacts.

Section ExportFacts.

Import PyJson Io.

Import umbrella_list_overview PyTime.

Lemma export_timestamp_spec zero_pad value :
  export_timestamp zero_pad value
  = Ret (match stamp value with
         | Some t => strftime_csv zero_pad t
         | None => EmptyString
         end).
Proof.
  unfold export_timestamp, stamp. rewrite parse_timestamp_reading.
  destruct (int value) as [n|]; cbn [or_raise mbind outcome_bind try_except_pass].
  - destruct (fromtimestamp_utc n) as [t|]; cbn [or_raise mbind outcome_bind try_except_pass mret outcome_ret].
    + reflexivity.
    + destruct (reading (as_text value)); reflexivity.
  - destruct (reading (as_text value)); reflexivity.
Qed.

Lemma stamp_in_range value t :
  stamp value = Some t -> Py.in_range (Py.wall t) = true /\ Py.tzinfo t = Py.utc.
Proof.
  unfold stamp. intros H.
  assert (Hread : forall v, reading v = Some t ->
                            Py.in_range (Py.wall t) = true /\ Py.tzinfo t = Py.utc).
  { intros v Hv. destruct (reading_aware _ _ Hv). auto. }
  destruct (int value) as [n|]; [|eauto].
  destruct (fromtimestamp_utc n) as [t'|] eqn:E; [|eauto].
  injection H as <-. unfold fromtimestamp_utc in E.
  destruct (Py.in_range _) eqn:Er; [|discriminate]. injection E as <-. auto.
Qed.

Lemma in_list_In key keys : in_list key keys = true <-> In key keys.
Proof.
  unfold in_list. rewrite existsb_exists. split.
  - intros (k & Hk & E). apply String.eqb_eq in E. subst. exact Hk.
  - intros H. exists key. split; [exact H | apply String.eqb_refl].
Qed.

Lemma insort_perm key keys : Permutation (insort key keys) (key :: keys).
Proof.
  induction keys as [|k keys IH]; [reflexivity|]. cbn [insort].
  destruct (String.leb key k); [reflexivity|].
  rewrite IH. apply perm_swap.
Qed.

Lemma sorted_perm keys : Permutation (sorted keys) keys.
Proof.
  induction keys as [|k keys IH]; [reflexivity|]. unfold sorted. cbn [foldr].
  rewrite insort_perm. constructor. exact IH.
Qed.

Lemma columns_spec destinations key :
  In key (columns destinations)
  <-> In key preferred_order \/ exists row, In row destinations /\ is_Some (row !! key).
Proof.
  unfold columns. rewrite in_app_iff, filter_In.
  assert (Hkeys : In key (sorted (elements (⋃ (dom <$> destinations) : gset string)))
                  <-> exists row, In row destinations /\ is_Some (row !! key)).
  { rewrite <- !list_elem_of_In, (sorted_perm _), elem_of_elements, elem_of_union_list.
    split.
    - intros (X & HX & Hk). apply list_elem_of_fmap in HX as (row & -> & Hrow).
      exists row. rewrite <- list_elem_of_In. split; [exact Hrow|].
      apply elem_of_dom. exact Hk.
    - intros (row & Hrow & Hk). exists (dom row). split.
      + apply list_elem_of_fmap. exists row. rewrite list_elem_of_In. auto.
      + apply elem_of_dom. exact Hk. }
  rewrite Hkeys. split.
  - intros [H | [H _]]; auto.
  - intros [H | H]; [auto|].
    destruct (in_list key preferred_order) eqn:E.
    + left. apply in_list_In. exact E.
    + right. split; [exact H | reflexivity].
Qed.

Lemma columns_NoDup destinations : NoDup (columns destinations).
Proof.
  unfold columns. apply NoDup_app. repeat split.
  - unfold preferred_order.
    repeat (apply NoDup_cons; split;
            [rewrite ?elem_of_cons, elem_of_nil; intuition discriminate|]).
    apply NoDup_nil_2.
  - intros key Hp Hf. apply list_elem_of_In, filter_In in Hf as [_ Hf].
    apply negb_true_iff in Hf. apply list_elem_of_In, in_list_In in Hp. congruence.
  - apply NoDup_ListNoDup, List.NoDup_filter, NoDup_ListNoDup.
    rewrite (sorted_perm _). apply NoDup_elements.
Qed.

End ExportFacts.

Section ExportRun.

Import PyJson Io.

Import umbrella_list_overview PyTime.

Lemma logged_logged st a b : logged (logged st a) b = logged st (a ++ b).
Proof. unfold logged. cbn [pending log]. rewrite app_assoc. reflexivity. Qed.

Lemma emit_logged a st : emit a st = (logged st [a], Done tt).
Proof. reflexivity. Qed.

Lemma say_logged n st : say n st = (logged st [Say n], Done tt).
Proof. reflexivity. Qed.

Lemma normalize_fail zero_pad row key e :
  normalize zero_pad row key = Fail e ->
  e = AttributeError /\ comment_ok row = false.
Proof.
  unfold normalize, comment_ok.
  destruct (String.eqb key "comment") eqn:Ek.
  - apply String.eqb_eq in Ek. subst key.
    destruct (clean_comment _); [discriminate|]. intros [= <-]. auto.
  - destruct (in_list key _).
    + rewrite export_timestamp_spec. discriminate.
    + destruct (String.eqb key "id"); [discriminate|].
      destruct (default _ _); discriminate.
Qed.

Lemma normalize_done zero_pad row key :
  comment_ok row = true -> exists value, normalize zero_pad row key = Done value.
Proof.
  intros Hok. destruct (normalize zero_pad row key) as [v|e] eqn:E; [eauto|].
  apply normalize_fail in E as [_ E]. congruence.
Qed.

Lemma for_each_cells zero_pad row norm keys st :
  for_each (normalize_key zero_pad row) norm keys st = (st, cells zero_pad row norm keys).
Proof.
  revert norm. induction keys as [|key keys IH]; intros norm; [reflexivity|].
  cbn [for_each cells]. unfold mbind at 1, M_bind at 1.
  unfold normalize_key at 1. unfold mbind at 1, M_bind at 1, lift.
  destruct (normalize zero_pad row key) as [v|e]; [|reflexivity].
  unfold mret, M_ret. apply IH.
Qed.

Lemma for_each_normalized zero_pad keys acc rows st :
  for_each (normalize_row zero_pad keys) acc rows st
  = (st, normalized zero_pad keys acc rows).
Proof.
  revert acc. induction rows as [|row rows IH]; intros acc; [reflexivity|].
  cbn [for_each normalized]. unfold mbind at 1, M_bind at 1.
  unfold normalize_row at 1. unfold mbind at 1, M_bind at 1.
  rewrite for_each_cells.
  destruct (cells zero_pad row ∅ keys) as [norm|e]; [|reflexivity].
  unfold mret, M_ret. apply IH.
Qed.

Lemma cells_done zero_pad row norm keys norm' :
  cells zero_pad row norm keys = Done norm' ->
  (forall k, In k keys ->
             exists v, normalize zero_pad row k = Done v /\ norm' !! k = Some v)
  /\ (forall k, ~ In k keys -> norm' !! k = norm !! k).
Proof.
  revert norm. induction keys as [|key keys IH]; intros norm.
  - intros [= <-]. split; [intros k []|auto].
  - cbn [cells]. destruct (normalize zero_pad row key) as [v|e] eqn:Ev; [|discriminate].
    intros H. destruct (IH _ H) as [IHin IHout]. split.
    + intros k [<-|Hk].
      * destruct (in_dec String.string_dec key keys) as [Hin|Hnin]; [auto|].
        exists v. split; [exact Ev|]. rewrite (IHout _ Hnin). apply lookup_insert_eq.
      * auto.
    + intros k Hk. rewrite IHout by (intros Hin; apply Hk; right; exact Hin).
      apply lookup_insert_ne. intros ->. apply Hk. left. reflexivity.
Qed.

Lemma cells_fail zero_pad row norm keys e :
  cells zero_pad row norm keys = Fail e ->
  e = AttributeError /\ comment_ok row = false.
Proof.
  revert norm. induction keys as [|key keys IH]; intros norm; [discriminate|].
  cbn [cells]. destruct (normalize zero_pad row key) as [v|e'] eqn:Ev.
  - apply IH.
  - intros [= <-]. eapply normalize_fail. exact Ev.
Qed.

Lemma cells_bad_comment zero_pad row norm keys :
  In "comment" keys -> comment_ok row = false ->
  cells zero_pad row norm keys = Fail AttributeError.
Proof.
  intros Hin Hbad. revert norm. induction keys as [|key keys IH]; intros norm; [destruct Hin|].
  cbn [cells]. destruct (normalize zero_pad row key) as [v|e] eqn:Ev.
  - destruct Hin as [->|Hin]; [|auto].
    unfold normalize, comment_ok in *.
    change (String.eqb "comment" "comment") with true in Ev. cbv iota in Ev.
    destruct (clean_comment _); discriminate.
  - apply normalize_fail in Ev as [-> _]. reflexivity.
Qed.

Lemma normalized_done zero_pad keys acc rows out :
  normalized zero_pad keys acc rows = Done out ->
  exists norms,
    out = (acc ++ norms)%list
    /\ Forall2 (fun row norm => cells zero_pad row ∅ keys = Done norm) rows norms.
Proof.
  revert acc. induction rows as [|row rows IH]; intros acc.
  - intros [= <-]. exists []. rewrite app_nil_r. split; [reflexivity | constructor].
  - cbn [normalized]. destruct (cells zero_pad row ∅ keys) as [norm|e] eqn:Ec; [|discriminate].
    intros H. destruct (IH _ H) as (norms & -> & Hall).
    exists (norm :: norms). rewrite <- app_assoc. split; [reflexivity|].
    constructor; assumption.
Qed.

Lemma normalized_fail zero_pad keys acc rows e :
  normalized zero_pad keys acc rows = Fail e ->
  e = AttributeError /\ exists row, In row rows /\ comment_ok row = false.
Proof.
  revert acc. induction rows as [|row rows IH]; intros acc; [discriminate|].
  cbn [normalized]. destruct (cells zero_pad row ∅ keys) as [norm|e'] eqn:Ec.
  - intros H. destruct (IH _ H) as (-> & r & Hr & Hbad).
    split; [reflexivity|]. exists r. split; [right|]; assumption.
  - intros [= <-]. apply cells_fail in Ec as [-> Hbad].
    split; [reflexivity|]. exists row. split; [left; reflexivity | exact Hbad].
Qed.

Lemma normalized_bad_comment zero_pad keys acc rows row :
  In "comment" keys -> In row rows -> comment_ok row = false ->
  normalized zero_pad keys acc rows = Fail AttributeError.
Proof.
  intros Hk Hrow Hbad. revert acc. induction rows as [|r rows IH]; intros acc; [destruct Hrow|].
  cbn [normalized]. destruct (cells zero_pad r ∅ keys) as [norm|e] eqn:Ec.
  - destruct Hrow as [->|Hrow]; [|auto].
    rewrite (cells_bad_comment _ _ _ _ Hk Hbad) in Ec. discriminate.
  - apply cells_fail in Ec as [-> _]. reflexivity.
Qed.

(** The run of [export_to_csv], case by case. *)
Lemma export_to_csv_spec e zero_pad destinations filename st :
  export_to_csv e zero_pad destinations filename st
  = match destinations with
    | [] => (logged st [Say NoDestinations], Done tt)
    | _ =>
        let all_keys := columns destinations in
        match normalized zero_pad all_keys [] destinations with
        | Fail err => (logged st [Say (CsvColumns all_keys)], Fail err)
        | Done rows =>
            if writable e filename
            then (logged st [Say (CsvColumns all_keys); Say (WritingCsv filename);
                             SaveExport filename all_keys rows; Say CsvExportComplete],
                  Done tt)
            else (logged st [Say (CsvColumns all_keys); Say (WritingCsv filename)],
                  Fail (Builtin OSError))
        end
    end.
Proof.
  unfold export_to_csv. destruct destinations as [|d ds]; [reflexivity|].
  set (all := d :: ds). cbv zeta. set (all_keys := columns all).
  unfold mbind at 1, M_bind at 1. rewrite say_logged.
  unfold mbind at 1, M_bind at 1. rewrite for_each_normalized.
  destruct (normalized zero_pad all_keys [] all) as [rows|err]; [|reflexivity].
  unfold mbind at 1, M_bind at 1. rewrite say_logged, logged_logged.
  unfold mbind at 1, M_bind at 1.
  destruct (writable e filename).
  - rewrite emit_logged, say_logged, !logged_logged. reflexivity.
  - reflexivity.
Qed.

End ExportRun.

Section ChoiceFacts.

Import PyJson Io.

Import umbrella_list_overview.

Lemma all_chars_app ok s t :
  all_chars ok (s +:+ t) = all_chars ok s && all_chars ok t.
Proof.
  induction s as [|c s IH]; [reflexivity|].
  change (String c s +:+ t) with (String c (s +:+ t)).
  cbn [all_chars]. rewrite IH, andb_assoc. reflexivity.
Qed.

Lemma all_chars_join_if keep s : all_chars keep (join_if keep s) = true.
Proof.
  induction s as [|c s IH]; [reflexivity|]. cbn [join_if].
  destruct (keep c) eqn:E; [|exact IH]. cbn [all_chars]. rewrite E, IH. reflexivity.
Qed.

Lemma all_chars_lstrip ok s : all_chars ok s = true -> all_chars ok (Py.lstrip s) = true.
Proof.
  induction s as [|c s IH]; [reflexivity|]. intros H. cbn [Py.lstrip].
  destruct (Py.isspace c); [|exact H].
  cbn [all_chars] in H. apply andb_true_iff in H as [_ H]. auto.
Qed.

Lemma all_chars_rstrip ok s : all_chars ok s = true -> all_chars ok (Py.rstrip s) = true.
Proof.
  induction s as [|c s IH]; [reflexivity|]. cbn [all_chars]. intros H.
  apply andb_true_iff in H as [Hc Hs]. rewrite rstrip_cons. specialize (IH Hs).
  destruct (Py.rstrip s) as [|b r].
  - destruct (Py.isspace c); [reflexivity|]. cbn [all_chars]. rewrite Hc. reflexivity.
  - cbn [all_chars] in *. rewrite Hc, IH. reflexivity.
Qed.

Lemma all_chars_replace_space ok s :
  ok "_"%char = true ->
  all_chars (fun c => ok c || Ascii.eqb c " ") s = true ->
  all_chars ok (Py.replace " " "_" s) = true.
Proof.
  intros Hu. induction s as [|c s IH]; [reflexivity|]. cbn [all_chars]. intros H.
  apply andb_true_iff in H as [Hc Hs]. rewrite replace_one_cons.
  destruct (Ascii.eqb " " c) eqn:E.
  - change ("_" +:+ Py.replace " " "_" s) with (String "_" (Py.replace " " "_" s)).
    cbn [all_chars]. rewrite Hu, IH by assumption. reflexivity.
  - cbn [all_chars]. rewrite IH by assumption. apply orb_true_iff in Hc as [Hc|Hc].
    + rewrite Hc. reflexivity.
    + rewrite Ascii.eqb_sym in Hc. congruence.
Qed.

Lemma all_chars_weaken (ok ok' : ascii -> bool) s :
  (forall c, ok c = true -> ok' c = true) ->
  all_chars ok s = true -> all_chars ok' s = true.
Proof.
  intros Himp. induction s as [|c s IH]; [reflexivity|]. cbn [all_chars]. intros H.
  apply andb_true_iff in H as [Hc Hs]. rewrite (Himp _ Hc), IH by assumption. reflexivity.
Qed.

Lemma all_chars_contains ok d s :
  ok d = false -> all_chars ok s = true -> Py.contains (String d EmptyString) s = false.
Proof.
  intros Hd. induction s as [|c s IH]; [reflexivity|]. cbn [all_chars]. intros H.
  apply andb_true_iff in H as [Hc Hs]. rewrite contains_one_cons, IH by assumption.
  destruct (Ascii.eqb_spec d c) as [->|]; [congruence | reflexivity].
Qed.

Lemma safe_name_chars name : all_chars name_char (safe_name name) = true.
Proof.
  unfold safe_name. apply all_chars_replace_space; [reflexivity|].
  unfold Py.strip. apply all_chars_rstrip, all_chars_lstrip.
  eapply all_chars_weaken; [|apply all_chars_join_if].
  intros c Hc. unfold name_char. cbv beta in Hc.
  destruct (isalnum c), (Ascii.eqb c "_"), (Ascii.eqb c " "); try reflexivity; discriminate.
Qed.

Lemma for_each_menu i lists st :
  for_each (fun (_ : unit) '(i, lst) => say (ListsEntry i (list_name lst) (list_id lst)))
    tt (enumerate i lists) st
  = (logged st (menu i lists), Done tt).
Proof.
  revert i st. induction lists as [|lst lists IH]; intros i st.
  - unfold logged. cbn [for_each enumerate menu]. rewrite app_nil_r.
    destruct st; reflexivity.
  - cbn [for_each enumerate menu]. unfold mbind at 1, M_bind at 1.
    rewrite say_logged, IH, logged_logged. reflexivity.
Qed.

(** The run of [choose_list_interactively] when the lists arrive. *)
Lemma choose_list_spec umbrella lists st :
  lists_answer umbrella = Done lists ->
  choose_list_interactively umbrella st
  = match lists with
    | [] => (logged st [FetchLists; Say NoListsFound], Done None)
    | _ =>
        match pending st with
        | [] => (mk_state [] (log st ++ choice_screen lists), Fail EOFError)
        | line :: rest =>
            let shown := (log st ++ choice_screen lists)%list in
            match Py.int (Py.strip line) with
            | Some index =>
                if (1 <=? index) && (index <=? Py.len lists)
                then (mk_state rest shown, Done (lists !! Z.to_nat (index - 1)))
                else (mk_state rest (shown ++ [Say InvalidSelection]), Done None)
            | None => (mk_state rest (shown ++ [Say InvalidSelection]), Done None)
            end
        end
    end.
Proof.
  intros Hlists. unfold choose_list_interactively, list_destination_lists.
  unfold mbind at 1, M_bind at 1. unfold mbind at 1, M_bind at 1.
  rewrite emit_logged. unfold lift at 1. rewrite Hlists.
  destruct lists as [|l0 lists'].
  { unfold mbind at 1, M_bind at 1. rewrite say_logged, logged_logged. reflexivity. }
  set (lists := l0 :: lists').
  unfold mbind at 1, M_bind at 1. rewrite say_logged, logged_logged.
  unfold mbind at 1, M_bind at 1. rewrite for_each_menu, logged_logged.
  unfold mbind at 1, M_bind at 1. rewrite say_logged, logged_logged.
  unfold mbind at 1, M_bind at 1. unfold input, logged, choice_screen. cbn [pending log].
  rewrite <- !app_assoc. cbn [app].
  destruct (pending st) as [|line rest]; [reflexivity|].
  cbv zeta. destruct (Py.int (Py.strip line)) as [index|].
  - destruct ((1 <=? index) && (index <=? Py.len lists)); [reflexivity|].
    unfold mbind, M_bind, say, emit, mret, M_ret. cbn [pending log].
    repeat (rewrite <- ?app_assoc; cbn [app]). reflexivity.
  - unfold mbind, M_bind, say, emit, mret, M_ret. cbn [pending log].
    repeat (rewrite <- ?app_assoc; cbn [app]). reflexivity.
Qed.

End ChoiceFacts.

Section CrosscheckFacts.

Import PyJson Io.

Import defender_crosscheck PyTime.

Context (d : defender) (zero_pad : bool).

Lemma queries_app l1 l2 : queries (l1 ++ l2) = (queries l1 ++ queries l2)%list.
Proof. apply omap_app. Qed.

Lemma saves_app l1 l2 : saves (l1 ++ l2) = (saves l1 ++ saves l2)%list.
Proof. apply omap_app. Qed.

Lemma queries_sent_length log : queries_sent log = length (queries log).
Proof.
  unfold queries_sent, queries. induction log as [|a log IH]; [reflexivity|].
  destruct a; cbn [List.filter omap length] in *; rewrite ?IH; reflexivity.
Qed.

Lemma query_trace_queries kql reply : queries (query_trace kql reply) = [kql].
Proof. destruct reply; reflexivity. Qed.

Lemma query_trace_saves kql reply : saves (query_trace kql reply) = [].
Proof. destruct reply; reflexivity. Qed.

(** One lookup: one query, and the observation read in its reply. *)
Lemma get_latest_spec domain days st :
  get_latest_defender_observation d zero_pad domain days st
  = let reply := kql_answer d (queries_sent (log st)) in
    (logged st (query_trace (build_kql_for_domain domain days) reply),
     Done (observation zero_pad reply)).
Proof.
  unfold get_latest_defender_observation, run_defender_kql. cbv zeta.
  unfold mbind at 1, M_bind at 1. unfold mbind at 1, M_bind at 1.
  rewrite emit_logged. unfold observation, query_trace.
  destruct (kql_answer d (queries_sent (log st))) as [| |rows].
  - unfold mbind at 1, M_bind at 1. rewrite say_logged, logged_logged. reflexivity.
  - reflexivity.
  - unfold mret at 1, M_ret at 1. destruct rows as [[|row0 rows]|]; try reflexivity.
    change (default [] (Some (row0 :: rows))) with (row0 :: rows). cbv iota.
    unfold mbind, M_bind, lift. rewrite parse_timestamp_reading.
    cbn [of_outcome]. destruct (reading _); reflexivity.
Qed.

Lemma check_row_spec days total acc c r st :
  check_row d zero_pad days total (acc, c) r st
  = match row_get_or_empty r "destination" with
    | None => (st, Fail AttributeError)
    | Some cell =>
        let domain := Py.strip cell in
        let progress := Say (CrossProgress (c + 1) total domain (eta d (c + 1))) in
        if String.eqb domain EmptyString
        then (logged st [progress],
              Done ((acc ++ [<["observedInDefender" := Some EmptyString]> r])%list, c + 1))
        else
          let reply := kql_answer d (queries_sent (log st)) in
          (logged st (progress :: query_trace (build_kql_for_domain domain days) reply),
           Done ((acc ++ [<["observedInDefender" := Some (observation zero_pad reply)]> r])%list,
                 c + 1))
    end.
Proof.
  unfold check_row. unfold mbind at 1, M_bind at 1. unfold lift at 1.
  destruct (row_get_or_empty r "destination") as [cell|]; [|reflexivity].
  cbn [or_fail]. cbv zeta. unfold mbind at 1, M_bind at 1. rewrite say_logged.
  unfold mbind at 1, M_bind at 1.
  destruct (String.eqb (Py.strip cell) EmptyString) eqn:E; cbn [negb].
  - reflexivity.
  - rewrite get_latest_spec. cbv zeta. rewrite logged_logged.
    assert (Hq : queries_sent (log (logged st
                    [Say (CrossProgress (c + 1) total (Py.strip cell) (eta d (c + 1)))]))
                 = queries_sent (log st)).
    { rewrite !queries_sent_length. unfold logged. cbn [log].
      rewrite queries_app. cbn [queries omap]. rewrite app_nil_r. reflexivity. }
    rewrite Hq. reflexivity.
Qed.

Lemma lookups_cons days r rows :
  lookups days (r :: rows)
  = match lookup_domain r with
    | Some domain => build_kql_for_domain domain days :: lookups days rows
    | None => lookups days rows
    end.
Proof. unfold lookups. cbn [omap list_omap]. destruct (lookup_domain r); reflexivity. Qed.

(** The loop of the cross-check, when it runs to its end. *)
Lemma check_rows_done days total rows : forall acc c st st' acc' c',
  for_each (check_row d zero_pad days total) (acc, c) rows st = (st', Done (acc', c')) ->
  pending st' = pending st
  /\ queries (log st') = (queries (log st) ++ lookups days rows)%list
  /\ saves (log st') = saves (log st)
  /\ acc' = (acc ++ annotate zero_pad d (length (queries (log st))) rows)%list
  /\ c' = c + Py.len rows.
Proof.
  induction rows as [|r rows IH]; intros acc c st st' acc' c'.
  - intros [= <- <- <-]. rewrite !app_nil_r. unfold Py.len. cbn [length].
    repeat split; try reflexivity. lia.
  - cbn [for_each]. unfold mbind at 1, M_bind at 1. rewrite check_row_spec.
    rewrite lookups_cons. cbn [annotate]. unfold lookup_domain.
    destruct (row_get_or_empty r "destination") as [cell|]; [|discriminate].
    cbv zeta. destruct (String.eqb (Py.strip cell) EmptyString) eqn:E.
    + intros H. apply IH in H as (Hp & Hq & Hs & Ha & Hc).
      unfold logged in Hq, Hs, Ha, Hp. cbn [log pending] in *.
      rewrite queries_app in Hq, Ha. rewrite saves_app in Hs.
      cbn [queries saves omap list_omap] in *. rewrite app_nil_r in *.
      repeat split; try assumption.
      * rewrite Ha, <- app_assoc. reflexivity.
      * rewrite Hc. unfold Py.len. cbn [length]. lia.
    + intros H. apply IH in H as (Hp & Hq & Hs & Ha & Hc).
      unfold logged in Hq, Hs, Ha, Hp. cbn [log pending] in *.
      change (Say ?p :: ?l) with ([Say p] ++ l)%list in Hq, Hs, Ha.
      rewrite !queries_app, query_trace_queries in Hq, Ha.
      rewrite !saves_app, query_trace_saves in Hs.
      cbn [queries saves omap list_omap app] in *. rewrite app_nil_r in *.
      repeat split; try assumption.
      * rewrite Hq, <- app_assoc. reflexivity.
      * rewrite Ha, <- app_assoc, length_app, queries_sent_length. cbn [length app].
        rewrite Nat.add_1_r. reflexivity.
      * rewrite Hc. unfold Py.len. cbn [length]. lia.
Qed.

(** The loop stops only at a record whose destination is no text, and
    writes nothing. *)
Lemma check_rows_fail days total rows : forall acc c st st' e,
  for_each (check_row d zero_pad days total) (acc, c) rows st = (st', Fail e) ->
  e = AttributeError
  /\ (exists r, In r rows /\ row_get_or_empty r "destination" = None)
  /\ saves (log st') = saves (log st).
Proof.
  induction rows as [|r rows IH]; intros acc c st st' e; [discriminate|].
  cbn [for_each]. unfold mbind at 1, M_bind at 1. rewrite check_row_spec.
  destruct (row_get_or_empty r "destination") as [cell|] eqn:Ecell.
  - cbv zeta. destruct (String.eqb (Py.strip cell) EmptyString).
    + intros H. apply IH in H as (-> & (r' & Hr' & Hnone) & Hs).
      repeat split; [exists r'; split; [right|]; assumption|].
      rewrite Hs. unfold logged. cbn [log]. rewrite saves_app. cbn [saves omap].
      apply app_nil_r.
    + intros H. apply IH in H as (-> & (r' & Hr' & Hnone) & Hs).
      repeat split; [exists r'; split; [right|]; assumption|].
      rewrite Hs. unfold logged. cbn [log].
      change (Say ?p :: ?l) with ([Say p] ++ l)%list.
      rewrite !saves_app, query_trace_saves. cbn [saves omap]. rewrite !app_nil_r.
      reflexivity.
  - intros [= <- <-]. repeat split. exists r. split; [left; reflexivity | exact Ecell].
Qed.

(** The loop cannot run to its end past a record whose destination is no
    text. *)
Lemma check_rows_stop days total rows r : forall acc c st,
  In r rows -> row_get_or_empty r "destination" = None ->
  exists st' e,
    for_each (check_row d zero_pad days total) (acc, c) rows st = (st', Fail e)
    /\ saves (log st') = saves (log st).
Proof.
  intros acc c st Hr Hnone.
  destruct (for_each (check_row d zero_pad days total) (acc, c) rows st)
    as [st' [[acc' c']|e]] eqn:E.
  - exfalso. revert acc c st E.
    induction rows as [|r0 rows IH]; intros acc c st; [destruct Hr|].
    cbn [for_each]. unfold mbind at 1, M_bind at 1. rewrite check_row_spec.
    destruct Hr as [->|Hr]; [rewrite Hnone; discriminate|].
    destruct (row_get_or_empty r0 "destination") as [cell|]; [|discriminate].
    cbv zeta. destruct (String.eqb (Py.strip cell) EmptyString); apply (IH Hr).
  - exists st', e. split; [reflexivity|].
    apply check_rows_fail in E as (_ & _ & Hs). exact Hs.
Qed.

Lemma check_rows_total days total rows : forall acc c st,
  Forall (fun r => row_get_or_empty r "destination" <> None) rows ->
  exists st' out, for_each (check_row d zero_pad days total) (acc, c) rows st = (st', Done out).
Proof.
  intros acc c st Hall.
  destruct (for_each (check_row d zero_pad days total) (acc, c) rows st) as [st' [out|e]] eqn:E.
  - eauto.
  - apply check_rows_fail in E as (_ & (r & Hr & Hnone) & _).
    rewrite Forall_forall in Hall. apply list_elem_of_In in Hr.
    destruct (Hall r Hr Hnone).
Qed.

End CrosscheckFacts.

Section AnswerFacts.

Import PyJson Io.

Lemma mode_of_answer_spec ans :
  match mode_of_answer ans with
  | Some prompts.yes => In ans ["y"; "yes"]
  | Some prompts.no => In ans ["n"; "no"]
  | Some prompts.dry => In ans ["dry"; "d"]
  | None => ~ In ans ["y"; "yes"; "n"; "no"; "dry"; "d"]
  end.
Proof.
  unfold mode_of_answer.
  destruct (in_list ans ["y"; "yes"]) eqn:E1; [apply in_list_In; exact E1|].
  destruct (in_list ans ["n"; "no"]) eqn:E2; [apply in_list_In; exact E2|].
  destruct (in_list ans ["dry"; "d"]) eqn:E3; [apply in_list_In; exact E3|].
  intros Hin.
  assert (Hcases : In ans ["y"; "yes"] \/ In ans ["n"; "no"] \/ In ans ["dry"; "d"]).
  { cbn [In] in *. tauto. }
  destruct Hcases as [Hc|[Hc|Hc]]; apply in_list_In in Hc; congruence.
Qed.

End AnswerFacts.


Section StageRuns.

Import PyJson Io.

Import umbrella_list_overview defender_crosscheck.

Lemma exports_app l1 l2 : exports (l1 ++ l2) = (exports l1 ++ exports l2)%list.
Proof. apply omap_app. Qed.

Lemma exports_menu i lists : exports (menu i lists) = [].
Proof. revert i. induction lists as [|l lists IH]; intros i; [reflexivity|]. apply IH. Qed.

Lemma exports_choice_screen lists : exports (choice_screen lists) = [].
Proof.
  unfold choice_screen. rewrite !exports_app, exports_menu. reflexivity.
Qed.

Lemma choose_list_done umbrella st st' chosen :
  choose_list_interactively umbrella st = (st', Done (Some chosen)) ->
  exists lists line index,
    lists_answer umbrella = Done lists
    /\ pending st = line :: pending st'
    /\ Py.int (Py.strip line) = Some index
    /\ 1 <= index <= Py.len lists
    /\ lists !! Z.to_nat (index - 1) = Some chosen
    /\ log st' = (log st ++ choice_screen lists)%list.
Proof.
  intros H.
  destruct (lists_answer umbrella) as [lists|err] eqn:El.
  2:{ unfold choose_list_interactively, list_destination_lists in H.
      unfold mbind, M_bind, emit, lift in H. rewrite El in H. discriminate. }
  rewrite (choose_list_spec _ _ _ El) in H.
  destruct lists as [|l0 lists']; [discriminate|].
  destruct (pending st) as [|line rest]; [discriminate|]. cbv zeta in H.
  destruct (Py.int (Py.strip line)) as [index|] eqn:Ei; [|discriminate].
  destruct ((1 <=? index) && (index <=? Py.len (l0 :: lists'))) eqn:Eb; [|discriminate].
  injection H as <- Hl. apply andb_true_iff in Eb as [E1 E2].
  apply Z.leb_le in E1, E2.
  exists (l0 :: lists'), line, index. cbn [pending log]. repeat apply conj; auto.
Qed.

(** The run of [run_umbrella_export] once a list is chosen. *)
Lemma run_umbrella_export_done e zero_pad umbrella st st' out :
  run_umbrella_export e zero_pad umbrella st = (st', Done out) ->
  exists st1 chosen destinations st2,
    choose_list_interactively umbrella st = (st1, Done (Some chosen))
    /\ destinations_answer umbrella (list_id chosen) = Done destinations
    /\ st2 = logged st1 [Say (SelectedList (list_name chosen) (list_id chosen));
                         FetchDestinations (list_id chosen)]
    /\ export_to_csv e zero_pad destinations
         (safe_name (list_name chosen) +:+ "_destinations.csv") st2 = (st', Done tt)
    /\ out = (abspath e (safe_name (list_name chosen) +:+ "_destinations.csv"),
              list_id chosen, list_name chosen).
Proof.
  unfold run_umbrella_export. destruct (credentials e); cbn [negb]; [|discriminate].
  unfold mbind at 1, M_bind at 1.
  destruct (choose_list_interactively umbrella st) as [st1 [[chosen|]|err]] eqn:Ec;
    try discriminate.
  cbv zeta. unfold mbind at 1, M_bind at 1. rewrite say_logged.
  unfold mbind at 1, M_bind at 1. unfold list_destinations.
  unfold mbind at 1, M_bind at 1. rewrite emit_logged, logged_logged. unfold lift at 1.
  destruct (destinations_answer umbrella (list_id chosen)) as [destinations|err] eqn:Ed;
    [|discriminate].
  unfold mbind at 1, M_bind at 1.
  destruct (export_to_csv e zero_pad destinations _ _) as [st3 [[]|err]] eqn:Ex;
    [|discriminate].
  intros [= <- <-]. exists st1, chosen, destinations. eexists.
  repeat apply conj; [reflexivity | exact Ed | reflexivity | exact Ex | reflexivity].
Qed.

(** The run of [run_defender_crosscheck], case by case. *)
Lemma run_defender_crosscheck_spec e d zero_pad csv_path fieldnames rows days st :
  run_defender_crosscheck e d zero_pad csv_path fieldnames rows days st
  = let st0 := logged st [Say (CrossLoaded csv_path); Say (CrossLookback days);
                          Say (CrossTotal (Py.len rows))] in
    if Py.len rows =? 0 then (logged st0 [Say CrossNoRows], Done csv_path)
    else
      match token_answer d with
      | Fail err => (logged st0 [TokenCall], Fail err)
      | Done false =>
          (logged st0 [TokenCall],
           Fail (Builtin (SystemExit "[!] Failed to obtain Defender token")))
      | Done true =>
          let output_path := fst (Py.splitext csv_path) +:+ "_with_defender.csv" in
          match for_each (check_row d zero_pad days (Py.len rows)) ([], 0) rows
                  (logged st0 [TokenCall; Say CrossBeginning]) with
          | (st1, Fail err) => (st1, Fail err)
          | (st1, Done (enriched_rows, _)) =>
              if writable e output_path
              then (logged st1 [SaveCsv output_path (with_observed fieldnames) enriched_rows;
                                Say (CrossDone output_path)],
                    Done (abspath e output_path))
              else (st1, Fail (Builtin OSError))
          end
      end.
Proof.
  unfold run_defender_crosscheck. cbv zeta.
  unfold mbind at 1, M_bind at 1. rewrite say_logged.
  unfold mbind at 1, M_bind at 1. rewrite say_logged, logged_logged.
  unfold mbind at 1, M_bind at 1. rewrite say_logged, logged_logged. cbn [app].
  destruct (Py.len rows =? 0).
  { unfold mbind at 1, M_bind at 1. rewrite say_logged. reflexivity. }
  unfold mbind at 1, M_bind at 1. unfold get_defender_token.
  unfold mbind at 1, M_bind at 1. rewrite emit_logged. unfold lift at 1.
  destruct (token_answer d) as [[|]|err]; cbn [negb]; try reflexivity.
  unfold mbind at 1, M_bind at 1. rewrite say_logged, logged_logged. cbn [app].
  unfold mbind at 1, M_bind at 1.
  destruct (for_each _ _ rows _) as [st1 [[enriched_rows c]|err]]; [|reflexivity].
  unfold mbind at 1, M_bind at 1. unfold with_observed.
  destruct (writable e _).
  - rewrite emit_logged. unfold mbind at 1, M_bind at 1.
    rewrite say_logged, logged_logged.
    destruct (in_list "observedInDefender" fieldnames); reflexivity.
  - reflexivity.
Qed.

End StageRuns.

(* ===================================================================== *)
(** * Properties of the prompts *)
(* ===================================================================== *)

Section PromptProperties.

Import PyJson Io.

(** X14.  When [ask_yes_no] returns, the operator has typed a line that,
    stripped and lower-cased, is exactly ["y"] or ["n"]; the result is
    [True] for ["y"] only.  Every line typed before it was neither, and was
    answered by one reminder and a new prompt; the lines after it are left
    on the input. *)
Theorem ask_yes_no_answer question lines st b :
  run (prompts.ask_yes_no question) lines = (st, Done b) ->
  exists bad good,
    lines = (bad ++ good :: pending st)%list
    /\ Py.lower (Py.strip good) = (if b then "y" else "n")
    /\ Forall (fun l => Py.lower (Py.strip l) <> "y" /\ Py.lower (Py.strip l) <> "n") bad
    /\ log st = reminders (question +:+ " (y/n): ") PleaseYesNo (length bad).
Proof.
  unfold run, prompts.ask_yes_no, while_prompt. cbn [pending log]. intros H.
  apply prompt_loop_done in H as (bad & good & Hlines & Hbad & Hgood & Hlog).
  exists bad, good. repeat apply conj.
  - exact Hlines.
  - cbv beta zeta in Hgood. unfold in_list in Hgood. cbn [existsb] in Hgood.
    destruct (String.eqb_spec (Py.lower (Py.strip good)) "y") as [Ey|Ny].
    + cbn [orb] in Hgood. injection Hgood as <-. exact Ey.
    + destruct (String.eqb_spec (Py.lower (Py.strip good)) "n") as [En|Nn];
        cbn [orb] in Hgood; [|discriminate]. injection Hgood as <-. exact En.
  - eapply Forall_impl; [exact Hbad|]. intros l Hl. cbv beta zeta in Hl.
    unfold in_list in Hl. cbn [existsb] in Hl.
    destruct (String.eqb_spec (Py.lower (Py.strip l)) "y");
      destruct (String.eqb_spec (Py.lower (Py.strip l)) "n");
      cbn [orb] in Hl; try discriminate. auto.
  - exact Hlog.
Qed.

Lemma ask_yes_no_answer_witness :
  exists bad good,
    ["maybe"; " Y "; "n"] = (bad ++ good :: ["n"])%list
    /\ Py.lower (Py.strip good) = "y".
Proof.
  destruct (ask_yes_no_answer "Proceed?" ["maybe"; " Y "; "n"]
              (mk_state ["n"] (reminders "Proceed? (y/n): " PleaseYesNo 1)) true eq_refl)
    as (bad & good & H1 & H2 & _).
  exists bad, good. auto.
Defined.

(** X15.  When [ask_delete_mode] returns, the answer typed last decides the
    mode: ["yes"] only for [y] or [yes], ["no"] only for [n] or [no],
    ["dry"] only for [dry] or [d] (stripped, in any case); every line before
    it was none of the six and got one reminder. *)
Theorem ask_delete_mode_answer question lines st mode :
  run (prompts.ask_delete_mode question) lines = (st, Done mode) ->
  exists bad good,
    lines = (bad ++ good :: pending st)%list
    /\ In (Py.lower (Py.strip good))
          match mode with
          | prompts.yes => ["y"; "yes"]
          | prompts.no => ["n"; "no"]
          | prompts.dry => ["dry"; "d"]
          end
    /\ Forall (fun l => ~ In (Py.lower (Py.strip l)) ["y"; "yes"; "n"; "no"; "dry"; "d"]) bad
    /\ log st = reminders (question +:+ " (y/n/dry): ") PleaseYesNoDry (length bad).
Proof.
  unfold run, prompts.ask_delete_mode, while_prompt. cbn [pending log]. intros H.
  apply prompt_loop_done in H as (bad & good & Hlines & Hbad & Hgood & Hlog).
  exists bad, good. repeat apply conj.
  - exact Hlines.
  - change (mode_of_answer (Py.lower (Py.strip good)) = Some mode) in Hgood.
    pose proof (mode_of_answer_spec (Py.lower (Py.strip good))) as Hspec.
    rewrite Hgood in Hspec. destruct mode; exact Hspec.
  - eapply Forall_impl; [exact Hbad|]. intros l Hl.
    change (mode_of_answer (Py.lower (Py.strip l)) = None) in Hl.
    pose proof (mode_of_answer_spec (Py.lower (Py.strip l))) as Hspec.
    rewrite Hl in Hspec. exact Hspec.
  - exact Hlog.
Qed.

Lemma ask_delete_mode_answer_witness :
  exists bad good,
    ["maybe"; " DRY "; "n"] = (bad ++ good :: ["n"])%list
    /\ In (Py.lower (Py.strip good)) ["dry"; "d"].
Proof.
  destruct (ask_delete_mode_answer "Go?" ["maybe"; " DRY "; "n"]
              (mk_state ["n"] (reminders "Go? (y/n/dry): " PleaseYesNoDry 1))
              prompts.dry eq_refl)
    as (bad & good & H1 & H2 & _).
  exists bad, good. auto.
Defined.

(** X16.  [ask_int] returns the first line typed that [int] accepts once
    stripped: the lines before it each get one reminder and a new prompt,
    the lines after it stay on the input. *)
Theorem ask_int_first_integer prompt bad good rest n :
  Forall (fun l => Py.int (Py.strip l) = None) bad ->
  Py.int (Py.strip good) = Some n ->
  run (prompts.ask_int prompt) (bad ++ good :: rest)
  = (mk_state rest (reminders prompt PleaseInteger (length bad)), Done n).
Proof.
  intros Hbad Hgood. unfold run, prompts.ask_int, while_prompt. cbn [pending log].
  apply (prompt_loop_accept prompt (fun line => Py.int (Py.strip line)) PleaseInteger
           bad good rest [] n Hbad Hgood).
Qed.

Lemma ask_int_first_integer_witness :
  run (prompts.ask_int "Days: ") ["soon"; "1.5"; " 30 "; "y"]
  = (mk_state ["y"] (reminders "Days: " PleaseInteger 2), Done 30).
Proof.
  apply (ask_int_first_integer "Days: " ["soon"; "1.5"] " 30 " ["y"] 30).
  - repeat constructor.
  - reflexivity.
Defined.

(** X17.  No prompt has a default answer: when only blank lines are typed,
    [ask_yes_no], [ask_delete_mode] and [ask_int] each repeat the question
    once per line and leave with [EOFError] at the end of the input. *)
Theorem prompts_have_no_default question lines :
  Forall (fun l => Py.strip l = EmptyString) lines ->
  run (prompts.ask_yes_no question) lines
  = (mk_state [] (reminders (question +:+ " (y/n): ") PleaseYesNo (length lines)),
     Fail EOFError)
  /\ run (prompts.ask_delete_mode question) lines
     = (mk_state [] (reminders (question +:+ " (y/n/dry): ") PleaseYesNoDry (length lines)),
        Fail EOFError)
  /\ run (prompts.ask_int question) lines
     = (mk_state [] (reminders question PleaseInteger (length lines)), Fail EOFError).
Proof.
  intros Hblank.
  unfold run, prompts.ask_yes_no, prompts.ask_delete_mode, prompts.ask_int, while_prompt.
  cbn [pending log]. repeat apply conj.
  - apply (prompt_loop_eof _ _ _ lines []).
    eapply Forall_impl; [exact Hblank|]. intros l Hl. cbv beta zeta. rewrite Hl. reflexivity.
  - apply (prompt_loop_eof _ _ _ lines []).
    eapply Forall_impl; [exact Hblank|]. intros l Hl. cbv beta zeta. rewrite Hl. reflexivity.
  - apply (prompt_loop_eof _ _ _ lines []).
    eapply Forall_impl; [exact Hblank|]. intros l Hl. cbv beta. rewrite Hl. reflexivity.
Qed.

Lemma prompts_have_no_default_witness :
  run (prompts.ask_delete_mode "Delete?") [""; "   "]
  = (mk_state [] (reminders "Delete? (y/n/dry): " PleaseYesNoDry 2), Fail EOFError).
Proof.
  apply (prompts_have_no_default "Delete?" [""; "   "]). repeat constructor.
Defined.

End PromptProperties.

(* ===================================================================== *)
(** * Properties of the export *)
(* ===================================================================== *)

Section ExportProperties.

Import PyJson Io.

(** X18.  What [clean_comment] returns holds no TAB, no LF and no CR, has no
    white space at either end, and is a text [clean_comment] leaves as it
    is. *)
Theorem clean_comment_clean text s :
  umbrella_list_overview.clean_comment text = Some s ->
  Py.contains (String TAB EmptyString) s = false
  /\ Py.contains (String LF EmptyString) s = false
  /\ Py.contains (String CR EmptyString) s = false
  /\ Py.strip s = s
  /\ umbrella_list_overview.clean_comment (JStr s) = Some s.
Proof. apply clean_comment_spec. Qed.

Lemma clean_comment_clean_witness :
  Py.contains (String TAB EmptyString) (String BACKSLASH "tblocked by SOC") = false
  /\ umbrella_list_overview.clean_comment (JStr (String BACKSLASH "tblocked by SOC"))
     = Some (String BACKSLASH "tblocked by SOC").
Proof.
  destruct (clean_comment_clean
              (JStr (String TAB ("blocked by SOC" +:+ String CR " ")))
              (String BACKSLASH "tblocked by SOC") eq_refl)
    as (H1 & _ & _ & _ & H5).
  split; assumption.
Defined.

(** X19.  A time written by [strftime] in the CSV format is read back by
    [parse_timestamp] as the same reading, cut down to whole seconds, in
    UTC; this holds for every year where the C library pads the year with
    zeros, and from the year 1000 on where it does not. *)
Theorem written_times_read_back zero_pad dt :
  Py.in_range (Py.wall dt) = true ->
  zero_pad = true \/ 1000 <= PyTime.year dt ->
  timestamps.parse_timestamp (Some (PyTime.strftime_csv zero_pad dt))
  = Ret (Some (Py.mk_datetime (Py.wall dt - Py.wall dt mod Py.US_PER_SECOND) Py.utc)).
Proof.
  intros Hr Hpad. rewrite parse_timestamp_reading, (reading_strftime _ _ Hr Hpad).
  reflexivity.
Qed.

Lemma written_times_read_back_witness :
  timestamps.parse_timestamp (Some (PyTime.strftime_csv false sample.cutoff1))
  = Ret (Some (Py.mk_datetime
                 (Py.wall sample.cutoff1 - Py.wall sample.cutoff1 mod Py.US_PER_SECOND)
                 Py.utc)).
Proof.
  apply (written_times_read_back false sample.cutoff1).
  - reflexivity.
  - right. vm_compute. discriminate.
Defined.

(** X20.  Epoch seconds survive the export: for a count of seconds from
    1970 to the end of the year 9999, the cell [export_to_csv] writes for
    [createdAt] or [modifiedAt] is read by [parse_timestamp] as exactly
    that instant. *)
Theorem export_epoch_read_back zero_pad n :
  0 <= n <= 253402300799 ->
  exists s,
    umbrella_list_overview.export_timestamp zero_pad (JInt n) = Ret s
    /\ timestamps.parse_timestamp (Some s)
       = Ret (Some (Py.mk_datetime
                      (PyTime.EPOCH_ORDINAL * Py.US_PER_DAY + n * Py.US_PER_SECOND)
                      Py.utc)).
Proof.
  intros Hn. set (w := PyTime.EPOCH_ORDINAL * Py.US_PER_DAY + n * Py.US_PER_SECOND).
  assert (Hr : Py.in_range w = true).
  { unfold Py.in_range, w, PyTime.EPOCH_ORDINAL, Py.MAXORDINAL, Py.US_PER_DAY,
      Py.US_PER_SECOND.
    apply andb_true_iff. split; [apply Z.leb_le | apply Z.ltb_lt]; lia. }
  assert (Hstamp : stamp (JInt n) = Some (Py.mk_datetime w Py.utc)).
  { unfold stamp, PyTime.fromtimestamp_utc. cbn [int]. fold w. rewrite Hr. reflexivity. }
  exists (PyTime.strftime_csv zero_pad (Py.mk_datetime w Py.utc)). split.
  - rewrite export_timestamp_spec, Hstamp. reflexivity.
  - rewrite parse_timestamp_reading, reading_strftime.
    + cbn [Py.wall]. do 3 f_equal.
      unfold w, PyTime.EPOCH_ORDINAL, Py.US_PER_DAY, Py.US_PER_SECOND.
      Z.div_mod_to_equations. lia.
    + exact Hr.
    + right. apply year_four_digits; [exact Hr|]. cbn [Py.wall].
      unfold w, PyTime.EPOCH_ORDINAL, Py.US_PER_DAY, Py.US_PER_SECOND. lia.
Qed.

Lemma export_epoch_read_back_witness :
  exists s,
    umbrella_list_overview.export_timestamp false (JInt 1704067200) = Ret s
    /\ timestamps.parse_timestamp (Some s)
       = Ret (Some (Py.mk_datetime
                      (PyTime.EPOCH_ORDINAL * Py.US_PER_DAY
                       + 1704067200 * Py.US_PER_SECOND) Py.utc)).
Proof. apply (export_epoch_read_back false 1704067200). lia. Defined.

(** X21.  A creation time the export can read neither as epoch seconds nor
    as a timestamp is written as an empty cell, and a record with that cell
    passes the age test of the later stages for every cutoff. *)
Theorem export_unreadable_time_is_kept zero_pad value cutoff (r : row) :
  stamp value = None ->
  r !! "createdAt" = Some (Some EmptyString) ->
  umbrella_list_overview.export_timestamp zero_pad value = Ret EmptyString
  /\ qualifies cutoff "createdAt" r = true.
Proof.
  intros Hstamp Hcell. split.
  - rewrite export_timestamp_spec, Hstamp. reflexivity.
  - unfold qualifies, row_get. rewrite Hcell. reflexivity.
Qed.

Lemma export_unreadable_time_is_kept_witness :
  umbrella_list_overview.export_timestamp true (JStr "last week") = Ret EmptyString
  /\ qualifies sample.cutoff1 "createdAt" {[ "createdAt" := Some EmptyString ]} = true.
Proof.
  apply (export_unreadable_time_is_kept true (JStr "last week") sample.cutoff1
           {[ "createdAt" := Some EmptyString ]}); reflexivity.
Defined.

(** X22.  The header of the export: the five preferred columns come first,
    whether or not any destination has them; no column is repeated; and a
    key is a column exactly when it is preferred or a key of some
    destination. *)
Theorem export_columns destinations :
  take 5 (umbrella_list_overview.columns destinations)
  = umbrella_list_overview.preferred_order
  /\ NoDup (umbrella_list_overview.columns destinations)
  /\ forall key,
       In key (umbrella_list_overview.columns destinations)
       <-> In key umbrella_list_overview.preferred_order
           \/ exists row, In row destinations /\ is_Some (row !! key).
Proof.
  repeat apply conj.
  - reflexivity.
  - apply columns_NoDup.
  - apply columns_spec.
Qed.

(** X23.  When [export_to_csv] succeeds on a list that is not empty, it has
    written one file, under the name it was given, with the columns of the
    header; the file has one row for each destination, in their order, and
    each row has a cell for every column and for nothing else, the cell
    being the normalised value of that key. *)
Theorem export_writes_every_row e zero_pad destinations filename st st' :
  destinations <> [] ->
  umbrella_list_overview.export_to_csv e zero_pad destinations filename st
  = (st', Done tt) ->
  exists rows,
    exports (log st')
    = (exports (log st)
       ++ [(filename, umbrella_list_overview.columns destinations, rows)])%list
    /\ Forall2
         (fun row norm =>
            forall key,
              (In key (umbrella_list_overview.columns destinations) ->
               exists value,
                 umbrella_list_overview.normalize zero_pad row key = Done value
                 /\ norm !! key = Some value)
              /\ (~ In key (umbrella_list_overview.columns destinations) ->
                  norm !! key = None))
         destinations rows.
Proof.
  intros Hne. rewrite export_to_csv_spec.
  destruct destinations as [|d ds]; [congruence|]. cbv zeta.
  set (all := d :: ds) in *. set (keys := umbrella_list_overview.columns all).
  destruct (normalized zero_pad keys [] all) as [rows|err] eqn:En; [|discriminate].
  destruct (writable e filename); [|discriminate].
  intros [= <-]. exists rows. split.
  - unfold logged, exports. cbn [log]. rewrite omap_app. reflexivity.
  - apply normalized_done in En as (norms & -> & Hall). cbn [app].
    eapply Forall2_impl; [exact Hall|]. intros row norm Hcells key.
    apply cells_done in Hcells as [Hin Hout]. split.
    + apply Hin.
    + intros Hk. rewrite (Hout _ Hk). apply lookup_empty.
Qed.

Lemma export_writes_every_row_witness :
  exists rows,
    exports (log (fst (run (umbrella_list_overview.export_to_csv sample.quiet true
                              [sample_io.shop] "list.csv") [])))
    = [("list.csv", umbrella_list_overview.columns [sample_io.shop], rows)]
    /\ length rows = 1%nat.
Proof.
  destruct (export_writes_every_row sample.quiet true [sample_io.shop] "list.csv"
              (mk_state [] [])
              (fst (run (umbrella_list_overview.export_to_csv sample.quiet true
                           [sample_io.shop] "list.csv") []))
              ltac:(discriminate) eq_refl) as (rows & Hlog & Hall).
  exists rows. split; [exact Hlog|].
  apply Forall2_length in Hall. symmetry. exact Hall.
Defined.

(** X24.  One comment that is neither a text nor falsy stops the whole
    export: [export_to_csv] leaves with [AttributeError] after printing the
    columns, and writes no file, whatever the other destinations are. *)
Theorem export_stops_at_bad_comment e zero_pad destinations filename st row :
  In row destinations -> comment_ok row = false ->
  umbrella_list_overview.export_to_csv e zero_pad destinations filename st
  = (logged st [Say (CsvColumns (umbrella_list_overview.columns destinations))],
     Fail AttributeError).
Proof.
  intros Hrow Hbad. rewrite export_to_csv_spec.
  destruct destinations as [|d ds]; [destruct Hrow|]. cbv zeta.
  rewrite (normalized_bad_comment zero_pad _ [] _ row); [reflexivity| |exact Hrow|exact Hbad].
  apply columns_spec. left. unfold umbrella_list_overview.preferred_order.
  cbn [In]. tauto.
Qed.

Lemma export_stops_at_bad_comment_witness :
  run (umbrella_list_overview.export_to_csv sample.quiet true
         [sample_io.shop; sample_io.counted] "list.csv") []
  = (mk_state [] [Say (CsvColumns (umbrella_list_overview.columns
                                     [sample_io.shop; sample_io.counted]))],
     Fail AttributeError).
Proof.
  apply (export_stops_at_bad_comment sample.quiet true
           [sample_io.shop; sample_io.counted] "list.csv" (mk_state [] [])
           sample_io.counted).
  - right. left. reflexivity.
  - reflexivity.
Defined.

(** X25.  The stem of the file name the export makes from the name of a
    list holds only letters, digits and underscores, so the file name holds
    no path separator and no dot but the one of its extension. *)
Theorem export_file_name_is_plain name :
  all_chars name_char (umbrella_list_overview.safe_name name) = true
  /\ Py.contains "/" (umbrella_list_overview.safe_name name +:+ "_destinations.csv") = false
  /\ Py.contains "." (umbrella_list_overview.safe_name name +:+ "_destinations") = false.
Proof.
  pose proof (safe_name_chars name) as H. repeat apply conj.
  - exact H.
  - rewrite contains_one_app, (all_chars_contains name_char "/" _ eq_refl H). reflexivity.
  - rewrite contains_one_app, (all_chars_contains name_char "." _ eq_refl H). reflexivity.
Qed.

(** X26.  [choose_list_interactively] returns a list only when the line
    typed reads as a number between 1 and the number of lists shown, and
    then it is the list shown under that number: zero, negative numbers and
    numbers beyond the menu select nothing. *)
Theorem choice_is_from_the_menu umbrella st st' chosen :
  umbrella_list_overview.choose_list_interactively umbrella st = (st', Done (Some chosen)) ->
  exists lists line index,
    umbrella_list_overview.lists_answer umbrella = Done lists
    /\ pending st = line :: pending st'
    /\ Py.int (Py.strip line) = Some index
    /\ 1 <= index <= Py.len lists
    /\ lists !! Z.to_nat (index - 1) = Some chosen
    /\ log st' = (log st ++ choice_screen lists)%list.
Proof. apply choose_list_done. Qed.

Lemma choice_is_from_the_menu_witness :
  exists lists line index,
    umbrella_list_overview.lists_answer sample_io.api = Done lists
    /\ [" 2 "; "y"] = line :: ["y"]
    /\ Py.int (Py.strip line) = Some index
    /\ 1 <= index <= Py.len lists.
Proof.
  destruct (choice_is_from_the_menu sample_io.api (mk_state [" 2 "; "y"] [])
              (mk_state ["y"] (choice_screen sample_io.lists))
              (umbrella_list_overview.mk_list 202 "Test / Staging") eq_refl)
    as (lists & line & index & H1 & H2 & H3 & H4 & _).
  exists lists, line, index. auto.
Defined.

(** X27.  The path [run_umbrella_export] returns is that of the file named
    after the chosen list, and comes with the id and the name of that list.
    The file is written in the run only when the list has destinations: for
    an empty list nothing is written, and the path is returned all the
    same. *)
Theorem export_path_may_be_unwritten e zero_pad umbrella st st' path list_id name :
  umbrella_list_overview.run_umbrella_export e zero_pad umbrella st
  = (st', Done (path, list_id, name)) ->
  let filename := umbrella_list_overview.safe_name name +:+ "_destinations.csv" in
  path = abspath e filename
  /\ exists destinations,
       umbrella_list_overview.destinations_answer umbrella list_id = Done destinations
       /\ match destinations with
          | [] => exports (log st') = exports (log st)
          | _ =>
              exists rows,
                exports (log st')
                = (exports (log st)
                   ++ [(filename, umbrella_list_overview.columns destinations, rows)])%list
                /\ length rows = length destinations
          end.
Proof.
  intros H. cbv zeta.
  apply run_umbrella_export_done in H
    as (st1 & chosen & destinations & st2 & Hc & Hd & -> & Hx & [= -> -> ->]).
  split; [reflexivity|]. exists destinations. split; [exact Hd|].
  apply choose_list_done in Hc as (lists & line & index & _ & _ & _ & _ & _ & Hlog).
  assert (Hbefore : exports (log (logged st1
                      [Say (SelectedList (umbrella_list_overview.list_name chosen)
                              (umbrella_list_overview.list_id chosen));
                       FetchDestinations (umbrella_list_overview.list_id chosen)]))
                    = exports (log st)).
  { unfold logged. cbn [log]. rewrite Hlog, !exports_app, exports_choice_screen.
    cbn [exports omap list_omap]. rewrite !app_nil_r. reflexivity. }
  rewrite export_to_csv_spec in Hx. destruct destinations as [|d ds].
  - injection Hx as <-. rewrite <- Hbefore. unfold logged. cbn [log].
    rewrite !exports_app. cbn [exports omap list_omap]. rewrite !app_nil_r. reflexivity.
  - cbv zeta in Hx.
    destruct (normalized zero_pad _ [] (d :: ds)) as [rows|err] eqn:En; [|discriminate].
    destruct (writable e _); [|discriminate]. injection Hx as <-.
    exists rows. split.
    + rewrite <- Hbefore. unfold logged. cbn [log]. rewrite !exports_app. reflexivity.
    + apply normalized_done in En as (norms & -> & Hall). cbn [app].
      symmetry. eapply Forall2_length. exact Hall.
Qed.

Lemma export_path_may_be_unwritten_witness :
  exports (log (fst (run (umbrella_list_overview.run_umbrella_export sample.quiet true
                            sample_io.api) ["2"]))) = [].
Proof.
  destruct (export_path_may_be_unwritten sample.quiet true sample_io.api
              (mk_state ["2"] [])
              (fst (run (umbrella_list_overview.run_umbrella_export sample.quiet true
                           sample_io.api) ["2"]))
              (abspath sample.quiet "Test__Staging_destinations.csv") 202 "Test / Staging"
              eq_refl) as (_ & destinations & Hd & H).
  injection Hd as <-. exact H.
Defined.

End ExportProperties.

(* ===================================================================== *)
(** * Properties of the Defender cross-check *)
(* ===================================================================== *)

Section CrosscheckProperties.

Import PyJson Io.

(** X28.  On a record set without records the cross-check asks for no
    token, sends no query and writes no file; it returns the path it was
    given, as it was given. *)
Theorem crosscheck_of_nothing e d zero_pad csv_path fieldnames days st :
  defender_crosscheck.run_defender_crosscheck e d zero_pad csv_path fieldnames [] days st
  = (logged st [Say (CrossLoaded csv_path); Say (CrossLookback days);
                Say (CrossTotal 0); Say CrossNoRows],
     Done csv_path).
Proof. rewrite run_defender_crosscheck_spec. cbv zeta. rewrite logged_logged. reflexivity. Qed.

(** X29.  When the cross-check of a record set with records succeeds, it
    has sent one query for each record whose destination is not blank, in
    the order of the records and for the stripped destination, and none for
    the others; it has written one file, named after the input with the
    suffix [_with_defender.csv], whose header is the input's with the
    column [observedInDefender], added when it was missing, and whose rows
    are the input's, in order, each with the observation read in the
    answer to its own query, or with the empty text where no query was
    sent; and it returns the absolute path of that file. *)
Theorem crosscheck_enriches e d zero_pad csv_path fieldnames rows days st st' out :
  rows <> [] ->
  defender_crosscheck.run_defender_crosscheck e d zero_pad csv_path fieldnames rows days st
  = (st', Done out) ->
  let output_path := fst (Py.splitext csv_path) +:+ "_with_defender.csv" in
  out = abspath e output_path
  /\ queries (log st') = (queries (log st) ++ lookups days rows)%list
  /\ saves (log st')
     = (saves (log st)
        ++ [(output_path, with_observed fieldnames,
             annotate zero_pad d (length (queries (log st))) rows)])%list
  /\ pending st' = pending st.
Proof.
  intros Hne. rewrite run_defender_crosscheck_spec. cbv zeta.
  destruct (Z.eqb_spec (Py.len rows) 0) as [E|_].
  { destruct rows; [congruence|]. unfold Py.len in E. cbn [length] in E. lia. }
  destruct (defender_crosscheck.token_answer d) as [[|]|err]; try discriminate.
  destruct (for_each _ _ rows _) as [st1 [[enriched c]|err]] eqn:Eloop; [|discriminate].
  destruct (writable e _); [|discriminate]. intros [= <- <-].
  apply check_rows_done in Eloop as (Hp & Hq & Hs & -> & _).
  unfold logged in *. cbn [log pending] in *.
  rewrite !queries_app in Hq. rewrite !saves_app in Hs.
  cbn [queries saves omap list_omap] in Hq, Hs. rewrite !app_nil_r in Hq, Hs.
  rewrite !queries_app. cbn [queries omap list_omap]. rewrite !app_nil_r.
  repeat apply conj.
  - reflexivity.
  - exact Hq.
  - rewrite saves_app, Hs. reflexivity.
  - exact Hp.
Qed.

Lemma crosscheck_enriches_witness :
  queries (log (fst (run (defender_crosscheck.run_defender_crosscheck sample.quiet
                            sample_io.service true "out/list.csv" ["id"; "destination"]
                            [sample_io.listed; sample_io.blank; sample_io.other] 30) [])))
  = lookups 30 [sample_io.listed; sample_io.blank; sample_io.other].
Proof.
  destruct (crosscheck_enriches sample.quiet sample_io.service true "out/list.csv"
              ["id"; "destination"]
              [sample_io.listed; sample_io.blank; sample_io.other] 30 (mk_state [] [])
              (fst (run (defender_crosscheck.run_defender_crosscheck sample.quiet
                           sample_io.service true "out/list.csv" ["id"; "destination"]
                           [sample_io.listed; sample_io.blank; sample_io.other] 30) []))
              (abspath sample.quiet "out/list_with_defender.csv")
              ltac:(discriminate) eq_refl) as (_ & Hq & _).
  exact Hq.
Defined.

(** X30.  The cross-check of a record set that was read and has records
    stops before it opens its output file when no usable token is obtained,
    or when the destination of some record is [None], as in a line shorter
    than the header: the run fails and writes no file.  Without a usable
    token it sends no query either, and a falsy token ends it with
    [SystemExit]. *)
Theorem crosscheck_stops_before_writing e d zero_pad csv_path fieldnames rows days st :
  rows <> [] ->
  defender_crosscheck.token_answer d <> Done true
  \/ (exists r, In r rows /\ row_get_or_empty r "destination" = None) ->
  exists st' err,
    defender_crosscheck.run_defender_crosscheck e d zero_pad csv_path fieldnames rows days st
    = (st', Fail err)
    /\ saves (log st') = saves (log st)
    /\ (defender_crosscheck.token_answer d <> Done true ->
        queries (log st') = queries (log st))
    /\ (defender_crosscheck.token_answer d = Done false ->
        err = Builtin (SystemExit "[!] Failed to obtain Defender token")).
Proof.
  intros Hne Hcause. rewrite run_defender_crosscheck_spec. cbv zeta.
  destruct (Z.eqb_spec (Py.len rows) 0) as [E|_].
  { destruct rows; [congruence|]. unfold Py.len in E. cbn [length] in E. lia. }
  destruct (defender_crosscheck.token_answer d) as [[|]|err'] eqn:Et.
  - destruct Hcause as [Hcause|(r & Hr & Hnone)]; [congruence|].
    destruct (check_rows_stop d zero_pad days (Py.len rows) rows r [] 0
                (logged st [Say (CrossLoaded csv_path); Say (CrossLookback days);
                            Say (CrossTotal (Py.len rows)); TokenCall;
                            Say CrossBeginning]) Hr Hnone) as (st' & e' & Hloop & Hs).
    rewrite logged_logged. cbn [app]. rewrite Hloop. exists st', e'.
    repeat apply conj.
    + reflexivity.
    + rewrite Hs. unfold logged. cbn [log]. rewrite saves_app.
      cbn [saves omap list_omap]. apply app_nil_r.
    + intros Hc. congruence.
    + intros [=].
  - eexists _, _. repeat apply conj.
    + reflexivity.
    + unfold logged. cbn [log]. rewrite !saves_app. cbn [saves omap list_omap].
      rewrite !app_nil_r. reflexivity.
    + intros _. unfold logged. cbn [log]. rewrite !queries_app.
      cbn [queries omap list_omap]. rewrite !app_nil_r. reflexivity.
    + reflexivity.
  - eexists _, _. repeat apply conj.
    + reflexivity.
    + unfold logged. cbn [log]. rewrite !saves_app. cbn [saves omap list_omap].
      rewrite !app_nil_r. reflexivity.
    + intros _. unfold logged. cbn [log]. rewrite !queries_app.
      cbn [queries omap list_omap]. rewrite !app_nil_r. reflexivity.
    + intros [=].
Qed.

Lemma crosscheck_stops_before_writing_witness :
  exists st' err,
    run (defender_crosscheck.run_defender_crosscheck sample.quiet sample_io.service true
           "out/list.csv" ["id"; "destination"]
           [sample_io.listed; sample_io.short; sample_io.other] 30) []
    = (st', Fail err)
    /\ saves (log st') = [].
Proof.
  destruct (crosscheck_stops_before_writing sample.quiet sample_io.service true
              "out/list.csv" ["id"; "destination"]
              [sample_io.listed; sample_io.short; sample_io.other] 30 (mk_state [] [])
              ltac:(discriminate)
              (or_intror (ex_intro _ sample_io.short
                            (conj (or_intror (or_introl eq_refl)) eq_refl))))
    as (st' & err & Hrun & Hs & _).
  exists st', err. split; [exact Hrun | exact Hs].
Defined.

End CrosscheckProperties.
